(** * UziVerse: similarity, feature prediction and hybrid ranking

    A shallow embedding of the scoring core of the application
    ([src/lib/audio-analysis.js], [src/lib/recommendation-engine.js],
    [src/lib/ai-prediction.js], [src/lib/data-completion.js]) and the
    properties its specification states about it.

    JavaScript numbers are idealised as real numbers; the one non-finite
    value the modelled code can produce from finite inputs, the [NaN] of a
    [0 / 0], is kept as a value of its own. The general properties
    stated of computed numbers are comparisons, signs, clamped ranges
    and orders, which rounding keeps; identities that hold of the reals
    only (a vector at similarity exactly 1 to itself, shares that add up
    to exactly 1, a correlation of exactly 0 without variance) are not
    stated in general. The values given for sample inputs are those of
    exact decimal arithmetic, from which a double differs by rounding.

    Objects and [Map]s whose iteration order matters are association
    lists in insertion order; feature objects are keyed by the twelve
    audio features, in the order the columns of a song row have (a sum
    of reals does not depend on the order of its terms, so the modelled
    values do not depend on the order in which an object lists its keys;
    a double can, by rounding). A genre or mood row is what reading its
    [name] gives: a string, or [undefined] for the rows of the join
    tables, which is what [include: { genres: true, moods: true }] loads.

    Asynchronous methods are computations over a world made of the
    database, the predictor singleton, the console and a count of the
    calls made; the branches of a [Promise.all] run one after the other
    (none of them changes what another reads, so the values they return
    do not depend on that order; the order of the console lines and of
    the counted calls does). *)

From Stdlib Require Import Reals Lra Lia List String Ascii Bool ZArith.
From Stdlib Require Import Permutation Sorted DecimalString.
Import ListNotations.

Open Scope string_scope.
Open Scope list_scope.
Open Scope R_scope.

(** ** Numbers *)

(** A JavaScript number: a real, or [NaN]. *)
Inductive num : Type :=
| Num (r : R)
| NaN.

Definition nlift2 (op : R -> R -> R) (a b : num) : num :=
  match a, b with
  | Num x, Num y => Num (op x y)
  | _, _ => NaN
  end.

Definition nadd : num -> num -> num := nlift2 Rplus.
Definition nmul : num -> num -> num := nlift2 Rmult.
(** [Math.max] and [Math.min] return [NaN] as soon as one argument is. *)
Definition math_max : num -> num -> num := nlift2 Rmax.
Definition math_min : num -> num -> num := nlift2 Rmin.

(** [a / b] for a divisor known to be non-zero. *)
Definition ndiv_pos (a : num) (b : R) : num :=
  match a with
  | Num x => Num (x / b)
  | NaN => NaN
  end.

(** [Math.max(0, Math.min(1, x))] *)
Definition clamp01 (x : num) : num := math_max (Num 0) (math_min (Num 1) x).

(** [x > y] on JavaScript numbers: false as soon as one side is [NaN]. *)
Definition Rgtb (x y : R) : bool := if Rlt_dec y x then true else false.
Definition Rgeb (x y : R) : bool := if Rle_dec y x then true else false.
Definition Rltb (x y : R) : bool := Rgtb y x.
Definition Reqb (x y : R) : bool := if Req_dec_T x y then true else false.

(** Order on [num] used to state bounds: [NaN] is below nothing and
    above nothing. *)
Definition nle (a b : num) : Prop :=
  match a, b with
  | Num x, Num y => x <= y
  | _, _ => False
  end.

(** [v && v > t] on a feature column. *)
Definition above (v : option R) (t : R) : bool :=
  match v with
  | Some x => negb (Reqb x 0) && Rgtb x t
  | None => false
  end.

(** ** Strings *)

Definition lower_ascii (c : ascii) : ascii :=
  let n := nat_of_ascii c in
  if (65 <=? n)%nat && (n <=? 90)%nat then ascii_of_nat (n + 32) else c.

(** [s.toLowerCase()], on the ASCII letters. *)
Fixpoint toLowerCase (s : string) : string :=
  match s with
  | EmptyString => EmptyString
  | String c s' => String (lower_ascii c) (toLowerCase s')
  end.

(** [s.includes(pat)] *)
Fixpoint str_includes (s pat : string) : bool :=
  String.prefix pat s ||
  match s with
  | EmptyString => false
  | String _ s' => str_includes s' pat
  end.

(** [String(n)] for a count. *)
Definition string_of_nat (n : nat) : string := NilZero.string_of_uint (Nat.to_uint n).

(** ** Tag rows *)

(** What [g.name] reads off an included genre or mood row: the name, or
    [undefined] when the row has no such property. The rows that
    [include: { genres: true, moods: true }] loads are those of the join
    tables ([songId] and [genreId], [songId] and [moodId]): they carry no
    name. *)
Inductive Name : Type :=
| Named (s : string)
| Undefined.

Definition Name_eqb (a b : Name) : bool :=
  match a, b with
  | Named x, Named y => String.eqb x y
  | Undefined, Undefined => true
  | _, _ => false
  end.

(** [arr.includes(x)] on an array of names. *)
Definition includes (arr : list Name) (x : Name) : bool :=
  existsb (Name_eqb x) arr.

(** The property key a name turns into when it indexes an object. *)
Definition name_key (n : Name) : string :=
  match n with
  | Named s => s
  | Undefined => "undefined"
  end.

(** [g.name || g] when it is a string: the name, unless it is missing or
    empty (the row object then stands in). *)
Definition truthy_name (n : Name) : option string :=
  match n with
  | Named s => if String.eqb s "" then None else Some s
  | Undefined => None
  end.

(** ** Songs and feature objects *)

(** The audio-feature columns of a song, in the order the code lists
    them. *)
Inductive Feature : Type :=
| energy | danceability | valence | tempo
| acousticness | instrumentalness | liveness | speechiness
| loudness | mode | key | timeSignature.

Definition all_features : list Feature :=
  [energy; danceability; valence; tempo; acousticness; instrumentalness;
   liveness; speechiness; loudness; mode; key; timeSignature].

Definition Feature_eqb (a b : Feature) : bool :=
  match a, b with
  | energy, energy | danceability, danceability | valence, valence
  | tempo, tempo | acousticness, acousticness
  | instrumentalness, instrumentalness | liveness, liveness
  | speechiness, speechiness | loudness, loudness | mode, mode
  | key, key | timeSignature, timeSignature => true
  | _, _ => false
  end.

(** An object keyed by feature names; [None] is a key that is absent or
    holds [null]/[undefined], [Some v] a key that holds the number [v]. *)
Definition FeatureObj : Type := Feature -> option R.

Definition empty_features : FeatureObj := fun _ => None.

Definition set_feature (o : FeatureObj) (k : Feature) (v : R) : FeatureObj :=
  fun k' => if Feature_eqb k k' then Some v else o k'.

Definition is_number (v : option R) : bool :=
  match v with
  | Some _ => true
  | None => false
  end.

Definition is_number_obj (v : option FeatureObj) : bool :=
  match v with
  | Some _ => true
  | None => false
  end.

Definition is_array (v : option (list Name)) : bool :=
  match v with
  | Some _ => true
  | None => false
  end.

(** [o[k]] where the key is known to hold a number. *)
Definition num_at (o : FeatureObj) (k : Feature) : R :=
  match o k with
  | Some v => v
  | None => 0
  end.

(** [Object.keys(o)], restricted to the keys holding a value. *)
Definition object_keys (o : FeatureObj) : list Feature :=
  filter (fun k => is_number (o k)) all_features.

(** A song row with its included relations. [feature] holds the flat
    audio columns ([song.energy], ...); [audioFeatures] is the nested
    object some callers attach; [genres] and [moods] hold, row by row,
    what [name] reads off the included rows, [None] when the relation is
    not there. *)
Record Song : Type := {
  id : string;
  title : string;
  artist : string;
  year : option Z;
  feature : FeatureObj;
  audioFeatures : option FeatureObj;
  genres : option (list Name);
  moods : option (list Name);
  popularity : option R;
  totalPlays : Z;
  totalLikes : Z;
  avgRating : R
}.

(** The names of the included tag rows ([[]] when the relation is not
    there). *)
Definition tag_names (tags : option (list Name)) : list Name :=
  match tags with
  | Some names => names
  | None => []
  end.

(** [song.genres && song.genres.length > 0] *)
Definition hasTags (tags : option (list Name)) : bool :=
  match tags with
  | Some (_ :: _) => true
  | _ => false
  end.

(** [song.popularity || 0] *)
Definition popularity_or_0 (s : Song) : R :=
  match popularity s with
  | Some p => p
  | None => 0
  end.

(** The three factors whose inputs a song may lack. *)
Inductive Factor : Type := Audio | Genre | Mood.

Definition Factor_eqb (f g : Factor) : bool :=
  match f, g with
  | Audio, Audio | Genre, Genre | Mood, Mood => true
  | _, _ => false
  end.

(** A song with the data of one factor replaced. *)
Definition set_genres (g : option (list Name)) (s : Song) : Song :=
  {| id := id s; title := title s; artist := artist s; year := year s;
     feature := feature s; audioFeatures := audioFeatures s;
     genres := g; moods := moods s; popularity := popularity s;
     totalPlays := totalPlays s; totalLikes := totalLikes s; avgRating := avgRating s |}.

Definition set_moods (m : option (list Name)) (s : Song) : Song :=
  {| id := id s; title := title s; artist := artist s; year := year s;
     feature := feature s; audioFeatures := audioFeatures s;
     genres := genres s; moods := m; popularity := popularity s;
     totalPlays := totalPlays s; totalLikes := totalLikes s; avgRating := avgRating s |}.

Definition set_audio (cols : FeatureObj) (a : option FeatureObj) (s : Song) : Song :=
  {| id := id s; title := title s; artist := artist s; year := year s;
     feature := cols; audioFeatures := a;
     genres := genres s; moods := moods s; popularity := popularity s;
     totalPlays := totalPlays s; totalLikes := totalLikes s; avgRating := avgRating s |}.

(** A song stripped of the data of one factor. *)
Definition without_genres : Song -> Song := set_genres None.
Definition without_moods : Song -> Song := set_moods None.
Definition without_audio : Song -> Song := set_audio empty_features None.

Definition without (f : Factor) (s : Song) : Song :=
  match f with
  | Audio => without_audio s
  | Genre => without_genres s
  | Mood => without_moods s
  end.

(** An object all of whose values are non-negative. *)
Definition nonneg_obj (o : FeatureObj) : Prop := forall k v, o k = Some v -> 0 <= v.

(** ** Association lists: objects whose keys are strings *)

(** [obj[key]] *)
Fixpoint lookup {V : Type} (key : string) (obj : list (string * V)) : option V :=
  match obj with
  | [] => None
  | (k, v) :: rest => if String.eqb key k then Some v else lookup key rest
  end.

(** [obj[key] = f(obj[key])]: an existing key keeps its place, a new key
    goes last. *)
Fixpoint upsert {V : Type} (key : string) (f : option V -> V) (obj : list (string * V))
  : list (string * V) :=
  match obj with
  | [] => [(key, f None)]
  | (k, v) :: rest =>
    if String.eqb key k then (k, f (Some v)) :: rest
    else (k, v) :: upsert key f rest
  end.

(** A stable sort: [ahead x y] tells that [x], which came before [y],
    stays before it. *)
Fixpoint insert_by {A : Type} (ahead : A -> A -> bool) (x : A) (sorted : list A) : list A :=
  match sorted with
  | [] => [x]
  | y :: rest =>
    if ahead x y then x :: y :: rest
    else y :: insert_by ahead x rest
  end.

Definition sort_by {A : Type} (ahead : A -> A -> bool) (arr : list A) : list A :=
  fold_right (insert_by ahead) [] arr.

(** Of two elements, one may always stay ahead of the other. *)
Definition ahead_total {A} (ahead : A -> A -> bool) : Prop :=
  forall x y, ahead x y = true \/ ahead y x = true.

(** [arr.sort((a, b) => score(b) - score(a))]: highest score first, ties
    in their order of arrival. *)
Definition sort_desc {A : Type} (score : A -> R) (arr : list A) : list A :=
  sort_by (fun x y => Rgeb (score x) (score y)) arr.

(** [[...new Set(arr)]]: the first occurrence of each string, in order. *)
Fixpoint dedupe (arr : list string) : list string :=
  match arr with
  | [] => []
  | x :: rest => x :: filter (fun y => negb (String.eqb x y)) (dedupe rest)
  end.

(** ** The database, the predictor singleton and the effects of a call *)

(** Rows as [findMany] returns them with [include: { song: ... }]. *)
Record Interaction : Type := {
  i_userId : string;
  i_song : Song;
  playCount : R;
  totalTime : R
}.

Record Like : Type := {
  l_userId : string;
  l_song : Song
}.

Record Rating : Type := {
  r_userId : string;
  r_song : Song;
  rating : R
}.

(** [up] tells whether queries answer; a query on a database that is
    down throws. *)
Record Database : Type := {
  up : bool;
  songTable : list Song;
  userSongInteraction : list Interaction;
  userSongLike : list Like;
  ratingTable : list Rating
}.

(** The models of [AIFeaturePredictor]: the entries of its three maps
    ([None]: the key was never set) and the [initialized] flag. *)
Record Predictor : Type := {
  correlations : option (list (Feature * list (Feature * R)));
  artistModels : option (list (string * FeatureObj));
  yearModels : option (list (string * FeatureObj));
  genreAverages : option (list (string * FeatureObj));
  moodAverages : option (list (string * FeatureObj));
  initialized : bool
}.

(** [new AIFeaturePredictor()] *)
Definition newPredictor : Predictor :=
  {| correlations := None; artistModels := None; yearModels := None;
     genreAverages := None; moodAverages := None; initialized := false |}.

(** The methods whose invocations are counted. *)
Inductive Call : Type :=
| CallFindSimilarItems
| CallFindSimilarSongs
| CallContentGetRecommendations
| CallCalculateContentSimilarity
| CallGetEnhancedRecommendations
| CallGetPopularSongs
| CallHybridGetRecommendations.

(** A console line: the method and the text of its first argument (the
    error object that [console.error] prints after it is left out). The
    text is held as the bytes of its UTF-8 encoding. *)
Inductive Console : Type :=
| Log (msg : string)
| Warn (msg : string)
| Error (msg : string).

(** What a call can read and change. *)
Record World : Type := {
  database : Database;
  predictor : Predictor;
  console : list Console;
  calls : list Call
}.

Inductive Result (A : Type) : Type :=
| Ok (a : A)
| Thrown (what : string).
Arguments Ok {A} a.
Arguments Thrown {A} what.

(** A computation that reads and changes the world and returns or
    throws. *)
Definition M (A : Type) : Type := World -> Result A * World.

Definition ret {A} (a : A) : M A := fun w => (Ok a, w).

Definition bind {A B} (m : M A) (k : A -> M B) : M B :=
  fun w =>
    match m w with
    | (Ok a, w') => k a w'
    | (Thrown e, w') => (Thrown e, w')
    end.

Notation "x <- m ;; k" := (bind m (fun x => k))
  (at level 61, m at next level, right associativity).
Notation "m ;;; k" := (bind m (fun _ => k))
  (at level 61, right associativity).

(** [try { body } catch (error) { handler }] *)
Definition try_catch {A} (body : M A) (handler : string -> M A) : M A :=
  fun w =>
    match body w with
    | (Ok a, w') => (Ok a, w')
    | (Thrown e, w') => handler e w'
    end.

Definition say (c : Console) : M unit :=
  fun w => (Ok tt, {| database := database w; predictor := predictor w;
                      console := console w ++ [c]; calls := calls w |}).

Definition count_call (c : Call) : M unit :=
  fun w => (Ok tt, {| database := database w; predictor := predictor w;
                      console := console w; calls := calls w ++ [c] |}).

Definition get_predictor : M Predictor := fun w => (Ok (predictor w), w).

Definition set_predictor (p : Predictor) : M unit :=
  fun w => (Ok tt, {| database := database w; predictor := p;
                      console := console w; calls := calls w |}).

(** A query: the rows a pure selection picks, or an exception. *)
Definition query {A} (select : Database -> A) : M A :=
  fun w => if up (database w) then (Ok (select (database w)), w)
           else (Thrown "database unavailable", w).

(** A step without effect that returns or throws. *)
Definition lift {A} (r : Result A) : M A := fun w => (r, w).

Definition result_map {A B} (f : A -> B) (r : Result A) : Result B :=
  match r with
  | Ok a => Ok (f a)
  | Thrown e => Thrown e
  end.

(** The world after a counted call, and after a console message. *)
Definition called (c : Call) (w : World) : World :=
  {| database := database w; predictor := predictor w;
     console := console w; calls := calls w ++ [c] |}.

Definition said (c : Console) (w : World) : World :=
  {| database := database w; predictor := predictor w;
     console := console w ++ [c]; calls := calls w |}.

(** A computation that returns normally from every world. *)
Definition returns {A} (m : M A) : Prop := forall w, exists v w', m w = (Ok v, w').

(** Iterating an effectful step over an array. *)
Fixpoint for_each {A B} (f : A -> M B) (arr : list A) : M (list B) :=
  match arr with
  | [] => ret []
  | x :: rest => y <- f x ;; ys <- for_each f rest ;; ret (y :: ys)
  end.

(** ** audio-analysis.js *)

Module AudioAnalysis.

(** [cosineSimilarity(features1, features2)] *)
Definition cosineSimilarity (features1 features2 : FeatureObj) : R :=
  let keys :=
    filter (fun key => is_number (features1 key) && is_number (features2 key))
           (object_keys features1) in
  match keys with
  | [] => 0
  | _ =>
    let dotProduct :=
      fold_left (fun acc key => acc + num_at features1 key * num_at features2 key) keys 0 in
    let norm1 :=
      fold_left (fun acc key => acc + num_at features1 key * num_at features1 key) keys 0 in
    let norm2 :=
      fold_left (fun acc key => acc + num_at features2 key * num_at features2 key) keys 0 in
    if Reqb norm1 0 || Reqb norm2 0 then 0
    else dotProduct / (sqrt norm1 * sqrt norm2)
  end.

(** The normalization range of each feature. *)
Definition ranges (k : Feature) : R * R :=
  match k with
  | tempo => (50, 200)
  | loudness => (-60, 0)
  | key => (0, 11)
  | timeSignature => (3, 7)
  | _ => (0, 1)
  end.

(** [normalizeFeatures(features)] *)
Definition normalizeFeatures (features : FeatureObj) : FeatureObj :=
  fun k =>
    match features k with
    | Some v =>
      let (mn, mx) := ranges k in
      Some (Rmax 0 (Rmin 1 ((v - mn) / (mx - mn))))
    | None => None
    end.

Record Weights : Type := {
  w_audioFeatures : R;
  w_genre : R;
  w_mood : R;
  w_popularity : R
}.

Definition defaultWeights : Weights :=
  {| w_audioFeatures := 0.6; w_genre := 0.2; w_mood := 0.1; w_popularity := 0.1 |}.

(** The optional third argument: the keys the caller overrides. *)
Record WeightOverrides : Type := {
  o_audioFeatures : option R;
  o_genre : option R;
  o_mood : option R;
  o_popularity : option R
}.

Definition no_overrides : WeightOverrides :=
  {| o_audioFeatures := None; o_genre := None; o_mood := None; o_popularity := None |}.

Definition or_default (o : option R) (d : R) : R :=
  match o with
  | Some v => v
  | None => d
  end.

(** [{ ...defaultWeights, ...weights }] *)
Definition finalWeights (weights : WeightOverrides) : Weights :=
  {| w_audioFeatures := or_default (o_audioFeatures weights) (w_audioFeatures defaultWeights);
     w_genre := or_default (o_genre weights) (w_genre defaultWeights);
     w_mood := or_default (o_mood weights) (w_mood defaultWeights);
     w_popularity := or_default (o_popularity weights) (w_popularity defaultWeights) |}.

(** [common.length / Math.max(names1.length, names2.length)], where
    [common = names1.filter(g => names2.includes(g))]; two empty arrays
    give [0 / 0]. *)
Definition overlapScore (names1 names2 : list Name) : num :=
  let common := filter (fun g => includes names2 g) names1 in
  let longest := Nat.max (List.length names1) (List.length names2) in
  if Nat.eqb longest 0 then NaN
  else Num (INR (List.length common) / INR longest).

Definition popularityScore (song1 song2 : Song) : R :=
  let popularity1 := popularity_or_0 song1 in
  let popularity2 := popularity_or_0 song2 in
  let popularityDiff := Rabs (popularity1 - popularity2) / 100 in
  1 - popularityDiff.

(** The running [totalScore] before the final clamp. *)
Definition advancedTotal (song1 song2 : Song) (fw : Weights) : num :=
  let totalScore := Num 0 in
  let totalScore :=
    match audioFeatures song1, audioFeatures song2 with
    | Some a1, Some a2 =>
      let audioScore := cosineSimilarity (normalizeFeatures a1) (normalizeFeatures a2) in
      nadd totalScore (Num (audioScore * w_audioFeatures fw))
    | _, _ => totalScore
    end in
  let totalScore :=
    match genres song1, genres song2 with
    | Some genre1Names, Some genre2Names =>
      let genreScore := overlapScore genre1Names genre2Names in
      nadd totalScore (nmul genreScore (Num (w_genre fw)))
    | _, _ => totalScore
    end in
  let totalScore :=
    match moods song1, moods song2 with
    | Some mood1Names, Some mood2Names =>
      let moodScore := overlapScore mood1Names mood2Names in
      nadd totalScore (nmul moodScore (Num (w_mood fw)))
    | _, _ => totalScore
    end in
  nadd totalScore (Num (popularityScore song1 song2 * w_popularity fw)).

(** Whether the song object carries the property a factor reads
    ([song.audioFeatures], [song.genres], [song.moods] is truthy). *)
Definition carries (f : Factor) (song : Song) : bool :=
  match f with
  | Audio => is_number_obj (audioFeatures song)
  | Genre => is_array (genres song)
  | Mood => is_array (moods song)
  end.

(** [calculateAdvancedSimilarity(song1, song2, weights = {})] *)
Definition calculateAdvancedSimilarity
  (song1 song2 : Song) (weights : WeightOverrides) : num :=
  clamp01 (advancedTotal song1 song2 (finalWeights weights)).

End AudioAnalysis.

(** ** Queries *)

(** The order of [orderBy: [{ a: 'desc' }, { b: 'desc' }, ...]]: [x] is
    not behind [y]. Rows that tie keep their table order; a [null]
    sorts first in descending order, as PostgreSQL has it. *)
Definition desc_Z (a b : Z) (tie : bool) : bool :=
  (b <? a)%Z || ((a =? b)%Z && tie).

Definition desc_R (a b : R) (tie : bool) : bool :=
  Rgtb a b || (Reqb a b && tie).

Definition desc_nullable (a b : option R) (tie : bool) : bool :=
  match a, b with
  | None, None => tie
  | None, Some _ => true
  | Some _, None => false
  | Some x, Some y => desc_R x y tie
  end.

(** [orderBy: [{ totalPlays: 'desc' }, { avgRating: 'desc' }, { popularity: 'desc' }]] *)
Definition byPopularity (x y : Song) : bool :=
  desc_Z (totalPlays x) (totalPlays y)
    (desc_R (avgRating x) (avgRating y)
       (desc_nullable (popularity x) (popularity y) true)).

(** [orderBy: [{ totalLikes: 'desc' }, { avgRating: 'desc' }, { totalPlays: 'desc' }]] *)
Definition byLikes (x y : Song) : bool :=
  desc_Z (totalLikes x) (totalLikes y)
    (desc_R (avgRating x) (avgRating y)
       (desc_Z (totalPlays x) (totalPlays y) true)).

(** Popularity order in the words of the specification: [a] has more
    plays than [b]; or as many and a higher average rating; or as many
    and the same rating, and no lower popularity where both have one. *)
Definition popularity_order (a b : Song) : Prop :=
  (totalPlays b < totalPlays a)%Z \/
  (totalPlays a = totalPlays b /\
   (avgRating b < avgRating a \/
    (avgRating a = avgRating b /\
     forall x y, popularity a = Some x -> popularity b = Some y -> y <= x))).

Definition interactionsOf (userId : string) (db : Database) : list Interaction :=
  filter (fun i => String.eqb (i_userId i) userId) (userSongInteraction db).

Definition likesOf (userId : string) (db : Database) : list Like :=
  filter (fun l => String.eqb (l_userId l) userId) (userSongLike db).

Definition ratingsOf (userId : string) (db : Database) : list Rating :=
  filter (fun r => String.eqb (r_userId r) userId) (ratingTable db).

(** [where: { userId, rating: { gte: 4 } }] *)
Definition highRatingsOf (userId : string) (db : Database) : list Rating :=
  filter (fun r => Rgeb (rating r) 4) (ratingsOf userId db).

(** ** audio-analysis.js: [findSimilarSongs] *)

Module SimilarSongs.
Import AudioAnalysis.

(** A song with the [similarity] the search attached to it. *)
Record Similar : Type := {
  similar_song : Song;
  similarity : R
}.

(** [findSimilarSongs(targetSong, allSongs, limit)]; the [distance] it
    also attaches is read by no caller and is left out. *)
Definition findSimilarSongs (targetSong : Song) (allSongs : list Song) (limit : nat)
  : list Similar :=
  match audioFeatures targetSong with
  | None => []
  | Some targetAudio =>
    let targetFeatures := normalizeFeatures targetAudio in
    let similarities :=
      flat_map
        (fun song =>
           if String.eqb (id song) (id targetSong) then []
           else
             match audioFeatures song with
             | None => []
             | Some audio =>
               [{| similar_song := song;
                   similarity := cosineSimilarity targetFeatures (normalizeFeatures audio) |}]
             end)
        allSongs in
    firstn limit (sort_desc similarity similarities)
  end.

End SimilarSongs.

(** ** recommendation-engine.js: collaborative filtering *)

Module CollaborativeFiltering.
Import SimilarSongs.

(** A song of the user with the marks [findSimilarItems] spreads onto
    it. *)
Record UserSong : Type := {
  us_song : Song;
  interaction : option Interaction;
  liked : bool;
  us_rating : option R
}.

Record ItemRec : Type := {
  item_song : Song;
  score : R;
  basedOn : string
}.

(** [getUserSongWeight(userSong)] *)
Definition getUserSongWeight (userSong : UserSong) : R :=
  let weight := 1 in
  let weight :=
    match us_rating userSong with
    | Some r => if Reqb r 0 then weight else weight + r / 5
    | None => weight
    end in
  let weight := if liked userSong then weight + 1 else weight in
  match interaction userSong with
  | Some i =>
    let weight := weight + Rmin (playCount i / 5) 2 in
    weight + Rmin (totalTime i / 180) 1
  | None => weight
  end.

Definition userSongsOf (userId : string) (db : Database) : list UserSong :=
  map (fun i => {| us_song := i_song i; interaction := Some i; liked := false; us_rating := None |})
      (interactionsOf userId db) ++
  map (fun l => {| us_song := l_song l; interaction := None; liked := true; us_rating := None |})
      (likesOf userId db) ++
  map (fun r => {| us_song := r_song r; interaction := None; liked := false;
                   us_rating := Some (rating r) |})
      (highRatingsOf userId db).

(** The body of the two loops: the map from song id to the best score
    seen. *)
Definition itemScores (userSongs : list UserSong) (allSongs : list Song)
  : list (string * ItemRec) :=
  fold_left
    (fun recommendations userSong =>
       fold_left
         (fun recommendations similarSong =>
            if existsb (fun us => String.eqb (id (us_song us)) (id (similar_song similarSong)))
                       userSongs
            then recommendations
            else
              let newScore := similarity similarSong * getUserSongWeight userSong in
              upsert (id (similar_song similarSong))
                     (fun existingScore =>
                        {| item_song := similar_song similarSong;
                           score :=
                             match existingScore with
                             | Some e => Rmax (score e) newScore
                             | None => newScore
                             end;
                           basedOn := title (us_song userSong) |})
                     recommendations)
         (findSimilarSongs (us_song userSong) allSongs 10)
         recommendations)
    userSongs [].

(** [findSimilarItems(userId, limit)] *)
Definition findSimilarItems (userId : string) (limit : nat) : M (list ItemRec) :=
  count_call CallFindSimilarItems ;;;
  try_catch
    (userSongs <- query (userSongsOf userId) ;;
     match userSongs with
     | [] => ret []
     | _ =>
       allSongs <- query songTable ;;
       count_call CallFindSimilarSongs ;;;
       ret (firstn limit (sort_desc score (map snd (itemScores userSongs allSongs))))
     end)
    (fun error => say (Error "Error finding similar items:") ;;; ret []).

End CollaborativeFiltering.

(** ** recommendation-engine.js: content-based filtering *)

Module ContentBasedFiltering.

Import AudioAnalysis.

(** [v !== null && v !== undefined && v > 0] *)
Definition positive (v : option R) : bool :=
  match v with
  | Some x => Rgtb x 0
  | None => false
  end.

Definition hasAudioFeatures (song : Song) : bool :=
  positive (feature song energy) &&
  positive (feature song danceability) &&
  positive (feature song valence).

Definition hasGenres (song : Song) : bool := hasTags (genres song).
Definition hasMoods (song : Song) : bool := hasTags (moods song).

Definition featureKeys : list Feature :=
  [energy; danceability; valence; tempo; acousticness; instrumentalness;
   liveness; speechiness].

(** [extractAvailableFeatures(song)] *)
Definition extractAvailableFeatures (song : Song) : FeatureObj :=
  fold_left
    (fun features k =>
       if positive (feature song k) then set_feature features k (num_at (feature song) k)
       else features)
    featureKeys empty_features.

(** [calculatePartialAudioSimilarity(song1, song2)] *)
Definition calculatePartialAudioSimilarity (song1 song2 : Song) : R :=
  let features1 := extractAvailableFeatures song1 in
  let features2 := extractAvailableFeatures song2 in
  let commonFeatures :=
    filter (fun k => is_number (features2 k)) (object_keys features1) in
  match commonFeatures with
  | [] => 0
  | _ =>
    let similarity :=
      fold_left
        (fun acc k =>
           let diff := Rabs (num_at features1 k - num_at features2 k) in
           acc + (1 - Rmin diff 1))
        commonFeatures 0 in
    similarity / INR (List.length commonFeatures)
  end.

(** [predictGenresFromMetadata(song)] of the content-based filter. *)
Definition predictGenresFromMetadata (song : Song) : list string :=
  let predictions :=
    (if str_includes (toLowerCase (artist song)) "uzi"
     then ["Trap"; "Hip-Hop"] else []) ++
    (match year song with
     | Some y => if (y =? 0)%Z then [] else if (2015 <=? y)%Z then ["Rap"] else []
     | None => []
     end) in
  match predictions with
  | [] => ["Unknown"]
  | _ => predictions
  end.

(** [predictMoodsFromMetadata(song)] of the content-based filter. *)
Definition predictMoodsFromMetadata (song : Song) : list string :=
  let predictions :=
    (if above (feature song energy) 0.7 then ["Energetic"] else []) ++
    (if above (feature song valence) 0.6 then ["Happy"] else []) ++
    (if above (feature song danceability) 0.7 then ["Danceable"] else []) in
  match predictions with
  | [] => ["Neutral"]
  | _ => predictions
  end.

(** The tail shared by the four tag-similarity methods: [0] when a side
    is empty, else the overlap ratio. *)
Definition tagSimilarity (names1 names2 : list Name) : R :=
  match names1, names2 with
  | [], _ | _, [] => 0
  | _, _ =>
    let common := filter (fun g => includes names2 g) names1 in
    INR (List.length common) / INR (Nat.max (List.length names1) (List.length names2))
  end.

(** [song.genres?.map(g => g.name) || predict(song)]: an array, even an
    empty one, is truthy. *)
Definition names_or (tags : option (list Name)) (predicted : list string) : list Name :=
  match tags with
  | Some names => names
  | None => map Named predicted
  end.

(** [song.genres.map(g => g.name)] *)
Definition names_of (tags : option (list Name)) : list Name :=
  names_or tags [].

Definition calculateGenreSimilarityWithPredictions (song1 song2 : Song) : R :=
  let genres1 := names_or (genres song1) (predictGenresFromMetadata song1) in
  let genres2 := names_or (genres song2) (predictGenresFromMetadata song2) in
  tagSimilarity genres1 genres2.

Definition calculateMoodSimilarityWithPredictions (song1 song2 : Song) : R :=
  let moods1 := names_or (moods song1) (predictMoodsFromMetadata song1) in
  let moods2 := names_or (moods song2) (predictMoodsFromMetadata song2) in
  tagSimilarity moods1 moods2.

Definition calculateGenreSimilarity (song1 song2 : Song) : R :=
  tagSimilarity (names_of (genres song1)) (names_of (genres song2)).

Definition calculateMoodSimilarity (song1 song2 : Song) : R :=
  tagSimilarity (names_of (moods song1)) (names_of (moods song2)).

(** The weights of [calculateEnhancedSimilarity]. *)
Definition wAudio : R := 0.5.
Definition wGenre : R := 0.2.
Definition wMood : R := 0.1.
Definition wArtist : R := 0.1.
Definition wPopularity : R := 0.1.

(** What one factor adds to [totalScore] and to [weightSum]; a factor
    that is skipped adds nothing to either. *)
Definition Contribution : Type := (num * R)%type.

Definition skipped : Contribution := (Num 0, 0).

Definition audioContribution (song1 song2 : Song) : Contribution :=
  if hasAudioFeatures song1 && hasAudioFeatures song2 then
    let audioScore := calculateAdvancedSimilarity song1 song2 no_overrides in
    (nmul audioScore (Num wAudio), wAudio)
  else if hasAudioFeatures song1 || hasAudioFeatures song2 then
    let audioScore := calculatePartialAudioSimilarity song1 song2 in
    (Num (audioScore * wAudio * 0.5), wAudio * 0.5)
  else skipped.

Definition genreContribution (song1 song2 : Song) : Contribution :=
  if hasGenres song1 && hasGenres song2 then
    (Num (calculateGenreSimilarity song1 song2 * wGenre), wGenre)
  else if hasGenres song1 || hasGenres song2 then
    (Num (calculateGenreSimilarityWithPredictions song1 song2 * wGenre * 0.7), wGenre * 0.7)
  else skipped.

Definition moodContribution (song1 song2 : Song) : Contribution :=
  if hasMoods song1 && hasMoods song2 then
    (Num (calculateMoodSimilarity song1 song2 * wMood), wMood)
  else if hasMoods song1 || hasMoods song2 then
    (Num (calculateMoodSimilarityWithPredictions song1 song2 * wMood * 0.7), wMood * 0.7)
  else skipped.

Definition artistScore (song1 song2 : Song) : R :=
  if String.eqb (artist song1) (artist song2) then 1 else 0.

Definition artistContribution (song1 song2 : Song) : Contribution :=
  (Num (artistScore song1 song2 * wArtist), wArtist).

Definition popularityContribution (song1 song2 : Song) : Contribution :=
  (Num (popularityScore song1 song2 * wPopularity), wPopularity).

(** [totalScore += ...; weightSum += ...] *)
Definition accumulate (acc c : Contribution) : Contribution :=
  (nadd (fst acc) (fst c), snd acc + snd c).

(** [calculateEnhancedSimilarity(song1, song2)] *)
Definition calculateEnhancedSimilarity (song1 song2 : Song) : num :=
  let acc := (Num 0, 0) in
  let acc := accumulate acc (audioContribution song1 song2) in
  let acc := accumulate acc (genreContribution song1 song2) in
  let acc := accumulate acc (moodContribution song1 song2) in
  let acc := accumulate acc (artistContribution song1 song2) in
  let acc := accumulate acc (popularityContribution song1 song2) in
  let (totalScore, weightSum) := acc in
  if Rgtb weightSum 0 then clamp01 (ndiv_pos totalScore weightSum) else Num 0.

(** *** The weighted composite as a function of its factors *)

Definition present (f : Factor) (song : Song) : bool :=
  match f with
  | Audio => hasAudioFeatures song
  | Genre => hasGenres song
  | Mood => hasMoods song
  end.

(** What the code adds for a factor. *)
Definition contribution (f : Factor) (song1 song2 : Song) : Contribution :=
  match f with
  | Audio => audioContribution song1 song2
  | Genre => genreContribution song1 song2
  | Mood => moodContribution song1 song2
  end.

(** The weighted sum of a list of contributions over the sum of their
    weights, clamped as the code clamps it. *)
Definition composite (cs : list Contribution) : num :=
  let (totalScore, weightSum) := fold_left accumulate cs (Num 0, 0) in
  if Rgtb weightSum 0 then clamp01 (ndiv_pos totalScore weightSum) else Num 0.

(** The contributions of every factor but [f]. *)
Definition contributions_without (f : Factor) (song1 song2 : Song) : list Contribution :=
  map (fun g => contribution g song1 song2)
      (filter (fun g => negb (Factor_eqb f g)) [Audio; Genre; Mood]) ++
  [artistContribution song1 song2; popularityContribution song1 song2].

(** What a factor adds, under its full weight, when both songs have its
    inputs. *)
Definition fullContribution (f : Factor) (song1 song2 : Song) : Contribution :=
  match f with
  | Audio => (nmul (calculateAdvancedSimilarity song1 song2 no_overrides) (Num wAudio), wAudio)
  | Genre => (Num (calculateGenreSimilarity song1 song2 * wGenre), wGenre)
  | Mood => (Num (calculateMoodSimilarity song1 song2 * wMood), wMood)
  end.

(** What the code adds for a factor whose inputs only one song has. *)
Definition reducedContribution (f : Factor) (song1 song2 : Song) : Contribution :=
  match f with
  | Audio => (Num (calculatePartialAudioSimilarity song1 song2 * wAudio * 0.5), wAudio * 0.5)
  | Genre => (Num (calculateGenreSimilarityWithPredictions song1 song2 * wGenre * 0.7), wGenre * 0.7)
  | Mood => (Num (calculateMoodSimilarityWithPredictions song1 song2 * wMood * 0.7), wMood * 0.7)
  end.

(** The composite in the words of the specification: a factor counts,
    under its full weight, when its inputs are there on both songs, and
    is left out of the sum and of the denominator otherwise. *)
Definition partialCreditComposite (song1 song2 : Song) : num :=
  composite
    (map (fun f => fullContribution f song1 song2)
         (filter (fun f => present f song1 && present f song2) [Audio; Genre; Mood]) ++
     [artistContribution song1 song2; popularityContribution song1 song2]).

(** *** Recommendations *)

Inductive PreferenceType : Type := interaction_type | like_type | rating_type.

(** A preference row: the row of its table with the [type] tag put on
    it. *)
Record Preference : Type := {
  pref_song : Song;
  pref_type : PreferenceType;
  pref_rating : R;
  pref_playCount : R
}.

(** [getUserPreferences(userId)] *)
Definition userPreferencesOf (userId : string) (db : Database) : list Preference :=
  map (fun i => {| pref_song := i_song i; pref_type := interaction_type;
                   pref_rating := 0; pref_playCount := playCount i |})
      (interactionsOf userId db) ++
  map (fun l => {| pref_song := l_song l; pref_type := like_type;
                   pref_rating := 0; pref_playCount := 0 |})
      (likesOf userId db) ++
  map (fun r => {| pref_song := r_song r; pref_type := rating_type;
                   pref_rating := rating r; pref_playCount := 0 |})
      (highRatingsOf userId db).

Definition getUserPreferences (userId : string) : M (list Preference) :=
  query (userPreferencesOf userId).

(** [getPreferenceWeight(preference)] *)
Definition getPreferenceWeight (preference : Preference) : R :=
  match pref_type preference with
  | rating_type => pref_rating preference / 5
  | like_type => 1
  | interaction_type => Rmin (pref_playCount preference / 5) 1
  end.

(** [calculateContentSimilarity(userPreferences, song)] *)
Definition calculateContentSimilarity (userPreferences : list Preference) (song : Song) : num :=
  let (totalSimilarity, weightSum) :=
    fold_left
      (fun acc preference =>
         let similarity := calculateEnhancedSimilarity (pref_song preference) song in
         let weight := getPreferenceWeight preference in
         (nadd (fst acc) (nmul similarity (Num weight)), snd acc + weight))
      userPreferences (Num 0, 0) in
  if Rgtb weightSum 0 then ndiv_pos totalSimilarity weightSum else Num 0.

Record ContentRec : Type := {
  rec_song : Song;
  rec_similarity : R;
  reason : string
}.

(** [getPopularSongs(limit)] *)
Definition getPopularSongs (limit : nat) : M (list ContentRec) :=
  count_call CallGetPopularSongs ;;;
  try_catch
    (songs <- query (fun db => firstn limit (sort_by byPopularity (songTable db))) ;;
     ret (map (fun song => {| rec_song := song; rec_similarity := 0.5;
                              reason := "Popular song" |})
              songs))
    (fun error => say (Error "Error getting popular songs:") ;;; ret []).

(** The candidates that pass the similarity floor. *)
Definition contentMatches (userPreferences : list Preference) (allSongs : list Song)
  : list ContentRec :=
  flat_map
    (fun song =>
       if existsb (fun pref => String.eqb (id (pref_song pref)) (id song)) userPreferences
       then []
       else
         match calculateContentSimilarity userPreferences song with
         | Num similarity =>
           if Rgtb similarity 0.3
           then [{| rec_song := song; rec_similarity := similarity;
                    reason := "Content-based match" |}]
           else []
         | NaN => []
         end)
    allSongs.

(** [getRecommendations(userId, limit)] *)
Definition getRecommendations (userId : string) (limit : nat) : M (list ContentRec) :=
  count_call CallContentGetRecommendations ;;;
  try_catch
    (userPreferences <- getUserPreferences userId ;;
     match userPreferences with
     | [] => getPopularSongs limit
     | _ =>
       allSongs <- query songTable ;;
       count_call CallCalculateContentSimilarity ;;;
       ret (firstn limit (sort_desc rec_similarity (contentMatches userPreferences allSongs)))
     end)
    (fun error => say (Error "Error getting content-based recommendations:") ;;; ret []).

End ContentBasedFiltering.

(** ** ai-prediction.js: the feature predictor *)

Module AIFeaturePredictor.

(** Building a feature object from a literal. *)
Definition obj (entries : list (Feature * R)) : FeatureObj :=
  fold_left (fun o e => set_feature o (fst e) (snd e)) entries empty_features.

Definition fallbackGenreAverages : list (string * FeatureObj) :=
  [("Trap", obj [(energy, 0.8); (danceability, 0.7); (valence, 0.5); (tempo, 0.8); (speechiness, 0.6)]);
   ("Hip-Hop", obj [(energy, 0.6); (danceability, 0.6); (valence, 0.5); (tempo, 0.5); (speechiness, 0.8)]);
   ("R&B", obj [(energy, 0.5); (danceability, 0.7); (valence, 0.6); (tempo, 0.4); (speechiness, 0.3)]);
   ("Pop", obj [(energy, 0.7); (danceability, 0.8); (valence, 0.7); (tempo, 0.6); (speechiness, 0.2)])].

Definition fallbackMoodAverages : list (string * FeatureObj) :=
  [("Energetic", obj [(energy, 0.8); (danceability, 0.7); (valence, 0.6); (tempo, 0.8)]);
   ("Chill", obj [(energy, 0.3); (danceability, 0.5); (valence, 0.6); (tempo, 0.3)]);
   ("Happy", obj [(energy, 0.6); (danceability, 0.7); (valence, 0.8); (tempo, 0.6)]);
   ("Sad", obj [(energy, 0.3); (danceability, 0.4); (valence, 0.2); (tempo, 0.4)]);
   ("Danceable", obj [(energy, 0.7); (danceability, 0.9); (valence, 0.7); (tempo, 0.7)]);
   ("Aggressive", obj [(energy, 0.9); (danceability, 0.6); (valence, 0.3); (tempo, 0.8)])].

Definition fallbackCorrelations : list (Feature * list (Feature * R)) :=
  [(energy, [(danceability, 0.3); (valence, 0.4); (tempo, 0.2)]);
   (danceability, [(energy, 0.3); (valence, 0.5); (tempo, 0.1)]);
   (valence, [(energy, 0.4); (danceability, 0.5); (tempo, 0.1)]);
   (tempo, [(energy, 0.2); (danceability, 0.1); (valence, 0.1)])].

(** [initializeFallbackModels()]: sets three keys and leaves the others
    as they are. *)
Definition initializeFallbackModels (p : Predictor) : Predictor :=
  {| correlations := Some fallbackCorrelations;
     artistModels := artistModels p;
     yearModels := yearModels p;
     genreAverages := Some fallbackGenreAverages;
     moodAverages := Some fallbackMoodAverages;
     initialized := initialized p |}.

Definition set_initialized (p : Predictor) : Predictor :=
  {| correlations := correlations p; artistModels := artistModels p;
     yearModels := yearModels p; genreAverages := genreAverages p;
     moodAverages := moodAverages p; initialized := true |}.

(** *** Training *)

(** [v || d] on a feature column. *)
Definition or_else (v : option R) (d : R) : R :=
  match v with
  | Some x => if Reqb x 0 then d else x
  | None => d
  end.

(** [extractAudioFeatures(song)] *)
Definition extractAudioFeatures (song : Song) : FeatureObj :=
  fun k =>
    Some (or_else (feature song k)
            match k with
            | tempo => 120
            | loudness => -10
            | mode => 1
            | timeSignature => 4
            | _ => 0
            end).

(** [arr.reduce((sum, val) => sum + val, 0)] *)
Definition sum (arr : list R) : R := fold_left Rplus arr 0.

(** [featuresArray.map(f => f[key]).filter(v => v !== null && v !== undefined)] *)
Definition values_at (k : Feature) (featuresArray : list FeatureObj) : list R :=
  flat_map (fun f => match f k with Some v => [v] | None => [] end) featuresArray.

(** [calculateAverageFeatures(featuresArray)] *)
Definition calculateAverageFeatures (featuresArray : list FeatureObj) : FeatureObj :=
  match featuresArray with
  | [] => empty_features
  | first :: _ =>
    fun k =>
      if is_number (first k) then
        match values_at k featuresArray with
        | [] => None
        | values => Some (sum values / INR (List.length values))
        end
      else None
  end.

(** [if (!groups[key]) groups[key] = []; groups[key].push(v)] *)
Definition push_group (key : string) (v : FeatureObj)
  (groups : list (string * list FeatureObj)) : list (string * list FeatureObj) :=
  upsert key (fun old => match old with Some l => l ++ [v] | None => [v] end) groups.

(** The averages of the groups a song's tags put it in; a tag without
    name files the song under the key "undefined". *)
Definition tagAverages (tags : Song -> option (list Name)) (trainingData : list Song)
  : list (string * FeatureObj) :=
  let tagFeatures :=
    fold_left
      (fun groups song =>
         fold_left (fun groups tag => push_group (name_key tag) (extractAudioFeatures song) groups)
                   (tag_names (tags song)) groups)
      trainingData [] in
  map (fun g => (fst g, calculateAverageFeatures (snd g))) tagFeatures.

(** [trainGenreModels] and [trainMoodModels]: the value stored under
    ['averages']. *)
Definition trainGenreModels : list Song -> list (string * FeatureObj) := tagAverages genres.
Definition trainMoodModels : list Song -> list (string * FeatureObj) := tagAverages moods.

(** [createArtistModels(trainingData)] *)
Definition createArtistModels (trainingData : list Song) : list (string * FeatureObj) :=
  let artistFeatures :=
    fold_left (fun groups song => push_group (artist song) (extractAudioFeatures song) groups)
              trainingData [] in
  map (fun g => (fst g, calculateAverageFeatures (snd g)))
      (filter (fun g => (3 <=? List.length (snd g))%nat) artistFeatures).

(** [song.year] when it is truthy. *)
Definition truthy_year (y : option Z) : option Z :=
  match y with
  | Some v => if (v =? 0)%Z then None else Some v
  | None => None
  end.

(** [getYearRange(year)] *)
Definition getYearRange (year : Z) : string :=
  if (year <? 2000)%Z then "1990s"
  else if (year <? 2010)%Z then "2000s"
  else if (year <? 2020)%Z then "2010s"
  else "2020s".

(** [createYearModels(trainingData)] *)
Definition createYearModels (trainingData : list Song) : list (string * FeatureObj) :=
  let yearFeatures :=
    fold_left
      (fun groups song =>
         match truthy_year (year song) with
         | Some y => push_group (getYearRange y) (extractAudioFeatures song) groups
         | None => groups
         end)
      trainingData [] in
  map (fun g => (fst g, calculateAverageFeatures (snd g)))
      (filter (fun g => (5 <=? List.length (snd g))%nat) yearFeatures).

(** [calculateCorrelation(x, y)]. The radicand is a product of two
    non-negative terms, so the square root is that of a non-negative
    real. *)
Definition calculateCorrelation (x y : list R) : R :=
  if negb (List.length x =? List.length y)%nat || (List.length x =? 0)%nat then 0
  else
    let n := INR (List.length x) in
    let sumX := sum x in
    let sumY := sum y in
    let sumXY := sum (map (fun p => fst p * snd p) (combine x y)) in
    let sumX2 := sum (map (fun xi => xi * xi) x) in
    let sumY2 := sum (map (fun yi => yi * yi) y) in
    let numerator := n * sumXY - sumX * sumY in
    let denominator := sqrt ((n * sumX2 - sumX * sumX) * (n * sumY2 - sumY * sumY)) in
    if Reqb denominator 0 then 0 else numerator / denominator.

Definition correlationFeatures : list Feature :=
  [energy; danceability; valence; tempo; acousticness; instrumentalness;
   liveness; speechiness].

(** [trainingData.map(s => s[feature]).filter(v => v !== null)] *)
Definition column (trainingData : list Song) (f : Feature) : list R :=
  flat_map (fun s => match feature s f with Some v => [v] | None => [] end) trainingData.

(** [calculateFeatureCorrelations(trainingData)] *)
Definition calculateFeatureCorrelations (trainingData : list Song)
  : list (Feature * list (Feature * R)) :=
  map (fun f =>
         (f, map (fun other =>
                    (other, calculateCorrelation (column trainingData f)
                                                 (column trainingData other)))
                 (filter (fun other => negb (Feature_eqb f other)) correlationFeatures)))
      correlationFeatures.

(** [trainFeatureModels], [trainGenreModels] and [trainMoodModels] in
    turn. *)
Definition train (trainingData : list Song) (p : Predictor) : Predictor :=
  {| correlations := Some (calculateFeatureCorrelations trainingData);
     artistModels := Some (createArtistModels trainingData);
     yearModels := Some (createYearModels trainingData);
     genreAverages := Some (trainGenreModels trainingData);
     moodAverages := Some (trainMoodModels trainingData);
     initialized := initialized p |}.

(** The [where] clause of the training query: the four columns are not
    null and greater than zero. *)
Definition gt0 (v : option R) : bool :=
  match v with
  | Some x => Rgtb x 0
  | None => false
  end.

Definition isTrainingRow (s : Song) : bool :=
  gt0 (feature s energy) && gt0 (feature s danceability) &&
  gt0 (feature s valence) && gt0 (feature s tempo).

(** [`✅ AI models initialized with ${trainingData.length} training samples`] *)
Definition trainedMessage (samples : nat) : string :=
  "✅ AI models initialized with " ++ string_of_nat samples ++ " training samples".

(** [initialize()] *)
Definition initialize : M unit :=
  p <- get_predictor ;;
  if initialized p then ret tt
  else
    try_catch
      (say (Log "🤖 Initializing AI prediction models...") ;;;
       trainingData <- query (fun db => filter isTrainingRow (songTable db)) ;;
       if (List.length trainingData <? 5)%nat then
         say (Warn "⚠️ Insufficient training data for AI models, using fallback predictions") ;;;
         say (Log "🔄 Initializing fallback prediction models...") ;;;
         set_predictor (initializeFallbackModels p) ;;;
         say (Log "✅ Fallback models initialized") ;;;
         p <- get_predictor ;;
         set_predictor (set_initialized p)
       else
         set_predictor (train trainingData p) ;;;
         p <- get_predictor ;;
         set_predictor (set_initialized p) ;;;
         say (Log (trainedMessage (List.length trainingData))))
      (fun error =>
         say (Error "Error initializing AI models:") ;;;
         say (Log "🔄 Initializing fallback prediction models...") ;;;
         p <- get_predictor ;;
         set_predictor (initializeFallbackModels p) ;;;
         say (Log "✅ Fallback models initialized") ;;;
         p <- get_predictor ;;
         set_predictor (set_initialized p)).

(** A feature-complete song in the words of the specification: energy,
    danceability, valence and tempo are there and not zero. *)
Definition featureComplete (s : Song) : bool :=
  forallb (fun k => match feature s k with
                    | Some v => negb (Reqb v 0)
                    | None => false
                    end)
          [energy; danceability; valence; tempo].

(** The predictor a new one becomes in fallback mode. *)
Definition fallbackPredictor : Predictor :=
  set_initialized (initializeFallbackModels newPredictor).

(** The console after the fallback branch of [initialize]. *)
Definition fallbackConsole (dbUp : bool) (before : list Console) : list Console :=
  before ++
  [Log "🤖 Initializing AI prediction models..."] ++
  (if dbUp
   then [Warn "⚠️ Insufficient training data for AI models, using fallback predictions"]
   else [Error "Error initializing AI models:"]) ++
  [Log "🔄 Initializing fallback prediction models..."; Log "✅ Fallback models initialized"].

(** *** Predicting a feature *)

(** A value within the documented range of its feature. *)
Definition in_range (f : Feature) (v : R) : Prop :=
  fst (AudioAnalysis.ranges f) <= v <= snd (AudioAnalysis.ranges f).

(** Every average of a table of models lies in the range of its
    feature. *)
Definition models_in_range (models : option (list (string * FeatureObj))) : Prop :=
  forall table k o f v,
    models = Some table -> lookup k table = Some o -> o f = Some v -> in_range f v.

(** Every value of the object lies in the range of its feature. *)
Definition obj_in_range (o : FeatureObj) : Prop :=
  forall k v, o k = Some v -> in_range k v.

Definition song_in_range (s : Song) : Prop := obj_in_range (feature s).

(** Every group holds objects in range. *)
Definition groups_in_range (groups : list (string * list FeatureObj)) : Prop :=
  forall k l, In (k, l) groups -> Forall obj_in_range l.

(** The predictor without its artist models, without its year models. *)
Definition drop_artists (p : Predictor) : Predictor :=
  {| correlations := correlations p; artistModels := None;
     yearModels := yearModels p; genreAverages := genreAverages p;
     moodAverages := moodAverages p; initialized := initialized p |}.

Definition drop_years (p : Predictor) : Predictor :=
  {| correlations := correlations p; artistModels := artistModels p;
     yearModels := None; genreAverages := genreAverages p;
     moodAverages := moodAverages p; initialized := initialized p |}.

(** [getDefaultFeatureValue(featureName)] *)
Definition getDefaultFeatureValue (featureName : Feature) : R :=
  match featureName with
  | energy | danceability | valence => 0.5
  | tempo => 120
  | acousticness | instrumentalness | liveness | speechiness => 0.1
  | loudness => -10
  | mode => 1
  | key => 0
  | timeSignature => 4
  end.

(** [adjustPredictionByConfidence(prediction, confidence, featureName)] *)
Definition adjustPredictionByConfidence (prediction confidence : R) (featureName : Feature) : R :=
  let defaultVal := getDefaultFeatureValue featureName in
  prediction * confidence + defaultVal * (1 - confidence).

(** [!prediction]: [null] and [0] alike. *)
Definition falsy (prediction : option R) : bool :=
  match prediction with
  | Some v => Reqb v 0
  | None => true
  end.

(** The [prediction] and [confidence] variables of [predictFeature]. *)
Definition Estimate : Type := (option R * R)%type.

Fixpoint lookup_feature {V : Type} (k : Feature) (o : list (Feature * V)) : option V :=
  match o with
  | [] => None
  | (k', v) :: rest => if Feature_eqb k k' then Some v else lookup_feature k rest
  end.

(** "Try artist-based prediction first" *)
Definition artistRung (p : Predictor) (featureName : Feature) (song : Song)
  (st : Estimate) : Estimate :=
  match artistModels p with
  | Some models =>
    match lookup (artist song) models with
    | Some artistFeatures =>
      match artistFeatures featureName with
      | Some v => (Some v, 0.8)
      | None => st
      end
    | None => st
    end
  | None => st
  end.

(** "Try year-based prediction" *)
Definition yearRung (p : Predictor) (featureName : Feature) (song : Song)
  (st : Estimate) : Estimate :=
  if falsy (fst st) then
    match yearModels p, truthy_year (year song) with
    | Some models, Some y =>
      match lookup (getYearRange y) models with
      | Some yearFeatures =>
        match yearFeatures featureName with
        | Some v => (Some v, 0.6)
        | None => st
        end
      | None => st
      end
    | _, _ => st
    end
  else st.

(** The [weightedSum] and [totalWeight] of the correlation loop. *)
Definition correlationSums (featureCorrelation : list (Feature * R))
  (availableFeatures : FeatureObj) : R * R :=
  fold_left
    (fun acc entry =>
       match availableFeatures (fst entry) with
       | Some v => (fst acc + v * snd entry, snd acc + Rabs (snd entry))
       | None => acc
       end)
    featureCorrelation (0, 0).

(** "Try correlation-based prediction" *)
Definition correlationRung (p : Predictor) (featureName : Feature)
  (availableFeatures : FeatureObj) (st : Estimate) : Estimate :=
  if falsy (fst st) then
    match correlations p with
    | Some corr =>
      match lookup_feature featureName corr with
      | Some featureCorrelation =>
        let (weightedSum, totalWeight) :=
          correlationSums featureCorrelation availableFeatures in
        if Rgtb totalWeight 0
        then (Some (weightedSum / totalWeight), Rmin totalWeight 0.7)
        else st
      | None => st
      end
    | None => st
    end
  else st.

(** "Fallback to default values based on feature type" *)
Definition defaultRung (featureName : Feature) (st : Estimate) : R * R :=
  match fst st with
  | Some v => if Reqb v 0 then (getDefaultFeatureValue featureName, 0.3) else (v, snd st)
  | None => (getDefaultFeatureValue featureName, 0.3)
  end.

(** Two estimates the rest of the ladder cannot tell apart: the same
    estimate, or two that both count as no prediction. *)
Definition alike (st st' : Estimate) : Prop :=
  st = st' \/ (falsy (fst st) = true /\ falsy (fst st') = true).

(** [predictFeature(featureName, availableFeatures, song)] *)
Definition predictFeature (p : Predictor) (featureName : Feature)
  (availableFeatures : FeatureObj) (song : Song) : R :=
  let st : Estimate := (None, 0) in
  let st := artistRung p featureName song st in
  let st := yearRung p featureName song st in
  let st := correlationRung p featureName availableFeatures st in
  let (prediction, confidence) := defaultRung featureName st in
  adjustPredictionByConfidence prediction confidence featureName.

(** [value === null || value === undefined || value === 0] *)
Definition missing (v : option R) : bool :=
  match v with
  | Some x => Reqb x 0
  | None => true
  end.

(** The columns of the song that are there and not zero. *)
Definition availableFeaturesOf (song : Song) : FeatureObj :=
  fun k => if missing (feature song k) then None else feature song k.

(** The object [predictAudioFeatures] returns, given the models. *)
Definition predictedFeatures (p : Predictor) (song : Song) : FeatureObj :=
  fun k =>
    if missing (feature song k)
    then Some (predictFeature p k (availableFeaturesOf song) song)
    else feature song k.

(** [predictAudioFeatures(song)] *)
Definition predictAudioFeatures (song : Song) : M FeatureObj :=
  initialize ;;;
  p <- get_predictor ;;
  ret (predictedFeatures p song).

(** *** Genre and mood ensembles *)

(** [calculateFeatureSimilarity(features1, features2)] *)
Definition calculateFeatureSimilarity (features1 features2 : FeatureObj) : R :=
  let keys :=
    filter (fun key => is_number (features1 key) && is_number (features2 key))
           (object_keys features1) in
  match keys with
  | [] => 0
  | _ =>
    let dotProduct :=
      fold_left (fun acc key => acc + num_at features1 key * num_at features2 key) keys 0 in
    let norm1 :=
      fold_left (fun acc key => acc + num_at features1 key * num_at features1 key) keys 0 in
    let norm2 :=
      fold_left (fun acc key => acc + num_at features2 key * num_at features2 key) keys 0 in
    if Reqb norm1 0 || Reqb norm2 0 then 0
    else dotProduct / (sqrt norm1 * sqrt norm2)
  end.

(** A label with the confidence a voter gives it. *)
Record Scored : Type := {
  name : string;
  confidence : R
}.

(** [predictGenresFromAudioFeatures] and [predictMoodsFromAudioFeatures]:
    the three averages closest to the features. *)
Definition predictFromAudioFeatures (audioFeatures : FeatureObj)
  (averages : list (string * FeatureObj)) : list Scored :=
  let scores :=
    map (fun entry =>
           {| name := fst entry;
              confidence := calculateFeatureSimilarity audioFeatures (snd entry) |})
        averages in
  firstn 3 (sort_desc confidence scores).

(** What a vote holds under its [genre] (or [mood]) field: a string, or
    the whole scored object. *)
Inductive Label : Type :=
| Text (s : string)
| Object (p : Scored).

(** The property key a label turns into when it indexes an object. *)
Definition property_key (l : Label) : string :=
  match l with
  | Text s => s
  | Object _ => "[object Object]"
  end.

Record Vote : Type := {
  label : Label;
  vote_confidence : R;
  method : string
}.

(** [if (!scores[k]) scores[k] = 0; scores[k] += confidence], over the
    votes in order. *)
Definition combineVotes (predictions : list Vote) : list (string * R) :=
  fold_left
    (fun combinedScores prediction =>
       upsert (property_key (label prediction))
              (fun old =>
                 match old with
                 | Some s => s + vote_confidence prediction
                 | None => 0 + vote_confidence prediction
                 end)
              combinedScores)
    predictions [].

(** [Object.entries(scores).sort(([,a], [,b]) => b - a).slice(0, 2).map(([k]) => k)] *)
Definition topTwo (combinedScores : list (string * R)) : list string :=
  map fst (firstn 2 (sort_desc snd combinedScores)).

Definition votes_of (labels : list string) (c : R) (m : string) : list Vote :=
  map (fun p => {| label := Text p; vote_confidence := c; method := m |}) labels.

(** [patterns.some(pattern => s.includes(pattern))] *)
Definition includes_some (s : string) (patterns : list string) : bool :=
  existsb (fun pattern => str_includes s pattern) patterns.

(** [predictGenresFromMetadata(song)] *)
Definition predictGenresFromMetadata (song : Song) : list string :=
  let artistLower := toLowerCase (artist song) in
  let titleLower := toLowerCase (title song) in
  let predictions :=
    (if str_includes artistLower "uzi" || str_includes artistLower "vert"
     then ["Trap"; "Hip-Hop"; "Rap"] else []) ++
    (if str_includes titleLower "trap" || str_includes titleLower "drill"
     then ["Trap"] else []) ++
    (if str_includes titleLower "love" || str_includes titleLower "heart"
     then ["R&B"; "Pop"] else []) ++
    (if str_includes titleLower "party" || str_includes titleLower "dance"
     then ["Pop"; "Dance"] else []) ++
    (match truthy_year (year song) with
     | Some y =>
       if (2015 <=? y)%Z && (y <=? 2020)%Z then ["Trap"; "Hip-Hop"]
       else if (2020 <=? y)%Z then ["Rap"; "Hip-Hop"]
       else []
     | None => []
     end) in
  firstn 2 (dedupe predictions).

Definition artistPatterns : list (string * list string) :=
  [("trap", ["uzi"; "vert"; "carti"; "thug"; "future"; "migos"]);
   ("hip-hop", ["drake"; "kendrick"; "cole"; "kanye"; "jay-z"]);
   ("r&b", ["weeknd"; "beyonce"; "rihanna"; "usher"; "chris brown"]);
   ("pop", ["taylor"; "swift"; "ariana"; "grande"; "justin"; "bieber"])].

(** [predictGenresFromArtist(artist)] *)
Definition predictGenresFromArtist (artist : string) : list string :=
  let artistLower := toLowerCase artist in
  flat_map
    (fun entry => if includes_some artistLower (snd entry) then [fst entry] else [])
    artistPatterns.

(** [predictGenresFromYear(year)] *)
Definition predictGenresFromYear (year : option Z) : list string :=
  match truthy_year year with
  | None => []
  | Some y =>
    if (2010 <=? y)%Z && (y <=? 2015)%Z then ["Hip-Hop"; "Pop"]
    else if (2015 <=? y)%Z && (y <=? 2020)%Z then ["Trap"; "Hip-Hop"; "Rap"]
    else if (2020 <=? y)%Z then ["Rap"; "Hip-Hop"; "Trap"]
    else []
  end.

(** The ensemble of the four voters over a table of genre averages. *)
Definition genreEnsemble (genreAverages : list (string * FeatureObj))
  (audioFeatures : FeatureObj) (song : Song) : list string :=
  let audioPredictions := predictFromAudioFeatures audioFeatures genreAverages in
  let predictions :=
    map (fun p => {| label := Object p; vote_confidence := confidence p; method := "audio" |})
        audioPredictions ++
    votes_of (predictGenresFromMetadata song) 0.6 "metadata" ++
    votes_of (predictGenresFromArtist (artist song)) 0.7 "artist" ++
    votes_of (predictGenresFromYear (year song)) 0.5 "year" in
  topTwo (combineVotes predictions).

(** [predictGenresFromFeatures(audioFeatures, song)] *)
Definition predictGenresFromFeatures (p : Predictor) (audioFeatures : FeatureObj)
  (song : Song) : list string :=
  match genreAverages p with
  | None => predictGenresFromMetadata song
  | Some genreAverages => genreEnsemble genreAverages audioFeatures song
  end.

(** The features predicted for a song that has none, in fallback mode:
    the defaults. *)
Definition defaultFeatures : FeatureObj := fun k => Some (getDefaultFeatureValue k).

(** The similarity of the default features to an average over energy,
    danceability, valence, tempo and speechiness: the tempo of 120
    dwarfs the other terms. *)
Definition toDefaults (dot norm : R) : R := dot / (sqrt 14400.76 * sqrt norm).

(** [predictGenres(song)]: the names read off the song's genre rows, or
    the predicted names. *)
Definition predictGenres (song : Song) : M (list Name) :=
  initialize ;;;
  match genres song with
  | Some (g :: gs) => ret (g :: gs)
  | _ =>
    audioFeatures <- predictAudioFeatures song ;;
    p <- get_predictor ;;
    ret (map Named (predictGenresFromFeatures p audioFeatures song))
  end.

(** [v && v < t] on a feature column. *)
Definition below (v : option R) (t : R) : bool :=
  match v with
  | Some x => negb (Reqb x 0) && Rltb x t
  | None => false
  end.

(** [predictMoodsFromMetadata(song)] *)
Definition predictMoodsFromMetadata (song : Song) : list string :=
  let predictions :=
    (if above (feature song energy) 0.7 then ["Energetic"; "Upbeat"]
     else if below (feature song energy) 0.3 then ["Chill"; "Relaxed"] else []) ++
    (if above (feature song valence) 0.7 then ["Happy"; "Positive"]
     else if below (feature song valence) 0.3 then ["Sad"; "Melancholic"] else []) ++
    (if above (feature song danceability) 0.7 then ["Danceable"; "Party"] else []) ++
    (if above (feature song tempo) 140 then ["Fast"; "Energetic"]
     else if below (feature song tempo) 80 then ["Slow"; "Chill"] else []) in
  firstn 2 (dedupe predictions).

Definition moodKeywords : list (string * list string) :=
  [("Happy", ["happy"; "joy"; "smile"; "sunshine"; "bright"; "cheerful"]);
   ("Sad", ["sad"; "cry"; "tears"; "lonely"; "broken"; "hurt"; "pain"]);
   ("Energetic", ["energy"; "fire"; "power"; "strong"; "wild"; "crazy"]);
   ("Chill", ["chill"; "calm"; "peaceful"; "quiet"; "soft"; "gentle"]);
   ("Romantic", ["love"; "heart"; "romance"; "kiss"; "sweet"; "tender"]);
   ("Aggressive", ["fight"; "war"; "battle"; "rage"; "angry"; "furious"]);
   ("Party", ["party"; "dance"; "club"; "night"; "celebration"; "fun"])].

(** [predictMoodsFromTitle(title)] *)
Definition predictMoodsFromTitle (title : string) : list string :=
  let titleLower := toLowerCase title in
  flat_map
    (fun entry => if includes_some titleLower (snd entry) then [fst entry] else [])
    moodKeywords.

Definition genreMoodMappings : list (string * list string) :=
  [("trap", ["Energetic"; "Aggressive"]);
   ("hip-hop", ["Energetic"; "Confident"]);
   ("rap", ["Aggressive"; "Confident"]);
   ("r&b", ["Romantic"; "Chill"]);
   ("pop", ["Happy"; "Danceable"]);
   ("rock", ["Energetic"; "Aggressive"]);
   ("jazz", ["Chill"; "Sophisticated"]);
   ("classical", ["Peaceful"; "Sophisticated"]);
   ("electronic", ["Energetic"; "Danceable"]);
   ("country", ["Happy"; "Nostalgic"])].

(** [genres.map(g => g.name || g)], when every entry is a string: a row
    whose name is missing or empty stands for itself, an object. *)
Fixpoint rowNames (genres : list Name) : option (list string) :=
  match genres with
  | [] => Some []
  | g :: rest =>
    match truthy_name g, rowNames rest with
    | Some s, Some names => Some (s :: names)
    | _, _ => None
    end
  end.

(** The moods of the genres whose key a lower-case genre name contains. *)
Definition moodsOfGenres (genreNames : list string) : list string :=
  let predictions :=
    flat_map
      (fun genreName =>
         flat_map
           (fun entry => if str_includes genreName (fst entry) then snd entry else [])
           genreMoodMappings)
      genreNames in
  firstn 2 (dedupe predictions).

(** What the engine throws when it calls [toLowerCase] on a row object. *)
Definition notAFunction : string := "TypeError: name.toLowerCase is not a function".

(** [predictMoodsFromGenres(genres)], on the rows of a song: [toLowerCase]
    is called on every entry of [genres.map(g => g.name || g)], and a row
    object has no such method. *)
Definition predictMoodsFromGenres (genres : list Name) : Result (list string) :=
  match genres with
  | [] => Ok []
  | _ =>
    match rowNames genres with
    | Some names => Ok (moodsOfGenres (map toLowerCase names))
    | None => Thrown notAFunction
    end
  end.

(** The ensemble of the four voters over a table of mood averages. *)
Definition moodEnsemble (moodAverages : list (string * FeatureObj))
  (audioFeatures : FeatureObj) (song : Song) : Result (list string) :=
  let audioPredictions := predictFromAudioFeatures audioFeatures moodAverages in
  match predictMoodsFromGenres (tag_names (genres song)) with
  | Ok genrePredictions =>
    let predictions :=
      map (fun p => {| label := Object p; vote_confidence := confidence p; method := "audio" |})
          audioPredictions ++
      votes_of (predictMoodsFromMetadata song) 0.6 "metadata" ++
      votes_of (predictMoodsFromTitle (title song)) 0.5 "title" ++
      votes_of genrePredictions 0.4 "genre" in
    Ok (topTwo (combineVotes predictions))
  | Thrown e => Thrown e
  end.

(** [predictMoodsFromFeatures(audioFeatures, song)] *)
Definition predictMoodsFromFeatures (p : Predictor) (audioFeatures : FeatureObj)
  (song : Song) : Result (list string) :=
  match moodAverages p with
  | None => Ok (predictMoodsFromMetadata song)
  | Some moodAverages => moodEnsemble moodAverages audioFeatures song
  end.

(** [predictMoods(song)]: the names read off the song's mood rows, or
    the predicted names. *)
Definition predictMoods (song : Song) : M (list Name) :=
  initialize ;;;
  match moods song with
  | Some (m :: ms) => ret (m :: ms)
  | _ =>
    audioFeatures <- predictAudioFeatures song ;;
    p <- get_predictor ;;
    lift (result_map (map Named) (predictMoodsFromFeatures p audioFeatures song))
  end.

(** Every genre row of the song carries a name that is not empty. *)
Definition namedGenres (song : Song) : bool :=
  match rowNames (tag_names (genres song)) with
  | Some _ => true
  | None => false
  end.

(** The songs whose moods can be told: the ones that have moods, and the
    ones whose genre rows all carry a name. *)
Definition moodsPredictable (song : Song) : bool :=
  hasTags (moods song) || namedGenres song.

End AIFeaturePredictor.

(** ** ai-prediction.js: the recommendation engine on predicted features *)

Module AIEnhancedRecommendationEngine.
Import AIFeaturePredictor.

(** A song with what [enhanceSongWithPredictions] puts on it; the
    predicted features go under [audioFeatures]. *)
Record Enhanced : Type := {
  enhanced_song : Song;
  predictedGenres : option (list Name);
  predictedMoods : option (list Name)
}.

Record AiRec : Type := {
  ai_song : Enhanced;
  ai_similarity : R;
  ai_basedOn : string
}.

(** [enhanceSongWithPredictions(song)] *)
Definition enhanceSongWithPredictions (song : Song) : M Enhanced :=
  predictedFeatures <- predictAudioFeatures song ;;
  predictedGenres <- predictGenres song ;;
  predictedMoods <- predictMoods song ;;
  ret {| enhanced_song := set_audio (feature song) (Some predictedFeatures) song;
         predictedGenres := Some predictedGenres;
         predictedMoods := Some predictedMoods |}.

(** [tags?.map(t => t.name) || predicted || []] *)
Definition names_or_predicted (tags predicted : option (list Name)) : list Name :=
  match tags with
  | Some names => names
  | None => tag_names predicted
  end.

(** The overlap of two name arrays, [0] when one is empty. *)
Definition overlap (names1 names2 : list Name) : R :=
  match names1, names2 with
  | [], _ | _, [] => 0
  | _, _ =>
    let common := filter (fun g => includes names2 g) names1 in
    INR (List.length common) / INR (Nat.max (List.length names1) (List.length names2))
  end.

Definition calculateGenreSimilarity (song1 song2 : Enhanced) : R :=
  overlap (names_or_predicted (genres (enhanced_song song1)) (predictedGenres song1))
          (names_or_predicted (genres (enhanced_song song2)) (predictedGenres song2)).

Definition calculateMoodSimilarity (song1 song2 : Enhanced) : R :=
  overlap (names_or_predicted (moods (enhanced_song song1)) (predictedMoods song1))
          (names_or_predicted (moods (enhanced_song song2)) (predictedMoods song2)).

(** [calculateEnhancedSimilarity(song1, song2)] of the engine. *)
Definition calculateEnhancedSimilarity (song1 song2 : Enhanced) : R :=
  let totalScore := 0 in
  let weightSum := 0 in
  let (totalScore, weightSum) :=
    match audioFeatures (enhanced_song song1), audioFeatures (enhanced_song song2) with
    | Some a1, Some a2 =>
      let audioScore := calculateFeatureSimilarity a1 a2 in
      (totalScore + audioScore * 0.6, weightSum + 0.6)
    | _, _ => (totalScore, weightSum)
    end in
  let genreScore := calculateGenreSimilarity song1 song2 in
  let totalScore := totalScore + genreScore * 0.2 in
  let weightSum := weightSum + 0.2 in
  let moodScore := calculateMoodSimilarity song1 song2 in
  let totalScore := totalScore + moodScore * 0.1 in
  let weightSum := weightSum + 0.1 in
  let artistScore :=
    if String.eqb (artist (enhanced_song song1)) (artist (enhanced_song song2)) then 1 else 0 in
  let totalScore := totalScore + artistScore * 0.1 in
  let weightSum := weightSum + 0.1 in
  if Rgtb weightSum 0 then totalScore / weightSum else 0.

(** [findSimilarSongsWithAI(targetSong, allSongs, limit)] *)
Definition findSimilarSongsWithAI (targetSong : Enhanced) (allSongs : list Enhanced)
  (limit : nat) : list AiRec :=
  let similarities :=
    flat_map
      (fun song =>
         if String.eqb (id (enhanced_song song)) (id (enhanced_song targetSong)) then []
         else [{| ai_song := song;
                  ai_similarity := calculateEnhancedSimilarity targetSong song;
                  ai_basedOn := title (enhanced_song targetSong) |}])
      allSongs in
  firstn limit (sort_desc ai_similarity similarities).

Definition rec_id (r : AiRec) : string := id (enhanced_song (ai_song r)).

(** [getFallbackRecommendations(limit)] *)
Definition getFallbackRecommendations (limit : nat) : M (list AiRec) :=
  try_catch
    (songs <- query (fun db => firstn limit (sort_by byLikes (songTable db))) ;;
     ret (map (fun song =>
                 {| ai_song := {| enhanced_song := song; predictedGenres := None;
                                  predictedMoods := None |};
                    ai_similarity := 0.5;
                    ai_basedOn := "Popular songs" |})
              songs))
    (fun error => say (Error "Error getting fallback recommendations:") ;;; ret []).

(** [recs.reduce((acc, rec) => acc.find(r => r.id === rec.id) ? acc : [...acc, rec], [])] *)
Definition uniqueById (recs : list AiRec) : list AiRec :=
  fold_left
    (fun acc r =>
       if existsb (fun r' => String.eqb (rec_id r') (rec_id r)) acc then acc
       else acc ++ [r])
    recs [].

(** [getEnhancedRecommendations(userId, { limit })] *)
Definition getEnhancedRecommendations (userId : string) (limit : nat) : M (list AiRec) :=
  count_call CallGetEnhancedRecommendations ;;;
  try_catch
    (userLikes <- query (likesOf userId) ;;
     match userLikes with
     | [] => getFallbackRecommendations limit
     | _ =>
       enhancedLikedSongs <- for_each (fun like => enhanceSongWithPredictions (l_song like))
                                      userLikes ;;
       allSongs <- query songTable ;;
       enhancedAllSongs <- for_each enhanceSongWithPredictions allSongs ;;
       let recommendations :=
         flat_map (fun likedSong => findSimilarSongsWithAI likedSong enhancedAllSongs 10)
                  enhancedLikedSongs in
       let uniqueRecommendations :=
         uniqueById
           (filter (fun r =>
                      negb (existsb (fun l => String.eqb (id (l_song l)) (rec_id r)) userLikes))
                   recommendations) in
       ret (firstn limit (sort_desc ai_similarity uniqueRecommendations))
     end)
    (fun error =>
       say (Error "Error getting enhanced recommendations:") ;;;
       getFallbackRecommendations limit).

End AIEnhancedRecommendationEngine.

(** ** recommendation-engine.js: the hybrid engine *)

Module HybridRecommendationEngine.

Import CollaborativeFiltering AIEnhancedRecommendationEngine.

(** The [options] argument; a key left out takes its default. *)
Record Options : Type := {
  collaborativeWeight : option R;
  contentBasedWeight : option R;
  aiEnhancedWeight : option R;
  popularityWeight : option R;
  limit : option nat
}.

Definition or_default {A} (o : option A) (d : A) : A :=
  match o with
  | Some v => v
  | None => d
  end.

(** An entry of [combinedRecs]. *)
Record Combined : Type := {
  combined_song : Song;
  combined_score : R;
  sources : list string;
  details : string
}.

Definition Combination : Type := list (string * Combined).

(** [combinedRecs.set(id, { song, score, sources: [source], details })] *)
Definition set_entry (songId : string) (song : Song) (score : R) (source detail : string)
  (combinedRecs : Combination) : Combination :=
  upsert songId
         (fun _ => {| combined_song := song; combined_score := score;
                      sources := [source]; details := detail |})
         combinedRecs.

(** The body of the last three loops: add to the entry that is there,
    or set a new one. *)
Definition add_entry (songId : string) (song : Song) (score : R) (source detail : string)
  (combinedRecs : Combination) : Combination :=
  upsert songId
         (fun existing =>
            match existing with
            | Some e =>
              {| combined_song := combined_song e;
                 combined_score := combined_score e + score;
                 sources := sources e ++ [source];
                 details := details e |}
            | None =>
              {| combined_song := song; combined_score := score;
                 sources := [source]; details := detail |}
            end)
         combinedRecs.

(** The four loops over the four result lists. *)
Definition combine
  (collaborativeRecs : list ItemRec) (contentBasedRecs : list ContentBasedFiltering.ContentRec)
  (aiEnhancedRecs : list AiRec) (popularSongs : list ContentBasedFiltering.ContentRec)
  (collaborativeWeight contentBasedWeight aiEnhancedWeight popularityWeight : R)
  : Combination :=
  let combinedRecs : Combination := [] in
  let combinedRecs :=
    fold_left
      (fun acc r =>
         set_entry (id (item_song r)) (item_song r) (score r * collaborativeWeight)
                   "collaborative" (basedOn r) acc)
      collaborativeRecs combinedRecs in
  let combinedRecs :=
    fold_left
      (fun acc r =>
         add_entry (id (ContentBasedFiltering.rec_song r)) (ContentBasedFiltering.rec_song r)
                   (ContentBasedFiltering.rec_similarity r * contentBasedWeight)
                   "content-based" (ContentBasedFiltering.reason r) acc)
      contentBasedRecs combinedRecs in
  let combinedRecs :=
    fold_left
      (fun acc r =>
         add_entry (rec_id r) (enhanced_song (ai_song r)) (ai_similarity r * aiEnhancedWeight)
                   "ai-enhanced" (ai_basedOn r) acc)
      aiEnhancedRecs combinedRecs in
  fold_left
    (fun acc r =>
       add_entry (id (ContentBasedFiltering.rec_song r)) (ContentBasedFiltering.rec_song r)
                 (ContentBasedFiltering.rec_similarity r * popularityWeight)
                 "popularity" (ContentBasedFiltering.reason r) acc)
    popularSongs combinedRecs.

(** An entry of the list the engine returns. *)
Record Recommendation : Type := {
  song : Song;
  recommendationScore : R;
  rank : option nat;
  rec_sources : list string;
  rec_details : string
}.

(** [.map((rec, index) => ({ ...rec.song, recommendationScore: rec.score, rank: index + 1, ... }))] *)
Fixpoint ranked (index : nat) (recs : list Combined) : list Recommendation :=
  match recs with
  | [] => []
  | r :: rest =>
    {| song := combined_song r; recommendationScore := combined_score r;
       rank := Some (index + 1)%nat; rec_sources := sources r;
       rec_details := details r |} :: ranked (S index) rest
  end.

(** [Array.from(combinedRecs.values()).sort(...).slice(0, limit).map(...)]
    over the combination of the four result lists. *)
Definition finalRecommendations
  (collaborativeRecs : list ItemRec) (contentBasedRecs : list ContentBasedFiltering.ContentRec)
  (aiEnhancedRecs : list AiRec) (popularSongs : list ContentBasedFiltering.ContentRec)
  (collaborativeWeight contentBasedWeight aiEnhancedWeight popularityWeight : R)
  (limit : nat) : list Recommendation :=
  let combinedRecs :=
    combine collaborativeRecs contentBasedRecs aiEnhancedRecs popularSongs
            collaborativeWeight contentBasedWeight aiEnhancedWeight popularityWeight in
  ranked 0 (firstn limit (sort_desc combined_score (map snd combinedRecs))).

(** [Math.ceil(limit * 0.2)] *)
Definition fifth (limit : nat) : nat := ((limit + 4) / 5)%nat.

(** The two lines the engine logs, as the source file spells them. *)
Definition generatingMessage (userId : string) : string :=
  "ðŸŽ¯ Generating hybrid recommendations for user " ++ userId.

Definition generatedMessage (count : nat) : string :=
  "âœ… Generated " ++ string_of_nat count ++ " hybrid recommendations".

(** [getRecommendations(userId, options = {})] *)
Definition getRecommendations (userId : string) (options : Options)
  : M (list Recommendation) :=
  let collaborativeWeight := or_default (collaborativeWeight options) 0.3 in
  let contentBasedWeight := or_default (contentBasedWeight options) 0.3 in
  let aiEnhancedWeight := or_default (aiEnhancedWeight options) 0.3 in
  let popularityWeight := or_default (popularityWeight options) 0.1 in
  let limit := or_default (limit options) 20%nat in
  count_call CallHybridGetRecommendations ;;;
  try_catch
    (say (Log (generatingMessage userId)) ;;;
     collaborativeRecs <- findSimilarItems userId limit ;;
     contentBasedRecs <- ContentBasedFiltering.getRecommendations userId limit ;;
     aiEnhancedRecs <- getEnhancedRecommendations userId limit ;;
     popularSongs <- ContentBasedFiltering.getPopularSongs (fifth limit) ;;
     let finalRecommendations :=
       finalRecommendations collaborativeRecs contentBasedRecs aiEnhancedRecs popularSongs
         collaborativeWeight contentBasedWeight aiEnhancedWeight popularityWeight limit in
     say (Log (generatedMessage (List.length finalRecommendations))) ;;;
     ret finalRecommendations)
    (fun error => say (Error "Error generating hybrid recommendations:") ;;; ret []).

Definition justLimit (limit : nat) : Options :=
  {| collaborativeWeight := None; contentBasedWeight := None; aiEnhancedWeight := None;
     popularityWeight := None; limit := Some limit |}.

(** [getColdStartRecommendations(userId, limit = 20)] *)
Definition getColdStartRecommendations (userId : string) (limit : nat)
  : M (list Recommendation) :=
  try_catch
    (userInteractions <- query (fun db => List.length (interactionsOf userId db)) ;;
     userRatings <- query (fun db => List.length (ratingsOf userId db)) ;;
     if (0 <? userInteractions)%nat || (0 <? userRatings)%nat then
       getRecommendations userId (justLimit limit)
     else
       popularSongs <- ContentBasedFiltering.getPopularSongs limit ;;
       ret (map (fun r =>
                   {| song := ContentBasedFiltering.rec_song r;
                      recommendationScore := ContentBasedFiltering.rec_similarity r;
                      rank := None;
                      rec_sources := ["cold-start"];
                      rec_details := "Popular songs for new users" |})
                popularSongs))
    (fun error => say (Error "Error getting cold start recommendations:") ;;; ret []).

(** *** Reading scores off a combination *)

(** The score an id has in a combination, [0] when it has no entry. *)
Definition score_at (k : string) (c : Combination) : R :=
  match lookup k c with
  | Some e => combined_score e
  | None => 0
  end.

(** The sum of the scores a source list gives to an id. *)
Definition source_score {A} (key : A -> string) (sc : A -> R) (k : string) (l : list A) : R :=
  fold_left (fun acc r => if String.eqb k (key r) then acc + sc r else acc) l 0.

Definition item_id (r : ItemRec) : string := id (item_song r).
Definition content_id (r : ContentBasedFiltering.ContentRec) : string :=
  id (ContentBasedFiltering.rec_song r).

(** Every entry of a combination sits under the id of its song, and no
    id has two entries. *)
Definition keyed (c : Combination) : Prop :=
  NoDup (map fst c) /\ forall k e, In (k, e) c -> k = id (combined_song e).

(** Every entry of the item scores sits under the id of its song. *)
Definition item_keyed (c : list (string * ItemRec)) : Prop :=
  NoDup (map fst c) /\ forall k e, In (k, e) c -> k = item_id e.

(** The sum of the four weights a call runs under. *)
Definition weightTotal (o : Options) : R :=
  or_default (collaborativeWeight o) 0.3 + or_default (contentBasedWeight o) 0.3 +
  or_default (aiEnhancedWeight o) 0.3 + or_default (popularityWeight o) 0.1.

(** The rows [getPopularSongs] answers with when the database is up. *)
Definition popular (limit : nat) (db : Database) : list ContentBasedFiltering.ContentRec :=
  map (fun song => {| ContentBasedFiltering.rec_song := song;
                      ContentBasedFiltering.rec_similarity := 0.5;
                      ContentBasedFiltering.reason := "Popular song" |})
      (firstn limit (sort_by byPopularity (songTable db))).

End HybridRecommendationEngine.

(** ** Sample data *)

Definition plain_song (i t a : string) (g m : list string) : Song :=
  {| id := i; title := t; artist := a; year := None;
     feature := empty_features; audioFeatures := None;
     genres := Some (map Named g); moods := Some (map Named m); popularity := None;
     totalPlays := 0; totalLikes := 0; avgRating := 0 |}.

Module Samples.
Import HybridRecommendationEngine.

Definition trapSong : Song := plain_song "s1" "First" "Artist" ["Trap"] [].
Definition popSong : Song := plain_song "s2" "Second" "Artist" ["Pop"] [].
Definition untagged : Song := plain_song "s3" "Third" "Artist" [] [].

Definition moodyTrap : Song := plain_song "s4" "Fourth" "Artist" ["Trap"] ["Energetic"].
Definition moodyPop : Song := plain_song "s5" "Fifth" "Artist" ["Pop"] ["Energetic"].

(** A song that has its tempo and nothing else. *)
Definition tempoOnly : Song :=
  set_audio (set_feature empty_features tempo 120) None untagged.

(** A song by the artist the application is about: no tag, no year, no
    audio feature. *)
Definition uziSong : Song := plain_song "s9" "Myron" "Lil Uzi Vert" [] [].

(** A database holding one song without audio features, and no user
    event. *)
Definition freshInstall : World :=
  {| database := {| up := true; songTable := [untagged]; userSongInteraction := [];
                    userSongLike := []; ratingTable := [] |};
     predictor := newPredictor; console := []; calls := [] |}.

(** A predictor whose artist model of "Artist" averages the key to 0. *)
Definition zeroKeyPredictor : Predictor :=
  {| correlations := Some AIFeaturePredictor.fallbackCorrelations;
     artistModels := Some [("Artist", AIFeaturePredictor.obj [(key, 0)])];
     yearModels := Some [];
     genreAverages := Some AIFeaturePredictor.fallbackGenreAverages;
     moodAverages := Some AIFeaturePredictor.fallbackMoodAverages;
     initialized := true |}.

(** The options the recommendations route passes for its default
    algorithm. *)
Definition routeOptions : Options :=
  {| collaborativeWeight := Some 0.4; contentBasedWeight := Some 0.4;
     aiEnhancedWeight := None; popularityWeight := Some 0.2; limit := Some 20%nat |}.

(** A predictor with an artist model and a year model in range, over
    the fixed correlations. *)
Definition rangedPredictor : Predictor :=
  {| correlations := Some AIFeaturePredictor.fallbackCorrelations;
     artistModels := Some [("Artist", AIFeaturePredictor.obj [(energy, 0.9)])];
     yearModels := Some [("2010s", AIFeaturePredictor.obj [(energy, 0.4)])];
     genreAverages := Some AIFeaturePredictor.fallbackGenreAverages;
     moodAverages := Some AIFeaturePredictor.fallbackMoodAverages;
     initialized := true |}.

(** A song of an artist without model that has its danceability and
    nothing else. *)
Definition danceOnly : Song :=
  set_audio (set_feature empty_features danceability 0.6) None uziSong.

(** A song with its play count and average rating. *)
Definition charted (i : string) (plays : Z) (stars : R) : Song :=
  {| id := i; title := i; artist := "Artist"; year := None;
     feature := empty_features; audioFeatures := None;
     genres := Some []; moods := Some []; popularity := None;
     totalPlays := plays; totalLikes := 0; avgRating := stars |}.

(** A database of three songs, the least played first, and no user
    event. *)
Definition charts : World :=
  {| database := {| up := true;
                    songTable := [charted "p1" 5 4.5; charted "p2" 50 3; charted "p3" 50 4];
                    userSongInteraction := [];
                    userSongLike := []; ratingTable := [] |};
     predictor := newPredictor; console := []; calls := [] |}.

(** A track as the sync stores it and as
    [include: { genres: true, moods: true }] loads it back: the columns
    of its audio features, and one row of the join table for each genre
    and each mood the rules of the sync linked it to, rows that have no
    name. *)
Definition synced (i t : string) (e speech : R) (genreLinks moodLinks : list Name) : Song :=
  {| id := i; title := t; artist := "Lil Uzi Vert"; year := Some 2017%Z;
     feature := AIFeaturePredictor.obj
                  [(energy, e); (danceability, 0.5); (valence, 0.5); (tempo, 150);
                   (speechiness, speech)];
     audioFeatures := None;
     genres := Some genreLinks; moods := Some moodLinks; popularity := Some 60;
     totalPlays := 0; totalLikes := 0; avgRating := 0 |}.

(** Two such tracks of energy 0.7, alike but for the speechiness: the
    rules link the first to Trap and Rap and the second to Trap only,
    and both to the mood Energetic. *)
Definition twoLinks : Song := synced "s6" "Sixth" 0.7 0.7 [Undefined; Undefined] [Undefined].
Definition oneLink : Song := synced "s7" "Seventh" 0.7 0.1 [Undefined] [Undefined].

(** A track of energy 0.65: the rules link it to Trap and to no
    mood. *)
Definition linked : Song := synced "s8" "Eighth" 0.65 0.1 [Undefined] [].

(** A database where a user likes the one song it holds, a song with one
    link to a genre and no mood. *)
Definition fan : World :=
  {| database := {| up := true; songTable := [linked]; userSongInteraction := [];
                    userSongLike := [{| l_userId := "u1"; l_song := linked |}];
                    ratingTable := [] |};
     predictor := newPredictor; console := []; calls := [] |}.

End Samples.

(** ** audio-analysis.js: distance, signature, genre probabilities and clustering *)

Module AudioVectors.
Import AudioAnalysis.

(** The result of [euclideanDistance]: a number, or [Infinity]. *)
Inductive Distance : Type :=
| Finite (d : R)
| Infinity.

(** [euclideanDistance(features1, features2)] *)
Definition euclideanDistance (features1 features2 : FeatureObj) : Distance :=
  let keys :=
    filter (fun key => is_number (features1 key) && is_number (features2 key))
           (object_keys features1) in
  match keys with
  | [] => Infinity
  | _ =>
    let sum :=
      fold_left
        (fun acc key =>
           let diff := num_at features1 key - num_at features2 key in
           acc + diff * diff)
        keys 0 in
    Finite (sqrt sum)
  end.

(** [a < b] and [a > t] on distances. *)
Definition dist_ltb (a b : Distance) : bool :=
  match a, b with
  | Finite x, Finite y => Rltb x y
  | Finite _, Infinity => true
  | Infinity, _ => false
  end.

Definition dist_gtb (a : Distance) (t : R) : bool :=
  match a with
  | Finite x => Rgtb x t
  | Infinity => true
  end.

(** The songs [findSimilarSongs] compares the target with: the others
    that have audio features. *)
Definition comparable (targetSong song : Song) : bool :=
  negb (String.eqb (id song) (id targetSong)) && is_number_obj (audioFeatures song).

(** The entry [findSimilarSongs] makes for a song it compares. *)
Definition compared (targetAudio : FeatureObj) (song : Song) (audio : FeatureObj)
  : SimilarSongs.Similar :=
  {| SimilarSongs.similar_song := song;
     SimilarSongs.similarity :=
       cosineSimilarity (normalizeFeatures targetAudio) (normalizeFeatures audio) |}.

(** *** [generateAudioSignature] *)

(** A property of an object where [null] and a missing key behave
    differently: in a comparison [null] counts as 0 and [undefined]
    compares false with everything. *)
Inductive Slot : Type :=
| Absent
| Null
| Number (v : R).

Definition SlotObj : Type := Feature -> Slot.

(** The numbers of an object. *)
Definition numbers (o : SlotObj) : FeatureObj :=
  fun k =>
    match o k with
    | Number v => Some v
    | _ => None
    end.

(** [normalizeFeatures(features)], on an object that tells [null] from a
    missing key: both stay as they are. *)
Definition normalizeSlots (features : SlotObj) : SlotObj :=
  fun k =>
    match features k with
    | Number v =>
      let (mn, mx) := ranges k in
      Number (Rmax 0 (Rmin 1 ((v - mn) / (mx - mn))))
    | s => s
    end.

(** [s > t] and [s < t] *)
Definition slot_gtb (s : Slot) (t : R) : bool :=
  match s with
  | Number x => Rgtb x t
  | Null => Rgtb 0 t
  | Absent => false
  end.

Definition slot_ltb (s : Slot) (t : R) : bool :=
  match s with
  | Number x => Rltb x t
  | Null => Rltb 0 t
  | Absent => false
  end.

Record Signature : Type := {
  primary : list (string * R);
  secondary : list (string * R);
  characteristics : list string
}.

(** The features a signature reads besides the tempo, with the
    characteristic each one stands for. *)
Definition dominantLabels : list (Feature * string) :=
  [(energy, "high-energy"); (danceability, "danceable"); (valence, "positive");
   (acousticness, "acoustic"); (speechiness, "vocal-heavy")].

(** [generateAudioSignature(audioFeatures)] *)
Definition generateAudioSignature (audioFeatures : option SlotObj) : option Signature :=
  match audioFeatures with
  | None => None
  | Some audioFeatures =>
    let normalized := normalizeSlots audioFeatures in
    let characteristics :=
      (if slot_gtb (normalized energy) 0.7 then ["high-energy"] else []) ++
      (if slot_gtb (normalized danceability) 0.7 then ["danceable"] else []) ++
      (if slot_gtb (normalized valence) 0.7 then ["positive"] else []) ++
      (if slot_gtb (normalized acousticness) 0.7 then ["acoustic"] else []) ++
      (if slot_gtb (normalized speechiness) 0.7 then ["vocal-heavy"] else []) ++
      (if slot_gtb (normalized tempo) 0.8 then ["fast-tempo"]
       else if slot_ltb (normalized tempo) 0.3 then ["slow-tempo"]
       else ["medium-tempo"]) in
    Some {| primary := []; secondary := []; characteristics := characteristics |}
  end.

(** *** [calculateGenreProbabilities] *)

Definition genreModels : list (string * FeatureObj) :=
  [("Trap", AIFeaturePredictor.obj
              [(energy, 0.8); (danceability, 0.7); (valence, 0.5); (tempo, 0.8); (speechiness, 0.6)]);
   ("Hip-Hop", AIFeaturePredictor.obj
              [(energy, 0.6); (danceability, 0.6); (valence, 0.5); (tempo, 0.5); (speechiness, 0.8)]);
   ("R&B", AIFeaturePredictor.obj
              [(energy, 0.5); (danceability, 0.7); (valence, 0.6); (tempo, 0.4); (speechiness, 0.3)]);
   ("Pop", AIFeaturePredictor.obj
              [(energy, 0.7); (danceability, 0.8); (valence, 0.7); (tempo, 0.6); (speechiness, 0.2)])].

(** [Object.values(probabilities).reduce((sum, prob) => sum + prob, 0)] *)
Definition total_of (probabilities : list (string * R)) : R :=
  fold_left (fun sum entry => sum + snd entry) probabilities 0.

(** [calculateGenreProbabilities(audioFeatures)] *)
Definition calculateGenreProbabilities (audioFeatures : FeatureObj) : list (string * R) :=
  let normalized := normalizeFeatures audioFeatures in
  let probabilities :=
    map (fun entry => (fst entry, Rmax 0 (cosineSimilarity normalized (snd entry))))
        genreModels in
  let total := total_of probabilities in
  if Rgtb total 0
  then map (fun entry => (fst entry, snd entry / total)) probabilities
  else probabilities.

(** An object whose numbers are all positive. *)
Definition positive_obj (o : FeatureObj) : Prop := forall k v, o k = Some v -> 0 < v.

(** *** [kMeansClustering] *)

(** A song with the features the clustering reads off it. *)
Definition Item : Type := (Song * FeatureObj)%type.

Record Cluster : Type := {
  cluster_id : nat;
  centroid : FeatureObj;
  cluster_songs : list Song;
  size : nat
}.

(** The features of a song as the clustering sees them. *)
Definition clusterFeatures (song : Song) : FeatureObj :=
  let audioFeatures :=
    match audioFeatures song with
    | Some a => a
    | None => empty_features
    end in
  normalizeFeatures
    (AIFeaturePredictor.obj
       [(energy, AIFeaturePredictor.or_else (audioFeatures energy) 0);
        (danceability, AIFeaturePredictor.or_else (audioFeatures danceability) 0);
        (valence, AIFeaturePredictor.or_else (audioFeatures valence) 0);
        (acousticness, AIFeaturePredictor.or_else (audioFeatures acousticness) 0);
        (tempo, AIFeaturePredictor.or_else (audioFeatures tempo) 120)]).

(** The inner loop over the centroids: the first of the closest ones. *)
Definition closestCluster (k : nat) (centroids : list FeatureObj) (features : FeatureObj) : nat :=
  snd (fold_left
         (fun best j =>
            let distance := euclideanDistance features (nth j centroids empty_features) in
            if dist_ltb distance (fst best) then (distance, j) else best)
         (seq 0 k) (Infinity, 0%nat)).

(** [clusters[i].push(x)]; the index the loop computes is below the
    number of clusters. *)
Fixpoint push_at {A : Type} (i : nat) (x : A) (clusters : list (list A)) : list (list A) :=
  match clusters, i with
  | [], _ => []
  | cluster :: rest, O => (cluster ++ [x]) :: rest
  | cluster :: rest, S i' => cluster :: push_at i' x rest
  end.

(** "Assign each song to nearest centroid" *)
Definition assign (k : nat) (items : list Item) (centroids : list FeatureObj)
  : list (list Item) :=
  fold_left
    (fun clusters item => push_at (closestCluster k centroids (snd item)) item clusters)
    items (repeat [] k).

(** The centroid of a cluster: the one it had when the cluster is empty,
    else the mean of its members over the keys of the first one. *)
Definition updateCentroid (cluster : list Item) (old : FeatureObj) : FeatureObj :=
  match cluster with
  | [] => old
  | first :: _ =>
    fun key =>
      if is_number (snd first key)
      then Some (fold_left (fun sum item => sum + num_at (snd item) key) cluster 0 /
                 INR (List.length cluster))
      else None
  end.

(** "Update centroids" *)
Definition updateCentroids (k : nat) (clusters : list (list Item)) (centroids : list FeatureObj)
  : list FeatureObj :=
  map (fun i => updateCentroid (nth i clusters []) (nth i centroids empty_features)) (seq 0 k).

(** "Check for convergence" *)
Definition converged (k : nat) (centroids newCentroids : list FeatureObj) : bool :=
  forallb
    (fun i =>
       negb (dist_gtb (euclideanDistance (nth i centroids empty_features)
                                         (nth i newCentroids empty_features))
                      0.001))
    (seq 0 k).

(** The [while] loop; [remaining] counts the iterations left. *)
Fixpoint iterate (remaining k : nat) (items : list Item)
  (centroids : list FeatureObj) (clusters : list (list Item))
  : list FeatureObj * list (list Item) :=
  match remaining with
  | O => (centroids, clusters)
  | S remaining' =>
    let clusters := assign k items centroids in
    let newCentroids := updateCentroids k clusters centroids in
    if converged k centroids newCentroids then (newCentroids, clusters)
    else iterate remaining' k items newCentroids clusters
  end.

(** [clusters.map((cluster, index) => ({ id: index, centroid: centroids[index], ... }))] *)
Definition describe (centroids : list FeatureObj) (clusters : list (list Item)) : list Cluster :=
  map (fun entry =>
         {| cluster_id := fst entry;
            centroid := nth (fst entry) centroids empty_features;
            cluster_songs := map fst (snd entry);
            size := List.length (snd entry) |})
      (combine (seq 0 (List.length clusters)) clusters).

(** [kMeansClustering(songs, k, maxIterations)], for whole numbers [k]
    and [maxIterations]. [randomIndex i] is the value of
    [Math.floor(Math.random() * features.length)] at the [i]th draw;
    [{ ...features[randomIndex] }] is the empty object when the index
    holds nothing. *)
Definition kMeansClustering (randomIndex : nat -> nat) (songs : list Song)
  (k maxIterations : nat) : list Cluster :=
  if (List.length songs =? 0)%nat || (k =? 0)%nat then []
  else
    let features := map clusterFeatures songs in
    let centroids :=
      map (fun i =>
             match nth_error features (randomIndex i) with
             | Some f => f
             | None => empty_features
             end)
          (seq 0 k) in
    let (centroids, clusters) :=
      iterate maxIterations k (combine songs features) centroids [] in
    describe centroids clusters.

End AudioVectors.

(** ** recommendation-engine.js: user profiles and similar users *)

Module UserProfiles.
Import AudioAnalysis.

(** The user profile of [createUserProfile]; [genres] and [moods] are
    never filled. *)
Record Profile : Type := {
  p_genres : list (string * R);
  p_moods : list (string * R);
  p_audioFeatures : FeatureObj;
  totalWeight : R
}.


(** The profile the function starts from. *)
Definition emptyProfile : Profile :=
  {| p_genres := []; p_moods := [];
     p_audioFeatures :=
       AIFeaturePredictor.obj
         [(energy, 0); (danceability, 0); (valence, 0); (tempo, 0); (acousticness, 0)];
     totalWeight := 0 |}.

(** The body of the two loops: the weight goes to [totalWeight], and
    every number of the song's [audioFeatures] whose key the profile has
    goes, weighted, to that key. *)
Definition addSong (song : Song) (weight : R) (profile : Profile) : Profile :=
  {| p_genres := p_genres profile; p_moods := p_moods profile;
     p_audioFeatures :=
       match audioFeatures song with
       | Some features =>
         fun key =>
           match p_audioFeatures profile key, features key with
           | Some sum, Some value => Some (sum + value * weight)
           | current, _ => current
           end
       | None => p_audioFeatures profile
       end;
     totalWeight := totalWeight profile + weight |}.

(** [createUserProfile(ratings, interactions)] *)
Definition createUserProfile (ratings : list Rating) (interactions : list Interaction)
  : Profile :=
  let profile :=
    fold_left (fun profile r => addSong (r_song r) (rating r / 5) profile)
              ratings emptyProfile in
  let profile :=
    fold_left (fun profile i => addSong (i_song i) (Rmin (playCount i / 10) 1) profile)
              interactions profile in
  if Rgtb (totalWeight profile) 0 then
    {| p_genres := p_genres profile; p_moods := p_moods profile;
       p_audioFeatures :=
         fun key =>
           match p_audioFeatures profile key with
           | Some sum => Some (sum / totalWeight profile)
           | None => None
           end;
       totalWeight := totalWeight profile |}
  else profile.

(** [calculateUserSimilarity(profile1, profile2)] *)
Definition calculateUserSimilarity (profile1 profile2 : Profile) : R :=
  if Reqb (totalWeight profile1) 0 || Reqb (totalWeight profile2) 0 then 0
  else cosineSimilarity (p_audioFeatures profile1) (p_audioFeatures profile2).

Record SimilarUser : Type := {
  su_user : string;
  su_similarity : R;
  su_profile : Profile
}.

(** The users [findSimilarUsers] compares with: the others who have
    rated something. *)
Definition otherRaters (userTable : list string) (userId : string) (db : Database)
  : list string :=
  filter (fun u => negb (String.eqb u userId) &&
                   negb (List.length (ratingsOf u db) =? 0)%nat)
         userTable.

(** The comparison loop of [findSimilarUsers]. *)
Definition userMatches (userProfile : Profile) (otherUsers : list string) (db : Database)
  : list SimilarUser :=
  flat_map
    (fun otherUser =>
       let otherProfile :=
         createUserProfile (ratingsOf otherUser db) (interactionsOf otherUser db) in
       let similarity := calculateUserSimilarity userProfile otherProfile in
       if Rgtb similarity 0.1
       then [{| su_user := otherUser; su_similarity := similarity;
                su_profile := otherProfile |}]
       else [])
    otherUsers.

(** [findSimilarUsers(userId, limit)]. [userTable] holds the ids of the
    rows of the user table, in the order the query answers with. *)
Definition findSimilarUsers (userTable : list string) (userId : string) (limit : nat)
  : M (list SimilarUser) :=
  try_catch
    (userRatings <- query (ratingsOf userId) ;;
     userInteractions <- query (interactionsOf userId) ;;
     if (List.length userRatings =? 0)%nat && (List.length userInteractions =? 0)%nat
     then ret []
     else
       let userProfile := createUserProfile userRatings userInteractions in
       similarities <-
         query (fun db => userMatches userProfile (otherRaters userTable userId db) db) ;;
       ret (firstn limit (sort_desc su_similarity similarities)))
    (fun error => say (Error "Error finding similar users:") ;;; ret []).



End UserProfiles.

(** ** recommendation-engine.js: the sources of a combined entry *)

Definition sourceNames : list string :=
  ["collaborative"; "content-based"; "ai-enhanced"; "popularity"].

(** Every entry of a combination names at least one source, and only
    sources of the engine. *)
Definition sourced (c : HybridRecommendationEngine.Combination) : Prop :=
  forall k e, In (k, e) c ->
    HybridRecommendationEngine.sources e <> [] /\
    incl (HybridRecommendationEngine.sources e) sourceNames.

(** ** The arrays whose overlap is 0 / 0 *)

(** Both songs carry the array, and both arrays are empty. *)
Definition both_empty (tags1 tags2 : option (list Name)) : Prop :=
  tags1 = Some [] /\ tags2 = Some [].

(** ** recommendation-engine.js: the events of a user *)

(** The events of a user as the application records them: play counts
    and listening times are not negative, ratings go up to 5. *)
Definition plain_history (userId : string) (db : Database) : Prop :=
  Forall (fun i => 0 <= playCount i /\ 0 <= totalTime i) (interactionsOf userId db) /\
  Forall (fun r => rating r <= 5) (ratingsOf userId db).

(** ** recommendation-engine.js: factor rows *)

Module Factors.

(** [arr[i]]: [undefined] beyond the end, which turns into [NaN] in
    arithmetic. *)
Definition at_index (arr : list num) (i : nat) : num := nth i arr NaN.

Definition nsub : num -> num -> num := nlift2 Rminus.

(** [predictRating(userFactors, itemFactors)] *)
Definition predictRating (userFactors itemFactors : list num) : num :=
  let prediction :=
    fold_left
      (fun prediction i => nadd prediction (nmul (at_index userFactors i) (at_index itemFactors i)))
      (seq 0 (List.length userFactors)) (Num 0) in
  clamp01 prediction.

(** [arr[i] = v]: the array grows when the index is its length. *)
Fixpoint set_index (arr : list num) (i : nat) (v : num) : list num :=
  match arr, i with
  | [], O => [v]
  | [], S i' => NaN :: set_index [] i' v
  | _ :: rest, O => v :: rest
  | x :: rest, S i' => x :: set_index rest i' v
  end.

(** [updateFactors(userFactors, itemFactors, error, learningRate)]: the
    two rows after the call. *)
Definition updateFactors (userFactors itemFactors : list num) (error : num) (learningRate : R)
  : list num * list num :=
  fold_left
    (fun (rows : list num * list num) i =>
       let (userFactors, itemFactors) := rows in
       let userGradient := nmul (nmul (Num (-2)) error) (at_index itemFactors i) in
       let itemGradient := nmul (nmul (Num (-2)) error) (at_index userFactors i) in
       (set_index userFactors i
                  (nsub (at_index userFactors i) (nmul (Num learningRate) userGradient)),
        set_index itemFactors i
                  (nsub (at_index itemFactors i) (nmul (Num learningRate) itemGradient))))
    (seq 0 (List.length userFactors)) (userFactors, itemFactors).

End Factors.

(** ** data-completion.js *)

Module DataCompletionEngine.
Import AIFeaturePredictor.

(** [getMissingAudioFeatures(song)] *)
Definition getMissingAudioFeatures (song : Song) : list Feature :=
  filter (fun name => missing (feature song name)) all_features.

(** What [generateCompletionData] collects: the predicted features, and
    the predicted genres and moods when the keys are set. *)
Record CompletionData : Type := {
  completedFeatures : FeatureObj;
  predictedGenres : option (list Name);
  predictedMoods : option (list Name)
}.

(** [generateCompletionData(song)] *)
Definition generateCompletionData (song : Song) : M CompletionData :=
  predictedFeatures <- predictAudioFeatures song ;;
  let missingFeatures := getMissingAudioFeatures song in
  let completionData :=
    fold_left
      (fun completionData name =>
         match predictedFeatures name with
         | Some v => set_feature completionData name v
         | None => completionData
         end)
      missingFeatures empty_features in
  predictedGenres <-
    (if hasTags (genres song) then ret None
     else genreNames <- predictGenres song ;; ret (Some genreNames)) ;;
  predictedMoods <-
    (if hasTags (moods song) then ret None
     else moodNames <- predictMoods song ;; ret (Some moodNames)) ;;
  ret {| completedFeatures := completionData;
         predictedGenres := predictedGenres;
         predictedMoods := predictedMoods |}.

(** [Object.keys(completionData).length] *)
Definition keyCount (completionData : CompletionData) : nat :=
  (List.length (object_keys (completedFeatures completionData)) +
   (match predictedGenres completionData with Some _ => 1 | None => 0 end) +
   (match predictedMoods completionData with Some _ => 1 | None => 0 end))%nat.

(** [typeof value === 'number' ? value > 0 : Array.isArray(value) ? value.length > 0 : true]
    over the values of the completion data. *)
Definition hasValidPredictions (completionData : CompletionData) : bool :=
  existsb (fun k => Rgtb (num_at (completedFeatures completionData) k) 0)
          (object_keys (completedFeatures completionData)) ||
  match predictedGenres completionData with
  | Some (_ :: _) => true
  | _ => false
  end ||
  match predictedMoods completionData with
  | Some (_ :: _) => true
  | _ => false
  end.

(** [shouldSkipCompletion(song, completionData)] *)
Definition shouldSkipCompletion (song : Song) (completionData : CompletionData) : bool :=
  if (keyCount completionData =? 0)%nat then true
  else negb (hasValidPredictions completionData).

(** The ranges [cleanSongData] clamps to. *)
Definition audioFeatureRanges (name : Feature) : R * R :=
  match name with
  | energy | danceability | valence | acousticness
  | instrumentalness | liveness | speechiness => (0, 1)
  | tempo => (50, 200)
  | loudness => (-60, 0)
  | mode => (0, 1)
  | key => (0, 11)
  | timeSignature => (3, 7)
  end.

(** [cleanSongData(song)]: the columns to correct, with their values. *)
Definition cleanSongData (song : Song) : FeatureObj :=
  fun name =>
    let (min, max) := audioFeatureRanges name in
    match feature song name with
    | Some value =>
      if Rltb value min || Rgtb value max
      then Some (Rmax min (Rmin max value))
      else None
    | None => None
    end.

(** [prisma.song.update({ where: { id }, data })] on the row itself: the
    columns of [data] take their new values. *)
Definition updated (data : FeatureObj) (song : Song) : Song :=
  set_audio
    (fun name =>
       match data name with
       | Some v => Some v
       | None => feature song name
       end)
    (audioFeatures song) song.

End DataCompletionEngine.

(** ** More sample data *)

Module Listeners.
Import Samples.

(** A song whose nested audio features hold an energy. *)
Definition energetic : Song :=
  set_audio empty_features (Some (set_feature empty_features energy 0.8)) trapSong.

Definition played : Interaction :=
  {| i_userId := "u1"; i_song := trapSong; playCount := 3; totalTime := 200 |}.

Definition rated : Rating :=
  {| r_userId := "u1"; r_song := energetic; rating := 4 |}.

(** A database with one listener, who played one song and rated
    another. *)
Definition listener : World :=
  {| database := {| up := true; songTable := [trapSong; popSong; energetic];
                    userSongInteraction := [played];
                    userSongLike := []; ratingTable := [rated] |};
     predictor := newPredictor; console := []; calls := [] |}.

(** A training row: a song of 2016 by "Artist" with four audio features,
    one genre link and one mood link. *)
Definition trainingRow (i : string) (e : R) : Song :=
  {| id := i; title := "Song"; artist := "Artist"; year := Some 2016%Z;
     feature := AIFeaturePredictor.obj
                  [(energy, e); (danceability, 0.6); (valence, 0.4); (tempo, 120)];
     audioFeatures := None;
     genres := Some [Undefined]; moods := Some [Undefined]; popularity := None;
     totalPlays := 0; totalLikes := 0; avgRating := 0 |}.

Definition trainingRows : list Song :=
  [trainingRow "t1" 0.5; trainingRow "t2" 0.6; trainingRow "t3" 0.7;
   trainingRow "t4" 0.8; trainingRow "t5" 0.9].

(** A second song whose nested audio features hold an energy. *)
Definition calm : Song :=
  set_audio empty_features (Some (set_feature empty_features energy 0.6)) popSong.

Definition favourite : Like := {| l_userId := "u1"; l_song := energetic |}.

(** A database with two songs that have audio features, one of them
    liked by the listener. *)
Definition audiophile : World :=
  {| database := {| up := true; songTable := [energetic; calm];
                    userSongInteraction := [];
                    userSongLike := [favourite]; ratingTable := [] |};
     predictor := newPredictor; console := []; calls := [] |}.

End Listeners.

(** * Properties *)

(** ** Helper lemmas *)

Lemma fold_left_ext_R {A} (f g : R -> A -> R) (l : list A) (a : R) :
  (forall acc x, f acc x = g acc x) -> fold_left f l a = fold_left g l a.
Proof.
  intros E. revert a. induction l as [|x l IH]; intros a; simpl; [reflexivity|].
  rewrite E. apply IH.
Qed.

(** ** Evaluating comparisons on concrete reals *)

Lemma Rgtb_true (x y : R) : y < x -> Rgtb x y = true.
Proof. intros H. unfold Rgtb. destruct (Rlt_dec y x); [reflexivity | contradiction]. Qed.

Lemma Rgtb_false (x y : R) : x <= y -> Rgtb x y = false.
Proof. intros H. unfold Rgtb. destruct (Rlt_dec y x); [lra | reflexivity]. Qed.

Lemma Reqb_true (x y : R) : x = y -> Reqb x y = true.
Proof. intros H. unfold Reqb. destruct (Req_dec_T x y); [reflexivity | contradiction]. Qed.

Lemma Reqb_false (x y : R) : x <> y -> Reqb x y = false.
Proof. intros H. unfold Reqb. destruct (Req_dec_T x y); [contradiction | reflexivity]. Qed.

Lemma Rgtb_spec (x y : R) : Rgtb x y = true <-> y < x.
Proof.
  unfold Rgtb. destruct (Rlt_dec y x); split; intros; (assumption || reflexivity || discriminate || contradiction).
Qed.

Lemma Reqb_spec (x y : R) : Reqb x y = true <-> x = y.
Proof.
  unfold Reqb. destruct (Req_dec_T x y); split; intros; (assumption || reflexivity || discriminate || contradiction).
Qed.

Lemma clamp01_Num (x : R) : clamp01 (Num x) = Num (Rmax 0 (Rmin 1 x)).
Proof. reflexivity. Qed.

Module CompositeFacts.
Import AudioAnalysis ContentBasedFiltering.

Lemma nadd_0_r (t : num) : nadd t (Num 0) = t.
Proof. destruct t; simpl; [rewrite Rplus_0_r|]; reflexivity. Qed.

Lemma accumulate_skipped (acc : Contribution) : accumulate acc skipped = acc.
Proof.
  destruct acc as [t w]. unfold accumulate, skipped. simpl.
  rewrite nadd_0_r, Rplus_0_r. reflexivity.
Qed.

Lemma contribution_absent (f : Factor) (s1 s2 : Song) :
  present f s1 = false -> present f s2 = false -> contribution f s1 s2 = skipped.
Proof.
  destruct f; simpl; intros H1 H2;
    [unfold audioContribution | unfold genreContribution | unfold moodContribution];
    rewrite H1, H2; reflexivity.
Qed.

Lemma enhanced_as_composite (s1 s2 : Song) :
  calculateEnhancedSimilarity s1 s2 =
  composite [contribution Audio s1 s2; contribution Genre s1 s2; contribution Mood s1 s2;
             artistContribution s1 s2; popularityContribution s1 s2].
Proof. reflexivity. Qed.

Lemma fold_left_sum_ge {A} (g : A -> R) (l : list A) (a : R) :
  (forall x, 0 <= g x) -> a <= fold_left (fun acc x => acc + g x) l a.
Proof.
  intros Hg. revert a. induction l as [|x l IH]; intros a; simpl; [lra|].
  specialize (IH (a + g x)). specialize (Hg x). lra.
Qed.

Lemma num_at_nonneg (o : FeatureObj) (k : Feature) : nonneg_obj o -> 0 <= num_at o k.
Proof.
  intros H. unfold num_at. destruct (o k) as [v|] eqn:E; [eapply H; eauto | lra].
Qed.

Lemma normalizeFeatures_nonneg (o : FeatureObj) : nonneg_obj (normalizeFeatures o).
Proof.
  intros k v. unfold normalizeFeatures. destruct (o k) as [x|]; [|discriminate].
  destruct (ranges k) as [mn mx]. intros E. injection E as <-. apply Rmax_l.
Qed.

Lemma cosineSimilarity_nonneg (f1 f2 : FeatureObj) :
  nonneg_obj f1 -> nonneg_obj f2 -> 0 <= cosineSimilarity f1 f2.
Proof.
  intros H1 H2. unfold cosineSimilarity.
  destruct (filter _ (object_keys f1)) as [|k0 ks]; [lra|].
  set (keys := k0 :: ks).
  destruct (Reqb _ 0) eqn:E1; [simpl; lra|].
  destruct (Reqb (fold_left (fun acc key => acc + num_at f2 key * num_at f2 key) keys 0) 0) eqn:E2;
    [simpl; lra|]. simpl orb. cbv iota.
  assert (N1 := fold_left_sum_ge (fun key => num_at f1 key * num_at f1 key) keys 0
                  (fun x => Rle_0_sqr _)).
  assert (N2 := fold_left_sum_ge (fun key => num_at f2 key * num_at f2 key) keys 0
                  (fun x => Rle_0_sqr _)).
  assert (D := fold_left_sum_ge (fun key => num_at f1 key * num_at f2 key) keys 0).
  cbv beta in *.
  assert (P1 : fold_left (fun acc key => acc + num_at f1 key * num_at f1 key) keys 0 <> 0).
  { intros C. apply Reqb_spec in C. congruence. }
  assert (P2 : fold_left (fun acc key => acc + num_at f2 key * num_at f2 key) keys 0 <> 0).
  { intros C. apply Reqb_spec in C. congruence. }
  apply Rle_mult_inv_pos.
  - apply D. intros x. apply Rmult_le_pos; apply num_at_nonneg; assumption.
  - apply Rmult_lt_0_compat; apply sqrt_lt_R0; lra.
Qed.

Lemma clamp01_mono (a b : R) : a <= b -> nle (clamp01 (Num a)) (clamp01 (Num b)).
Proof.
  intros H. rewrite !clamp01_Num. simpl.
  unfold Rmax, Rmin. repeat (destruct (Rle_dec _ _)); lra.
Qed.

Lemma clamp01_is_Num (t : num) (x : R) : clamp01 t = Num x -> exists r, t = Num r.
Proof. destruct t; [eauto | discriminate]. Qed.

Lemma overlapScore_nonneg (l1 l2 : list Name) (r : R) :
  overlapScore l1 l2 = Num r -> 0 <= r.
Proof.
  unfold overlapScore. destruct (Nat.eqb _ 0) eqn:E; [discriminate|].
  intros H. injection H as <-. apply Nat.eqb_neq in E.
  apply Rle_mult_inv_pos; [apply pos_INR | apply lt_0_INR; lia].
Qed.

End CompositeFacts.

(** ** Sorting *)

Lemma insert_by_Sorted {A} (ahead : A -> A -> bool) (x : A) (l : list A) :
  ahead_total ahead ->
  Sorted (fun a b => ahead a b = true) l ->
  Sorted (fun a b => ahead a b = true) (insert_by ahead x l).
Proof.
  intros T. induction l as [|y l IH]; intros S; simpl.
  - repeat constructor.
  - destruct (ahead x y) eqn:E.
    + constructor; [exact S | constructor; exact E].
    + inversion S as [|? ? S' Hd]; subst. constructor; [apply IH; exact S'|].
      destruct l as [|z l]; simpl.
      * constructor. destruct (T x y) as [H|H]; congruence.
      * destruct (ahead x z).
        -- constructor. destruct (T x y) as [H|H]; congruence.
        -- inversion Hd; subst. constructor. assumption.
Qed.

Lemma sort_by_Sorted {A} (ahead : A -> A -> bool) (l : list A) :
  ahead_total ahead -> Sorted (fun a b => ahead a b = true) (sort_by ahead l).
Proof.
  intros T. induction l as [|x l IH]; simpl; [constructor|].
  apply insert_by_Sorted; assumption.
Qed.

Lemma firstn_Sorted {A} (R : A -> A -> Prop) (n : nat) (l : list A) :
  Sorted R l -> Sorted R (firstn n l).
Proof.
  revert l. induction n as [|n IH]; intros l S; simpl; [constructor|].
  destruct l as [|x l]; [constructor|].
  inversion S as [|? ? S' Hd]; subst. constructor; [apply IH; exact S'|].
  destruct l as [|y l]; [destruct n; constructor|].
  destruct n; simpl; [constructor|]. inversion Hd; subst. constructor. assumption.
Qed.

Lemma desc_Z_total a b t1 t2 : (t1 = true \/ t2 = true) ->
  desc_Z a b t1 = true \/ desc_Z b a t2 = true.
Proof.
  unfold desc_Z. intros H.
  destruct (Z.ltb_spec b a), (Z.ltb_spec a b), (Z.eqb_spec a b), (Z.eqb_spec b a);
    simpl; try lia; tauto.
Qed.

Lemma desc_R_total a b t1 t2 : (t1 = true \/ t2 = true) ->
  desc_R a b t1 = true \/ desc_R b a t2 = true.
Proof.
  unfold desc_R, Rgtb, Reqb. intros H.
  destruct (Rlt_dec b a), (Rlt_dec a b), (Req_dec_T a b), (Req_dec_T b a);
    simpl; try lra; tauto.
Qed.

Lemma desc_nullable_total a b : 
  desc_nullable a b true = true \/ desc_nullable b a true = true.
Proof.
  destruct a, b; simpl; auto. apply desc_R_total. auto.
Qed.

Lemma byPopularity_total : ahead_total byPopularity.
Proof.
  intros x y. unfold byPopularity.
  apply desc_Z_total, desc_R_total, desc_nullable_total.
Qed.

Lemma firstn_subset {A} (n : nat) (l : list A) (x : A) : In x (firstn n l) -> In x l.
Proof.
  revert l. induction n as [|n IH]; intros [|y l]; simpl; try tauto.
  intros [H|H]; auto.
Qed.

Lemma insert_by_Permutation {A} (ahead : A -> A -> bool) (x : A) (l : list A) :
  Permutation (insert_by ahead x l) (x :: l).
Proof.
  induction l as [|y l IH]; simpl; [reflexivity|].
  destruct (ahead x y); [reflexivity|].
  rewrite IH. apply perm_swap.
Qed.

Lemma sort_by_Permutation {A} (ahead : A -> A -> bool) (l : list A) :
  Permutation (sort_by ahead l) l.
Proof.
  induction l as [|x l IH]; simpl; [reflexivity|].
  rewrite insert_by_Permutation. constructor. exact IH.
Qed.

Lemma firstn_NoDup {A} (n : nat) (l : list A) : NoDup l -> NoDup (firstn n l).
Proof.
  revert l. induction n as [|n IH]; intros [|x l] N; simpl; try constructor.
  - inversion N; subst. intros H. apply firstn_subset in H. contradiction.
  - inversion N; subst. apply IH. assumption.
Qed.

(** ** Running the engines *)

Module EngineFacts.
Import CollaborativeFiltering AIEnhancedRecommendationEngine HybridRecommendationEngine.

Lemma query_up {A} (select : Database -> A) (w : World) :
  up (database w) = true -> query select w = (Ok (select (database w)), w).
Proof. intros H. unfold query. rewrite H. reflexivity. Qed.

Lemma query_down {A} (select : Database -> A) (w : World) :
  up (database w) = false -> query select w = (Thrown "database unavailable", w).
Proof. intros H. unfold query. rewrite H. reflexivity. Qed.

Lemma getPopularSongs_up (limit : nat) (w : World) :
  up (database w) = true ->
  ContentBasedFiltering.getPopularSongs limit w =
  (Ok (popular limit (database w)), called CallGetPopularSongs w).
Proof.
  intros H. unfold ContentBasedFiltering.getPopularSongs, try_catch, bind, count_call.
  fold (called CallGetPopularSongs w).
  rewrite query_up by exact H. reflexivity.
Qed.

Lemma try_catch_returns {A} (body : M A) (handler : string -> M A) :
  (forall e, returns (handler e)) -> returns (try_catch body handler).
Proof.
  intros H w. unfold try_catch. destruct (body w) as [[v|e] w'] eqn:E.
  - eauto.
  - apply H.
Qed.

Lemma bind_returns {A B} (m : M A) (k : A -> M B) :
  returns m -> (forall a, returns (k a)) -> returns (bind m k).
Proof.
  intros Hm Hk w. unfold bind. destruct (Hm w) as [v [w' E]]. rewrite E. apply Hk.
Qed.

Lemma ret_returns {A} (a : A) : returns (ret a).
Proof. intros w. unfold ret. eauto. Qed.

Lemma say_returns (c : Console) : returns (say c).
Proof. intros w. unfold say. eauto. Qed.

Lemma count_call_returns (c : Call) : returns (count_call c).
Proof. intros w. unfold count_call. eauto. Qed.

Lemma logged_empty_returns {A} (c : Console) : returns (say c ;;; ret (@nil A)).
Proof. apply bind_returns; [apply say_returns | intros; apply ret_returns]. Qed.

Lemma findSimilarItems_returns userId limit : returns (findSimilarItems userId limit).
Proof.
  apply bind_returns; [apply count_call_returns | intros _].
  apply try_catch_returns. intros e. apply logged_empty_returns.
Qed.

Lemma getPopularSongs_returns limit : returns (ContentBasedFiltering.getPopularSongs limit).
Proof.
  apply bind_returns; [apply count_call_returns | intros _].
  apply try_catch_returns. intros e. apply logged_empty_returns.
Qed.

Lemma content_getRecommendations_returns userId limit :
  returns (ContentBasedFiltering.getRecommendations userId limit).
Proof.
  apply bind_returns; [apply count_call_returns | intros _].
  apply try_catch_returns. intros e. apply logged_empty_returns.
Qed.

Lemma getFallbackRecommendations_returns limit : returns (getFallbackRecommendations limit).
Proof. apply try_catch_returns. intros e. apply logged_empty_returns. Qed.

Lemma getEnhancedRecommendations_returns userId limit :
  returns (getEnhancedRecommendations userId limit).
Proof.
  apply bind_returns; [apply count_call_returns | intros _].
  apply try_catch_returns. intros e.
  apply bind_returns; [apply say_returns | intros _].
  apply getFallbackRecommendations_returns.
Qed.

Lemma getRecommendations_run (userId : string) (options : Options) (w : World) :
  let n := or_default (limit options) 20%nat in
  exists cf w1 cb w2 ai w3 pop w4,
    findSimilarItems userId n
      (said (Log (generatingMessage userId))
            (called CallHybridGetRecommendations w)) = (Ok cf, w1) /\
    ContentBasedFiltering.getRecommendations userId n w1 = (Ok cb, w2) /\
    getEnhancedRecommendations userId n w2 = (Ok ai, w3) /\
    ContentBasedFiltering.getPopularSongs (fifth n) w3 = (Ok pop, w4) /\
    HybridRecommendationEngine.getRecommendations userId options w =
      (Ok (finalRecommendations cf cb ai pop
             (or_default (collaborativeWeight options) 0.3)
             (or_default (contentBasedWeight options) 0.3)
             (or_default (aiEnhancedWeight options) 0.3)
             (or_default (popularityWeight options) 0.1) n),
       said (Log (generatedMessage
                    (List.length
                       (finalRecommendations cf cb ai pop
                          (or_default (collaborativeWeight options) 0.3)
                          (or_default (contentBasedWeight options) 0.3)
                          (or_default (aiEnhancedWeight options) 0.3)
                          (or_default (popularityWeight options) 0.1) n))))
            w4).
Proof.
  intros n.
  destruct (findSimilarItems_returns userId n
              (said (Log (generatingMessage userId))
                    (called CallHybridGetRecommendations w))) as [cf [w1 E1]].
  destruct (content_getRecommendations_returns userId n w1) as [cb [w2 E2]].
  destruct (getEnhancedRecommendations_returns userId n w2) as [ai [w3 E3]].
  destruct (getPopularSongs_returns (fifth n) w3) as [pop [w4 E4]].
  exists cf, w1, cb, w2, ai, w3, pop, w4. repeat split; try assumption.
  unfold HybridRecommendationEngine.getRecommendations. fold n.
  unfold bind at 1. unfold count_call at 1. fold (called CallHybridGetRecommendations w).
  unfold try_catch. unfold bind at 1. unfold say at 1.
  fold (said (Log (generatingMessage userId))
             (called CallHybridGetRecommendations w)).
  unfold bind at 1. rewrite E1.
  unfold bind at 1. rewrite E2.
  unfold bind at 1. rewrite E3.
  unfold bind at 1. rewrite E4.
  reflexivity.
Qed.

End EngineFacts.

(** ** The hybrid merge *)

Module MergeFacts.
Import SimilarSongs CollaborativeFiltering AIEnhancedRecommendationEngine.
Import HybridRecommendationEngine.

Lemma lookup_upsert_same {V} (k : string) (f : option V -> V) (c : list (string * V)) :
  lookup k (upsert k f c) = Some (f (lookup k c)).
Proof.
  induction c as [|[k' v] c IH]; simpl.
  - rewrite String.eqb_refl. reflexivity.
  - destruct (String.eqb k k') eqn:E; simpl; rewrite E; [reflexivity | exact IH].
Qed.

Lemma lookup_upsert_other {V} (k k' : string) (f : option V -> V) (c : list (string * V)) :
  String.eqb k k' = false -> lookup k (upsert k' f c) = lookup k c.
Proof.
  intros N. induction c as [|[k0 v] c IH]; simpl.
  - rewrite N. reflexivity.
  - destruct (String.eqb k' k0) eqn:E; simpl.
    + apply String.eqb_eq in E. subst k0. rewrite N. reflexivity.
    + destruct (String.eqb k k0); [reflexivity | exact IH].
Qed.

Lemma score_at_add_entry k k' s sc src d c :
  score_at k (add_entry k' s sc src d c) =
  if String.eqb k k' then score_at k c + sc else score_at k c.
Proof.
  unfold score_at, add_entry. destruct (String.eqb k k') eqn:E.
  - apply String.eqb_eq in E. subst k'. rewrite lookup_upsert_same.
    destruct (lookup k c); simpl; ring.
  - rewrite lookup_upsert_other by exact E. reflexivity.
Qed.

Lemma score_at_set_entry k k' s sc src d c :
  score_at k (set_entry k' s sc src d c) =
  if String.eqb k k' then sc else score_at k c.
Proof.
  unfold score_at, set_entry. destruct (String.eqb k k') eqn:E.
  - apply String.eqb_eq in E. subst k'. rewrite lookup_upsert_same. reflexivity.
  - rewrite lookup_upsert_other by exact E. reflexivity.
Qed.

Lemma source_score_from {A} (key : A -> string) (sc : A -> R) (k : string) (l : list A) (a : R) :
  fold_left (fun acc r => if String.eqb k (key r) then acc + sc r else acc) l a =
  a + source_score key sc k l.
Proof.
  unfold source_score. revert a. induction l as [|r l IH]; intros a; simpl; [ring|].
  rewrite IH. rewrite (IH (if String.eqb k (key r) then 0 + sc r else 0)).
  destruct (String.eqb k (key r)); ring.
Qed.

Lemma source_score_cons {A} (key : A -> string) (sc : A -> R) (k : string) (r : A) (l : list A) :
  source_score key sc k (r :: l) =
  (if String.eqb k (key r) then sc r else 0) + source_score key sc k l.
Proof.
  unfold source_score at 1. simpl. rewrite source_score_from.
  destruct (String.eqb k (key r)); ring.
Qed.

Lemma source_score_absent {A} (key : A -> string) (sc : A -> R) (k : string) (l : list A) :
  ~ In k (map key l) -> source_score key sc k l = 0.
Proof.
  induction l as [|r l IH]; intros N; [reflexivity|].
  rewrite source_score_cons. simpl in N.
  destruct (String.eqb k (key r)) eqn:E.
  - apply String.eqb_eq in E. exfalso. apply N. left. symmetry. exact E.
  - rewrite IH by tauto. ring.
Qed.

(** Adding a list of recommendations adds their weighted scores. *)
Lemma score_at_adds {A} (key : A -> string) (sg : A -> Song) (sc : A -> R) (dt : A -> string)
  (w : R) (src : string) (k : string) (l : list A) (c : Combination) :
  score_at k (fold_left (fun acc r => add_entry (key r) (sg r) (sc r * w) src (dt r) acc) l c) =
  score_at k c + source_score key sc k l * w.
Proof.
  revert c. induction l as [|r l IH]; intros c; simpl.
  - unfold source_score. simpl. ring.
  - rewrite IH, score_at_add_entry, source_score_cons.
    destruct (String.eqb k (key r)); ring.
Qed.

(** Setting a list of recommendations with distinct ids sets their
    weighted scores. *)
Lemma score_at_sets {A} (key : A -> string) (sg : A -> Song) (sc : A -> R) (dt : A -> string)
  (w : R) (src : string) (k : string) (l : list A) (c : Combination) :
  NoDup (map key l) ->
  score_at k (fold_left (fun acc r => set_entry (key r) (sg r) (sc r * w) src (dt r) acc) l c) =
  if existsb (fun r => String.eqb k (key r)) l then source_score key sc k l * w
  else score_at k c.
Proof.
  revert c. induction l as [|r l IH]; intros c N; simpl; [reflexivity|].
  inversion N as [|? ? Hnotin N']; subst.
  rewrite IH by exact N'. rewrite source_score_cons, score_at_set_entry.
  destruct (String.eqb k (key r)) eqn:E; simpl.
  - apply String.eqb_eq in E. subst k.
    rewrite (source_score_absent key sc (key r) l Hnotin).
    destruct (existsb _ l) eqn:Ex; [|ring].
    exfalso. apply existsb_exists in Ex as [x [Hx Ex]].
    apply String.eqb_eq in Ex. apply Hnotin. rewrite Ex. apply in_map. exact Hx.
  - destruct (existsb _ l); ring.
Qed.

Lemma combine_score (cf : list ItemRec) (cb : list ContentBasedFiltering.ContentRec)
  (ai : list AiRec) (pop : list ContentBasedFiltering.ContentRec) (cw cbw aw pw : R) (k : string) :
  NoDup (map item_id cf) ->
  score_at k (combine cf cb ai pop cw cbw aw pw) =
  source_score item_id score k cf * cw +
  source_score content_id ContentBasedFiltering.rec_similarity k cb * cbw +
  source_score rec_id ai_similarity k ai * aw +
  source_score content_id ContentBasedFiltering.rec_similarity k pop * pw.
Proof.
  intros N. unfold combine.
  rewrite (score_at_adds content_id ContentBasedFiltering.rec_song
             ContentBasedFiltering.rec_similarity ContentBasedFiltering.reason).
  rewrite (score_at_adds rec_id (fun r => enhanced_song (ai_song r)) ai_similarity ai_basedOn).
  rewrite (score_at_adds content_id ContentBasedFiltering.rec_song
             ContentBasedFiltering.rec_similarity ContentBasedFiltering.reason).
  rewrite (score_at_sets item_id item_song score basedOn) by exact N.
  destruct (existsb _ cf) eqn:Ex; [reflexivity|].
  rewrite (source_score_absent item_id score k cf); [unfold score_at; simpl; ring|].
  intros Hin. apply in_map_iff in Hin as [x [Hk Hx]].
  assert (existsb (fun r => String.eqb k (item_id r)) cf = true).
  { apply existsb_exists. exists x. split; [exact Hx|]. rewrite Hk. apply String.eqb_refl. }
  congruence.
Qed.

Lemma upsert_keys {V} (k : string) (f : option V -> V) (c : list (string * V)) :
  map fst (upsert k f c) = if existsb (String.eqb k) (map fst c) then map fst c
                           else map fst c ++ [k].
Proof.
  induction c as [|[k' v] c IH]; simpl; [reflexivity|].
  destruct (String.eqb k k') eqn:E; simpl.
  - apply String.eqb_eq in E. subst. reflexivity.
  - rewrite IH. destruct (existsb _ (map fst c)); reflexivity.
Qed.

Lemma upsert_In {V} (k : string) (f : option V -> V) (c : list (string * V)) k' v :
  In (k', v) (upsert k f c) -> In (k', v) c \/ (k' = k /\ v = f (lookup k c)).
Proof.
  induction c as [|[k0 v0] c IH]; simpl.
  - intros [H|[]]. injection H as <- <-. auto.
  - destruct (String.eqb k k0) eqn:E; simpl.
    + apply String.eqb_eq in E. subst k0. intros [H|H]; [injection H as <- <-|]; auto.
    + intros [H|H]; [auto|]. destruct (IH H) as [?|?]; auto.
Qed.

Lemma upsert_NoDup {V} (k : string) (f : option V -> V) (c : list (string * V)) :
  NoDup (map fst c) -> NoDup (map fst (upsert k f c)).
Proof.
  intros N. rewrite upsert_keys. destruct (existsb _ (map fst c)) eqn:E; [exact N|].
  apply NoDup_app; [exact N | repeat constructor; simpl; tauto |].
  intros x Hx [<-|[]].
  assert (existsb (String.eqb k) (map fst c) = true).
  { apply existsb_exists. exists k. split; [exact Hx | apply String.eqb_refl]. }
  congruence.
Qed.

Lemma lookup_In {V} (k : string) (c : list (string * V)) (v : V) :
  lookup k c = Some v -> In (k, v) c.
Proof.
  induction c as [|[k' v'] c IH]; simpl; [discriminate|].
  destruct (String.eqb k k') eqn:E.
  - apply String.eqb_eq in E. subst. intros H. injection H as <-. auto.
  - auto.
Qed.

Lemma In_lookup {V} (k : string) (c : list (string * V)) (v : V) :
  NoDup (map fst c) -> In (k, v) c -> lookup k c = Some v.
Proof.
  induction c as [|[k' v'] c IH]; simpl; [tauto|].
  intros N [H|H]; inversion N as [|? ? Hnotin N']; subst.
  - injection H as -> ->. rewrite String.eqb_refl. reflexivity.
  - destruct (String.eqb k k') eqn:E; [|auto].
    apply String.eqb_eq in E. subst k'. exfalso. apply Hnotin.
    change k with (fst (k, v)). apply in_map. exact H.
Qed.

Lemma keyed_set_entry (s : Song) sc src d c :
  keyed c -> keyed (set_entry (id s) s sc src d c).
Proof.
  intros [N K]. split; [apply upsert_NoDup; exact N|].
  intros k e H. apply upsert_In in H as [H|[-> ->]]; [eauto | reflexivity].
Qed.

Lemma keyed_add_entry (s : Song) sc src d c :
  keyed c -> keyed (add_entry (id s) s sc src d c).
Proof.
  intros [N K]. split; [apply upsert_NoDup; exact N|].
  intros k e H. apply upsert_In in H as [H|[-> ->]]; [eauto|].
  destruct (lookup (id s) c) as [e0|] eqn:L; [|reflexivity].
  simpl. apply (K _ _ (lookup_In _ _ _ L)).
Qed.

Lemma keyed_fold {A} (step : Combination -> A -> Combination) (l : list A) (c : Combination) :
  (forall c r, keyed c -> keyed (step c r)) -> keyed c -> keyed (fold_left step l c).
Proof.
  intros S. revert c. induction l as [|r l IH]; intros c K; simpl; auto.
Qed.

Lemma combine_keyed cf cb ai pop cw cbw aw pw :
  keyed (combine cf cb ai pop cw cbw aw pw).
Proof.
  unfold combine.
  repeat (apply keyed_fold;
          [intros c r K; first [apply keyed_add_entry | apply keyed_set_entry]; exact K|]).
  split; [constructor | intros k e []].
Qed.

Lemma insert_by_In {A} (ahead : A -> A -> bool) (x y : A) (l : list A) :
  In y (insert_by ahead x l) <-> y = x \/ In y l.
Proof.
  induction l as [|z l IH]; simpl; [intuition|].
  destruct (ahead x z); simpl; rewrite ?IH; intuition.
Qed.

Lemma sort_by_In {A} (ahead : A -> A -> bool) (y : A) (l : list A) :
  In y (sort_by ahead l) <-> In y l.
Proof.
  induction l as [|x l IH]; simpl; [tauto|].
  rewrite insert_by_In, IH. intuition.
Qed.

Lemma ranked_In (i : nat) (l : list Combined) (r : Recommendation) :
  In r (ranked i l) ->
  exists e, In e l /\ song r = combined_song e /\
            recommendationScore r = combined_score e /\ rec_sources r = sources e.
Proof.
  revert i. induction l as [|e l IH]; intros i; simpl; [tauto|].
  intros [<-|H]; [exists e; simpl; auto|].
  destruct (IH _ H) as [e' [? ?]]. exists e'. auto.
Qed.

(** The score of an entry of the final list. *)
Lemma final_score cf cb ai pop cw cbw aw pw limit r :
  NoDup (map item_id cf) ->
  In r (finalRecommendations cf cb ai pop cw cbw aw pw limit) ->
  recommendationScore r =
    source_score item_id score (id (song r)) cf * cw +
    source_score content_id ContentBasedFiltering.rec_similarity (id (song r)) cb * cbw +
    source_score rec_id ai_similarity (id (song r)) ai * aw +
    source_score content_id ContentBasedFiltering.rec_similarity (id (song r)) pop * pw.
Proof.
  intros N H. unfold finalRecommendations in H.
  apply ranked_In in H as [e [He [Hs [Hsc _]]]].
  apply firstn_subset in He. unfold sort_desc in He. apply sort_by_In in He.
  apply in_map_iff in He as [[k e'] [E Hin]]. simpl in E. subst e'.
  destruct (combine_keyed cf cb ai pop cw cbw aw pw) as [ND K].
  pose proof (K _ _ Hin) as Hk.
  pose proof (In_lookup _ _ _ ND Hin) as L.
  rewrite Hs, Hsc, <- Hk. rewrite <- (combine_score cf cb ai pop cw cbw aw pw k N).
  unfold score_at. rewrite L. reflexivity.
Qed.

Lemma itemScores_keyed (userSongs : list UserSong) (allSongs : list Song) :
  item_keyed (itemScores userSongs allSongs).
Proof.
  unfold itemScores.
  assert (G : forall (l : list UserSong) c, item_keyed c ->
            item_keyed
              (fold_left
                 (fun recommendations userSong =>
                    fold_left
                      (fun recommendations similarSong =>
                         if existsb (fun us => String.eqb (id (us_song us))
                                                          (id (similar_song similarSong)))
                                    userSongs
                         then recommendations
                         else
                           let newScore := similarity similarSong * getUserSongWeight userSong in
                           upsert (id (similar_song similarSong))
                                  (fun existingScore =>
                                     {| item_song := similar_song similarSong;
                                        score :=
                                          match existingScore with
                                          | Some e => Rmax (score e) newScore
                                          | None => newScore
                                          end;
                                        basedOn := title (us_song userSong) |})
                                  recommendations)
                      (findSimilarSongs (us_song userSong) allSongs 10)
                      recommendations)
                 l c)).
  { induction l as [|us l IH]; intros c K; simpl; [exact K|].
    apply IH. clear IH.
    generalize (findSimilarSongs (us_song us) allSongs 10). intros sims.
    revert c K. induction sims as [|sm sims IHs]; intros c K; simpl; [exact K|].
    apply IHs. destruct (existsb _ userSongs); [exact K|].
    destruct K as [N K]. split; [apply upsert_NoDup; exact N|].
    intros k e H. apply upsert_In in H as [H|[-> ->]]; [eauto | reflexivity]. }
  apply G. split; [constructor | intros k e []].
Qed.

Lemma item_keyed_ids (c : list (string * ItemRec)) :
  item_keyed c -> map item_id (map snd c) = map fst c.
Proof.
  intros [_ K]. induction c as [|[k e] c IH]; simpl; [reflexivity|].
  rewrite IH by (intros k' e' H; apply K; right; exact H).
  rewrite <- (K k e) by (left; reflexivity). reflexivity.
Qed.

Lemma findSimilarItems_NoDup (userId : string) (limit : nat) (w w' : World)
  (cf : list ItemRec) :
  findSimilarItems userId limit w = (Ok cf, w') -> NoDup (map item_id cf).
Proof.
  unfold findSimilarItems, bind at 1, count_call.
  unfold try_catch, bind at 1, query. cbn [database].
  destruct (up (database w)).
  - destruct (userSongsOf userId (database w)) as [|us uss] eqn:U.
    + unfold ret. intros H. injection H as <- _. constructor.
    + unfold bind, query, count_call, ret. cbn [database].
      destruct (up (database w)) eqn:Up.
      * intros H. injection H as <- _.
        rewrite <- firstn_map. apply firstn_NoDup.
        eapply Permutation_NoDup.
        { apply Permutation_map. symmetry. apply sort_by_Permutation. }
        rewrite item_keyed_ids by apply itemScores_keyed.
        apply itemScores_keyed.
      * unfold say. intros H. injection H as <- _. constructor.
  - unfold bind, say, ret. intros H. injection H as <- _. constructor.
Qed.

End MergeFacts.

(** ** The predictor *)

Module PredictorFacts.
Import AIFeaturePredictor.

Lemma filter_length_le {A} (f g : A -> bool) (l : list A) :
  (forall x, f x = true -> g x = true) ->
  (List.length (filter f l) <= List.length (filter g l))%nat.
Proof.
  intros H. induction l as [|x l IH]; simpl; [lia|].
  destruct (f x) eqn:F.
  - rewrite (H x F). simpl. lia.
  - destruct (g x); simpl; lia.
Qed.

Lemma gt0_nonzero (v : option R) :
  gt0 v = true -> match v with Some x => negb (Reqb x 0) | None => false end = true.
Proof.
  destruct v as [x|]; simpl; [|discriminate].
  intros H. apply Rgtb_spec in H. rewrite Reqb_false by lra. reflexivity.
Qed.

Lemma isTrainingRow_featureComplete (s : Song) :
  isTrainingRow s = true -> featureComplete s = true.
Proof.
  unfold isTrainingRow, featureComplete. intros H.
  apply andb_true_iff in H as [H Ht]. apply andb_true_iff in H as [H Hv].
  apply andb_true_iff in H as [He Hd]. cbn [forallb].
  rewrite (gt0_nonzero _ He), (gt0_nonzero _ Hd), (gt0_nonzero _ Hv), (gt0_nonzero _ Ht).
  reflexivity.
Qed.

Lemma initialize_few_rows (w : World) :
  initialized (predictor w) = false ->
  (List.length (filter isTrainingRow (songTable (database w))) < 5)%nat ->
  initialize w =
  (Ok tt, {| database := database w;
             predictor := set_initialized (initializeFallbackModels (predictor w));
             console := fallbackConsole (up (database w)) (console w);
             calls := calls w |}).
Proof.
  intros Hi Hn. unfold initialize, bind at 1, get_predictor. rewrite Hi.
  unfold try_catch, bind at 1, say at 1. unfold bind at 1, query. cbn [database].
  destruct (up (database w)) eqn:Up.
  - apply Nat.ltb_lt in Hn. rewrite Hn.
    unfold fallbackConsole, bind, say, set_predictor, get_predictor. cbn.
    rewrite <- !app_assoc. reflexivity.
  - unfold fallbackConsole, bind, say, set_predictor, get_predictor. cbn.
    rewrite <- !app_assoc. reflexivity.
Qed.

Lemma initialize_done (w : World) :
  initialized (predictor w) = true -> initialize w = (Ok tt, w).
Proof.
  intros H. unfold initialize, bind, get_predictor. rewrite H. reflexivity.
Qed.

Lemma predictGenres_initialized (song : Song) (w : World) :
  initialized (predictor w) = true ->
  hasTags (genres song) = false ->
  predictGenres song w =
  (Ok (map Named
         (predictGenresFromFeatures (predictor w) (predictedFeatures (predictor w) song) song)),
   w).
Proof.
  intros Hi Hg. unfold predictGenres, bind at 1. rewrite (initialize_done w Hi).
  assert (E : predictAudioFeatures song w = (Ok (predictedFeatures (predictor w) song), w)).
  { unfold predictAudioFeatures, bind. rewrite (initialize_done w Hi). reflexivity. }
  unfold hasTags in Hg.
  destruct (genres song) as [[|g gs]|]; try discriminate;
    unfold bind; rewrite E; reflexivity.
Qed.

Lemma predictGenres_helper (song : Song) (w : World) :
  initialized (predictor w) = true ->
  predictAudioFeatures song w = (Ok (predictedFeatures (predictor w) song), w).
Proof.
  intros Hi. unfold predictAudioFeatures, bind. rewrite (initialize_done w Hi). reflexivity.
Qed.

End PredictorFacts.

Module LadderFacts.
Import AIFeaturePredictor.

Lemma default_in_range (f : Feature) : in_range f (getDefaultFeatureValue f).
Proof. unfold in_range. destruct f; simpl; lra. Qed.

Lemma adjust_in_range (f : Feature) (p c : R) :
  in_range f p -> 0 <= c <= 1 -> in_range f (adjustPredictionByConfidence p c f).
Proof.
  intros Hp Hc. pose proof (default_in_range f) as Hd.
  unfold adjustPredictionByConfidence, in_range in *.
  destruct (AudioAnalysis.ranges f) as [mn mx]. simpl in *. nra.
Qed.

Lemma adjust_default (f : Feature) (c : R) :
  adjustPredictionByConfidence (getDefaultFeatureValue f) c f = getDefaultFeatureValue f.
Proof. unfold adjustPredictionByConfidence. ring. Qed.

(** What a rung leaves behind: the estimate it was given, or one of its
    own. *)
Lemma artistRung_cases (p : Predictor) (f : Feature) (song : Song) (st : Estimate) :
  artistRung p f song st = st \/
  exists table o v, artistModels p = Some table /\ lookup (artist song) table = Some o /\
                    o f = Some v /\ artistRung p f song st = (Some v, 0.8).
Proof.
  unfold artistRung. destruct (artistModels p) as [table|]; [|auto].
  destruct (lookup (artist song) table) as [o|] eqn:L; [|auto].
  destruct (o f) as [v|] eqn:V; [|auto].
  right. exists table, o, v. auto.
Qed.

Lemma yearRung_cases (p : Predictor) (f : Feature) (song : Song) (st : Estimate) :
  yearRung p f song st = st \/
  falsy (fst st) = true /\
  exists table k o v, yearModels p = Some table /\ lookup k table = Some o /\
                      o f = Some v /\ yearRung p f song st = (Some v, 0.6).
Proof.
  unfold yearRung. destruct (falsy (fst st)) eqn:F; [|auto].
  destruct (yearModels p) as [table|]; [|auto].
  destruct (truthy_year (year song)) as [y|]; [|auto].
  destruct (lookup (getYearRange y) table) as [o|] eqn:L; [|auto].
  destruct (o f) as [v|] eqn:V; [|auto].
  right. split; [reflexivity|]. exists table, (getYearRange y), o, v. auto.
Qed.

Lemma correlationRung_cases (p : Predictor) (f : Feature) (avail : FeatureObj) (st : Estimate) :
  correlationRung p f avail st = st \/
  falsy (fst st) = true /\
  exists corr fc, correlations p = Some corr /\ lookup_feature f corr = Some fc /\
    0 < snd (correlationSums fc avail) /\
    correlationRung p f avail st =
      (Some (fst (correlationSums fc avail) / snd (correlationSums fc avail)),
       Rmin (snd (correlationSums fc avail)) 0.7).
Proof.
  unfold correlationRung. destruct (falsy (fst st)) eqn:F; [|auto].
  destruct (correlations p) as [corr|]; [|auto].
  destruct (lookup_feature f corr) as [fc|] eqn:L; [|auto].
  destruct (correlationSums fc avail) as [ws tw] eqn:S.
  destruct (Rgtb tw 0) eqn:G; [|auto].
  right. split; [reflexivity|]. exists corr, fc. rewrite S. simpl.
  apply Rgtb_spec in G. repeat split; auto.
Qed.

Lemma yearRung_alike p f song st st' :
  alike st st' -> alike (yearRung p f song st) (yearRung p f song st').
Proof.
  intros [->|[F F']]; [left; reflexivity|].
  unfold yearRung. rewrite F, F'.
  destruct (yearModels p) as [table|]; [|right; auto].
  destruct (truthy_year (year song)) as [y|]; [|right; auto].
  destruct (lookup (getYearRange y) table) as [o|]; [|right; auto].
  destruct (o f) as [v|]; [left; reflexivity | right; auto].
Qed.

Lemma correlationRung_alike p f avail st st' :
  alike st st' -> alike (correlationRung p f avail st) (correlationRung p f avail st').
Proof.
  intros [->|[F F']]; [left; reflexivity|].
  unfold correlationRung. rewrite F, F'.
  destruct (correlations p) as [corr|]; [|right; auto].
  destruct (lookup_feature f corr) as [fc|]; [|right; auto].
  destruct (correlationSums fc avail) as [ws tw].
  destruct (Rgtb tw 0); [left; reflexivity | right; auto].
Qed.

Lemma defaultRung_falsy f st :
  falsy (fst st) = true -> defaultRung f st = (getDefaultFeatureValue f, 0.3).
Proof.
  unfold defaultRung, falsy. destruct (fst st) as [v|]; [|reflexivity].
  intros ->. reflexivity.
Qed.

Lemma defaultRung_alike f st st' :
  alike st st' -> defaultRung f st = defaultRung f st'.
Proof.
  intros [->|[F F']]; [reflexivity|].
  rewrite !defaultRung_falsy by assumption. reflexivity.
Qed.

Lemma falsy_zero (c : R) : falsy (fst (Some 0, c)) = true.
Proof. simpl. apply Reqb_true. reflexivity. Qed.

End LadderFacts.

Module TrainingFacts.
Import AIFeaturePredictor MergeFacts LadderFacts.

Lemma extractAudioFeatures_in_range (s : Song) :
  song_in_range s -> obj_in_range (extractAudioFeatures s).
Proof.
  intros H k v E. unfold extractAudioFeatures in E. injection E as <-.
  unfold or_else. destruct (feature s k) as [x|] eqn:F.
  - destruct (Reqb x 0); [|apply (H k x F)].
    unfold in_range. destruct k; simpl; lra.
  - unfold in_range. destruct k; simpl; lra.
Qed.

Lemma sum_from (l : list R) (a : R) : fold_left Rplus l a = a + sum l.
Proof.
  unfold sum. revert a. induction l as [|x l IH]; intros a; simpl; [ring|].
  rewrite IH, (IH (0 + x)). ring.
Qed.

Lemma sum_cons (x : R) (l : list R) : sum (x :: l) = x + sum l.
Proof. unfold sum at 1. simpl. rewrite sum_from. ring. Qed.

Lemma sum_bounds (lo hi : R) (l : list R) :
  Forall (fun v => lo <= v <= hi) l ->
  INR (List.length l) * lo <= sum l <= INR (List.length l) * hi.
Proof.
  induction 1 as [|x l Hx _ IH].
  - unfold sum. simpl. lra.
  - rewrite sum_cons. change (List.length (x :: l)) with (S (List.length l)).
    rewrite S_INR. lra.
Qed.

Lemma mean_bounds (lo hi : R) (l : list R) :
  l <> [] -> Forall (fun v => lo <= v <= hi) l ->
  lo <= sum l / INR (List.length l) <= hi.
Proof.
  intros Hne H. pose proof (sum_bounds lo hi l H) as B.
  assert (P : 0 < INR (List.length l)).
  { apply lt_0_INR. destruct l; [contradiction | simpl; lia]. }
  split.
  - apply (Rmult_le_reg_r (INR (List.length l))); [exact P|].
    unfold Rdiv. rewrite Rmult_assoc, Rinv_l by lra. lra.
  - apply (Rmult_le_reg_r (INR (List.length l))); [exact P|].
    unfold Rdiv. rewrite Rmult_assoc, Rinv_l by lra. lra.
Qed.

Lemma values_at_in_range (k : Feature) (arr : list FeatureObj) :
  Forall obj_in_range arr -> Forall (fun v => in_range k v) (values_at k arr).
Proof.
  induction 1 as [|o arr Ho _ IH]; simpl; [constructor|].
  unfold values_at in *. simpl. destruct (o k) as [v|] eqn:E; simpl; [|exact IH].
  constructor; [apply (Ho k v E) | exact IH].
Qed.

Lemma calculateAverageFeatures_in_range (arr : list FeatureObj) :
  Forall obj_in_range arr -> obj_in_range (calculateAverageFeatures arr).
Proof.
  intros H k v. unfold calculateAverageFeatures.
  destruct arr as [|first rest]; [discriminate|].
  destruct (is_number (first k)); [|discriminate].
  pose proof (values_at_in_range k (first :: rest) H) as V.
  destruct (values_at k (first :: rest)) as [|x xs] eqn:E; [discriminate|].
  intros Ev. injection Ev as <-.
  apply mean_bounds; [discriminate | exact V].
Qed.

Lemma push_group_in_range (key : string) (o : FeatureObj) groups :
  obj_in_range o -> groups_in_range groups -> groups_in_range (push_group key o groups).
Proof.
  intros Ho G k l H. unfold push_group in H.
  apply upsert_In in H as [H|[-> ->]]; [eapply G; eauto|].
  destruct (lookup key groups) as [l0|] eqn:L.
  - apply Forall_app. split; [eapply G, lookup_In; eauto |].
    constructor; [exact Ho | constructor].
  - constructor; [exact Ho | constructor].
Qed.

Lemma averages_in_range (keep : string * list FeatureObj -> bool) groups :
  groups_in_range groups ->
  models_in_range
    (Some (map (fun g => (fst g, calculateAverageFeatures (snd g))) (filter keep groups))).
Proof.
  intros G table k o f v E L V. injection E as <-.
  apply lookup_In in L. apply in_map_iff in L as [[k' l] [E' Hin]].
  simpl in E'. injection E' as -> <-.
  apply filter_In in Hin as [Hin _].
  eapply calculateAverageFeatures_in_range; [eapply G; eauto | exact V].
Qed.

Lemma createArtistModels_in_range (trainingData : list Song) :
  Forall song_in_range trainingData ->
  models_in_range (Some (createArtistModels trainingData)).
Proof.
  intros H. unfold createArtistModels. apply averages_in_range.
  assert (G : forall groups, groups_in_range groups ->
            groups_in_range
              (fold_left (fun groups song =>
                            push_group (artist song) (extractAudioFeatures song) groups)
                         trainingData groups)).
  { induction H as [|s l Hs _ IH]; intros groups Hg; simpl; [exact Hg|].
    apply IH, push_group_in_range; [apply extractAudioFeatures_in_range, Hs | exact Hg]. }
  apply G. intros k l [].
Qed.

Lemma createYearModels_in_range (trainingData : list Song) :
  Forall song_in_range trainingData ->
  models_in_range (Some (createYearModels trainingData)).
Proof.
  intros H. unfold createYearModels. apply averages_in_range.
  assert (G : forall groups, groups_in_range groups ->
            groups_in_range
              (fold_left
                 (fun groups song =>
                    match truthy_year (year song) with
                    | Some y => push_group (getYearRange y) (extractAudioFeatures song) groups
                    | None => groups
                    end)
                 trainingData groups)).
  { induction H as [|s l Hs _ IH]; intros groups Hg; simpl; [exact Hg|].
    apply IH. destruct (truthy_year (year s)); [|exact Hg].
    apply push_group_in_range; [apply extractAudioFeatures_in_range, Hs | exact Hg]. }
  apply G. intros k l [].
Qed.

(** The models trained from songs whose features lie in their ranges lie
    in their ranges. *)
Lemma train_in_range (trainingData : list Song) (p : Predictor) :
  Forall song_in_range trainingData ->
  models_in_range (artistModels (train trainingData p)) /\
  models_in_range (yearModels (train trainingData p)).
Proof.
  intros H. split; [apply createArtistModels_in_range | apply createYearModels_in_range];
    exact H.
Qed.

End TrainingFacts.

Lemma Rgeb_true (x y : R) : y <= x -> Rgeb x y = true.
Proof. intros H. unfold Rgeb. destruct (Rle_dec y x); [reflexivity | contradiction]. Qed.

Lemma Rgeb_false (x y : R) : x < y -> Rgeb x y = false.
Proof. intros H. unfold Rgeb. destruct (Rle_dec y x); [lra | reflexivity]. Qed.

(** Settle the first comparison of the goal by linear arithmetic. *)
Ltac decide_Rgeb :=
  match goal with
  | |- context [Rgeb ?a ?b] =>
    first [rewrite (Rgeb_true a b) by lra | rewrite (Rgeb_false a b) by lra]
  end.

Module EnsembleFacts.
Import AIFeaturePredictor Samples.

(** The similarity reads its arguments key by key. *)
Lemma calculateFeatureSimilarity_ext (f f' g : FeatureObj) :
  (forall k, f k = f' k) ->
  calculateFeatureSimilarity f g = calculateFeatureSimilarity f' g.
Proof.
  intros E. unfold calculateFeatureSimilarity, object_keys.
  rewrite (filter_ext (fun k => is_number (f k)) (fun k => is_number (f' k)))
    by (intros k; rewrite E; reflexivity).
  rewrite (filter_ext (fun key => is_number (f key) && is_number (g key))
                      (fun key => is_number (f' key) && is_number (g key)))
    by (intros k; rewrite E; reflexivity).
  assert (N : forall k, num_at f k = num_at f' k).
  { intros k. unfold num_at. rewrite E. reflexivity. }
  destruct (filter _ (filter _ all_features)) as [|k0 ks]; [reflexivity|].
  rewrite (fold_left_ext_R (fun acc key => acc + num_at f key * num_at g key)
                           (fun acc key => acc + num_at f' key * num_at g key))
    by (intros; rewrite N; reflexivity).
  rewrite (fold_left_ext_R (fun acc key => acc + num_at f key * num_at f key)
                           (fun acc key => acc + num_at f' key * num_at f' key))
    by (intros; rewrite N; reflexivity).
  reflexivity.
Qed.

Lemma genreEnsemble_ext (table : list (string * FeatureObj)) (f f' : FeatureObj) (s : Song) :
  (forall k, f k = f' k) -> genreEnsemble table f s = genreEnsemble table f' s.
Proof.
  intros E. unfold genreEnsemble, predictFromAudioFeatures.
  rewrite (map_ext (fun entry => {| name := fst entry;
                                    confidence := calculateFeatureSimilarity f (snd entry) |})
                   (fun entry => {| name := fst entry;
                                    confidence := calculateFeatureSimilarity f' (snd entry) |}))
    by (intros a; rewrite (calculateFeatureSimilarity_ext f f' _ E); reflexivity).
  reflexivity.
Qed.

Lemma predictFeature_uziSong (k : Feature) :
  predictFeature fallbackPredictor k (availableFeaturesOf uziSong) uziSong =
  getDefaultFeatureValue k.
Proof.
  unfold predictFeature.
  change (artistRung fallbackPredictor k uziSong (None, 0)) with ((None, 0) : Estimate).
  change (yearRung fallbackPredictor k uziSong (None, 0)) with ((None, 0) : Estimate).
  assert (E : correlationRung fallbackPredictor k (availableFeaturesOf uziSong) (None, 0) =
              (None, 0)).
  { unfold correlationRung. cbn.
    destruct k; cbn; try reflexivity; rewrite Rgtb_false by lra; reflexivity. }
  rewrite E. cbn. apply LadderFacts.adjust_default.
Qed.

Lemma predictedFeatures_uziSong (k : Feature) :
  predictedFeatures fallbackPredictor uziSong k = defaultFeatures k.
Proof.
  unfold predictedFeatures, defaultFeatures.
  change (missing (feature uziSong k)) with true. cbv iota.
  rewrite predictFeature_uziSong. reflexivity.
Qed.

Lemma similarity_to_defaults (e d v t s : R) :
  0 < e -> 0 < d -> 0 < v -> 0 < t -> 0 < s ->
  calculateFeatureSimilarity defaultFeatures
    (obj [(energy, e); (danceability, d); (valence, v); (tempo, t); (speechiness, s)]) =
  toDefaults (0.5 * e + 0.5 * d + 0.5 * v + 120 * t + 0.1 * s)
             (e * e + d * d + v * v + t * t + s * s).
Proof.
  intros He Hd Hv Ht Hs. unfold calculateFeatureSimilarity, toDefaults. cbn.
  rewrite Reqb_false by lra.
  rewrite Reqb_false by nra. cbn.
  f_equal; [ring|]. f_equal; f_equal; lra.
Qed.

Lemma sqrt_defaults_pos : 0 < sqrt 14400.76.
Proof. apply sqrt_lt_R0. lra. Qed.

Lemma toDefaults_lt (a b m n : R) :
  0 < a -> 0 < b -> 0 < m -> 0 < n ->
  a * a * n < b * b * m -> toDefaults a m < toDefaults b n.
Proof.
  intros Ha Hb Hm Hn H. unfold toDefaults.
  pose proof sqrt_defaults_pos as HS.
  pose proof (sqrt_lt_R0 m Hm) as Sm. pose proof (sqrt_lt_R0 n Hn) as Sn.
  assert (L : a * sqrt n < b * sqrt m).
  { apply Rsqr_incrst_0; [|nra|nra]. unfold Rsqr.
    replace (a * sqrt n * (a * sqrt n)) with (a * a * (sqrt n * sqrt n)) by ring.
    replace (b * sqrt m * (b * sqrt m)) with (b * b * (sqrt m * sqrt m)) by ring.
    rewrite !sqrt_sqrt by lra. exact H. }
  apply (Rmult_lt_reg_r (sqrt 14400.76 * sqrt m * sqrt n)).
  - apply Rmult_lt_0_compat; [apply Rmult_lt_0_compat|]; assumption.
  - replace (a / (sqrt 14400.76 * sqrt m) * (sqrt 14400.76 * sqrt m * sqrt n))
      with (a * sqrt n) by (field; lra).
    replace (b / (sqrt 14400.76 * sqrt n) * (sqrt 14400.76 * sqrt m * sqrt n))
      with (b * sqrt m) by (field; lra).
    exact L.
Qed.

Lemma toDefaults_ge (c a m : R) :
  0 <= c -> 0 < a -> 0 < m ->
  c * c * (14400.76 * m) <= a * a -> c <= toDefaults a m.
Proof.
  intros Hc Ha Hm H. unfold toDefaults.
  pose proof sqrt_defaults_pos as HS. pose proof (sqrt_lt_R0 m Hm) as Sm.
  assert (P : 0 < sqrt 14400.76 * sqrt m) by (apply Rmult_lt_0_compat; assumption).
  assert (L : c * (sqrt 14400.76 * sqrt m) <= a).
  { apply Rsqr_incr_0; [|nra|lra]. unfold Rsqr.
    replace (c * (sqrt 14400.76 * sqrt m) * (c * (sqrt 14400.76 * sqrt m)))
      with (c * c * ((sqrt 14400.76 * sqrt 14400.76) * (sqrt m * sqrt m))) by ring.
    rewrite !sqrt_sqrt by lra. exact H. }
  apply (Rmult_le_reg_r (sqrt 14400.76 * sqrt m)); [exact P|].
  replace (a / (sqrt 14400.76 * sqrt m) * (sqrt 14400.76 * sqrt m)) with a by (field; lra).
  exact L.
Qed.

End EnsembleFacts.

(** ** Evaluating the composites on the sample songs *)

Module SampleFacts.
Import AudioAnalysis ContentBasedFiltering Samples.

Lemma popularityScore_none (s1 s2 : Song) :
  popularity s1 = None -> popularity s2 = None -> popularityScore s1 s2 = 1.
Proof.
  intros H1 H2. unfold popularityScore, popularity_or_0. rewrite H1, H2.
  rewrite Rminus_diag, Rabs_R0. lra.
Qed.

Ltac unfold_enhanced :=
  unfold calculateEnhancedSimilarity, partialCreditComposite, composite,
    audioContribution, genreContribution,
    moodContribution, artistContribution, popularityContribution, accumulate,
    calculateGenreSimilarityWithPredictions, calculateMoodSimilarityWithPredictions,
    calculateGenreSimilarity, calculateMoodSimilarity,
    predictGenresFromMetadata, predictMoodsFromMetadata.

(** Compute the substring tests of the goal. *)
Ltac eval_strings :=
  repeat match goal with
         | |- context [str_includes ?a ?b] =>
           let v := eval vm_compute in (str_includes a b) in
           change (str_includes a b) with v
         end.

Ltac unfold_weights := unfold wAudio, wGenre, wMood, wArtist, wPopularity.

(** Settle the clamp of a concrete quotient whose value is [v]. *)
Ltac clamp_to v :=
  match goal with
  | |- context [Rmax 0 (Rmin 1 ?e)] =>
    replace e with v by (unfold_weights; lra);
    rewrite (Rmin_right 1 v) by lra; rewrite (Rmax_right 0 v) by lra
  end.

Ltac eval_enhanced v :=
  unfold_enhanced; rewrite ?popularityScore_none by reflexivity;
  unfold without, without_genres, without_moods, without_audio; eval_strings; cbn;
  rewrite Rgtb_true by (unfold_weights; lra);
  clamp_to v; reflexivity.

Lemma enhanced_trap_pop :
  calculateEnhancedSimilarity trapSong popSong = Num (1 / 2).
Proof. eval_enhanced (1 / 2). Qed.

Lemma enhanced_trap_untagged :
  calculateEnhancedSimilarity trapSong untagged = Num (10 / 17).
Proof. eval_enhanced (10 / 17). Qed.

Lemma enhanced_untagged_pop :
  calculateEnhancedSimilarity (set_genres (Some []) trapSong) popSong = Num (10 / 17).
Proof. eval_enhanced (10 / 17). Qed.

Lemma enhanced_stripped_pop :
  calculateEnhancedSimilarity (without Genre trapSong) popSong = Num (10 / 17).
Proof. eval_enhanced (10 / 17). Qed.

Lemma partialCredit_trap_untagged :
  partialCreditComposite trapSong untagged = Num 1.
Proof. eval_enhanced 1. Qed.

Lemma advanced_moody :
  calculateAdvancedSimilarity moodyTrap moodyPop no_overrides = Num 0.2.
Proof.
  unfold calculateAdvancedSimilarity, advancedTotal.
  rewrite popularityScore_none by reflexivity. cbn.
  match goal with
  | |- context [Rmax 0 (Rmin 1 ?e)] => replace e with 0.2 by lra
  end.
  rewrite (Rmin_right 1 0.2) by lra. rewrite (Rmax_right 0 0.2) by lra. reflexivity.
Qed.

End SampleFacts.

Module TopFacts.

Lemma Rgeb_spec (x y : R) : Rgeb x y = true <-> y <= x.
Proof.
  unfold Rgeb. destruct (Rle_dec y x); split; intros; (assumption || reflexivity || discriminate || contradiction).
Qed.

Lemma Rgeb_total {A} (score : A -> R) : ahead_total (fun x y => Rgeb (score x) (score y)).
Proof.
  intros x y. rewrite !Rgeb_spec. lra.
Qed.

Lemma Sorted_weaken {A} (P Q : A -> A -> Prop) (l : list A) :
  (forall a b, P a b -> Q a b) -> Sorted P l -> Sorted Q l.
Proof.
  intros W. induction 1 as [|a l S IH Hd]; constructor; [exact IH|].
  destruct Hd; constructor. auto.
Qed.

Lemma sort_desc_Sorted {A} (score : A -> R) (l : list A) :
  Sorted (fun a b => score b <= score a) (sort_desc score l).
Proof.
  apply Sorted_weaken with (P := fun a b => Rgeb (score a) (score b) = true).
  - intros a b. apply Rgeb_spec.
  - apply sort_by_Sorted, Rgeb_total.
Qed.

Lemma sort_desc_length {A} (score : A -> R) (l : list A) :
  List.length (sort_desc score l) = List.length l.
Proof. apply Permutation_length, sort_by_Permutation. Qed.

Lemma StronglySorted_app {A} (P : A -> A -> Prop) (l1 l2 : list A) :
  StronglySorted P (l1 ++ l2) -> forall a b, In a l1 -> In b l2 -> P a b.
Proof.
  induction l1 as [|x l1 IH]; simpl; [tauto|].
  intros S a b [<-|Ia] Ib.
  - inversion S as [|? ? _ F]; subst. rewrite Forall_forall in F. apply F, in_or_app. auto.
  - inversion S; subst. eapply IH; eauto.
Qed.

(** The head of a list sorted by score, highest first: it is sorted, it
    holds [limit] elements when the list has as many, its elements are
    elements of the list, and an element of the list that is left out
    scores no higher than any element kept. *)
Lemma top_desc {A} (score : A -> R) (limit : nat) (l : list A) :
  let top := firstn limit (sort_desc score l) in
  Sorted (fun a b => score b <= score a) top /\
  List.length top = Nat.min limit (List.length l) /\
  (forall x, In x top -> In x l) /\
  (forall x r, In x l -> ~ In x top -> In r top -> score x <= score r).
Proof.
  cbv zeta. split; [|split; [|split]].
  - apply firstn_Sorted, sort_desc_Sorted.
  - rewrite length_firstn, sort_desc_length. reflexivity.
  - intros x H. apply firstn_subset in H. unfold sort_desc in H.
    apply MergeFacts.sort_by_In in H. exact H.
  - intros x r Hx Nx Hr.
    assert (SS : StronglySorted (fun a b => score b <= score a) (sort_desc score l)).
    { apply Sorted_StronglySorted; [|apply sort_desc_Sorted].
      intros a b c H1 H2. lra. }
    rewrite <- (firstn_skipn limit (sort_desc score l)) in SS.
    apply (StronglySorted_app _ _ _ SS r x Hr).
    assert (I : In x (sort_desc score l)) by (unfold sort_desc; apply MergeFacts.sort_by_In; exact Hx).
    rewrite <- (firstn_skipn limit (sort_desc score l)) in I.
    apply in_app_or in I. tauto.
Qed.

End TopFacts.

Module PopularityFacts.
Import TopFacts.

(** The head of a list sorted under an order that is total and
    transitive: every element left out is behind every element kept. *)
Lemma top_by {A} (ahead : A -> A -> bool) (limit : nat) (l : list A) :
  ahead_total ahead ->
  (forall x y z, ahead x y = true -> ahead y z = true -> ahead x z = true) ->
  forall r x, In r (firstn limit (sort_by ahead l)) ->
              In x (skipn limit (sort_by ahead l)) -> ahead r x = true.
Proof.
  intros T Tr r x Hr Hx.
  assert (SS : StronglySorted (fun a b => ahead a b = true) (sort_by ahead l)).
  { apply Sorted_StronglySorted; [|apply sort_by_Sorted; exact T].
    intros a b c. apply Tr. }
  rewrite <- (firstn_skipn limit (sort_by ahead l)) in SS.
  exact (StronglySorted_app _ _ _ SS r x Hr Hx).
Qed.

Lemma desc_Z_cases (a b : Z) (tie : bool) :
  desc_Z a b tie = true <-> (b < a)%Z \/ (a = b /\ tie = true).
Proof.
  unfold desc_Z. destruct (Z.ltb_spec b a) as [L|L], (Z.eqb_spec a b) as [E|E]; simpl;
    split; intros G; try tauto; try lia; try discriminate;
    destruct G as [G|[G G']]; try lia; try discriminate; try exact G'.
Qed.

Lemma desc_R_cases (a b : R) (tie : bool) :
  desc_R a b tie = true <-> b < a \/ (a = b /\ tie = true).
Proof.
  unfold desc_R, Rgtb, Reqb. destruct (Rlt_dec b a) as [L|L], (Req_dec_T a b) as [E|E]; simpl;
    split; intros G; try tauto; try lra; try discriminate;
    destruct G as [G|[G G']]; try lra; try discriminate; try exact G'.
Qed.

Lemma desc_nullable_trans (a b c : option R) :
  desc_nullable a b true = true -> desc_nullable b c true = true ->
  desc_nullable a c true = true.
Proof.
  destruct a as [x|], b as [y|], c as [z|]; simpl; try tauto; try discriminate.
  rewrite !desc_R_cases. intros [H|[H _]] [H'|[H' _]]; lra.
Qed.

Lemma byPopularity_trans (x y z : Song) :
  byPopularity x y = true -> byPopularity y z = true -> byPopularity x z = true.
Proof.
  unfold byPopularity. rewrite !desc_Z_cases, !desc_R_cases.
  intros [P|[P [Q|[Q N]]]] [P'|[P' [Q'|[Q' N']]]];
    try (left; lia); right; (split; [lia|]);
    try (left; lra); right; (split; [lra|]).
  exact (desc_nullable_trans _ _ _ N N').
Qed.

(** The order of the query is the popularity order of the
    specification. *)
Lemma byPopularity_order (x y : Song) :
  byPopularity x y = true -> popularity_order x y.
Proof.
  unfold byPopularity, popularity_order. rewrite desc_Z_cases, desc_R_cases.
  intros [P|[P [Q|[Q N]]]]; [left; exact P | right; split; [exact P|left; exact Q]|].
  right. split; [exact P|]. right. split; [exact Q|].
  intros a b Ea Eb. rewrite Ea, Eb in N. simpl in N.
  apply desc_R_cases in N. lra.
Qed.

End PopularityFacts.

(** * The claims of the specification *)

Section Claims.

Import AIEnhancedRecommendationEngine AudioAnalysis CollaborativeFiltering.
Import HybridRecommendationEngine ContentBasedFiltering AIFeaturePredictor Samples.
Import CompositeFacts EngineFacts MergeFacts.
Import PredictorFacts LadderFacts EnsembleFacts SampleFacts.

(** ** C1: partial-credit scoring *)

(** C1, as stated, fails: a pair whose genre tags are absent on one song
    does not score the weighted sum of its remaining factors over their
    weights. For [trapSong] and [untagged] the specification's composite
    is 1, and the code's is 10/17: the genre factor stays in the
    denominator, under the reduced weight 0.14. *)
Lemma partial_credit_counterexample :
  present Genre untagged = false /\
  partialCreditComposite trapSong untagged = Num 1 /\
  calculateEnhancedSimilarity trapSong untagged = Num (10 / 17) /\
  calculateEnhancedSimilarity trapSong untagged <> partialCreditComposite trapSong untagged.
Proof.
  split; [reflexivity|]. split; [apply partialCredit_trap_untagged|].
  split; [apply enhanced_trap_untagged|].
  rewrite enhanced_trap_untagged, partialCredit_trap_untagged.
  intros H. injection H as H. lra.
Qed.

(** C1, amended: in [calculateEnhancedSimilarity], a factor (audio, genre
    or mood) whose inputs are absent on both songs adds nothing to the
    weighted sum and nothing to the denominator: the composite is the
    weighted sum of the other factors over the sum of their weights. A
    factor whose inputs only one song has stays in, under a reduced
    weight. [calculateAdvancedSimilarity] leaves a factor out of its sum
    when a song does not carry it, and divides by no weight sum: with
    all three factors out it returns the clamped popularity term. *)
Theorem enhanced_omits_factor_absent_on_both (f : Factor) (s1 s2 : Song) (w : WeightOverrides) :
  (present f s1 = false -> present f s2 = false ->
   calculateEnhancedSimilarity s1 s2 = composite (contributions_without f s1 s2)) /\
  (present f s1 <> present f s2 ->
   contribution f s1 s2 = reducedContribution f s1 s2) /\
  (carries f s1 && carries f s2 = false ->
   calculateAdvancedSimilarity s1 s2 w =
   calculateAdvancedSimilarity (without f s1) (without f s2) w) /\
  (carries Audio s1 && carries Audio s2 = false ->
   carries Genre s1 && carries Genre s2 = false ->
   carries Mood s1 && carries Mood s2 = false ->
   calculateAdvancedSimilarity s1 s2 w =
   clamp01 (Num (0 + popularityScore s1 s2 * w_popularity (finalWeights w)))).
Proof.
  repeat split.
  - intros H1 H2. rewrite enhanced_as_composite.
    pose proof (contribution_absent f s1 s2 H1 H2) as E.
    unfold composite, contributions_without.
    destruct f; cbn [map filter Factor_eqb negb app fold_left contribution] in E |- *;
      rewrite E, accumulate_skipped; reflexivity.
  - intros H. destruct f; simpl in *;
      [unfold audioContribution; destruct (hasAudioFeatures s1), (hasAudioFeatures s2)
      |unfold genreContribution; destruct (hasGenres s1), (hasGenres s2)
      |unfold moodContribution; destruct (hasMoods s1), (hasMoods s2)];
      try reflexivity; exfalso; apply H; reflexivity.
  - intros H. unfold calculateAdvancedSimilarity, advancedTotal.
    destruct f; simpl in H |- *;
      [destruct (audioFeatures s1), (audioFeatures s2)
      |destruct (genres s1), (genres s2)
      |destruct (moods s1), (moods s2)];
      try discriminate; reflexivity.
  - intros Ha Hg Hm. unfold calculateAdvancedSimilarity, advancedTotal.
    simpl in Ha, Hg, Hm.
    destruct (audioFeatures s1), (audioFeatures s2); try discriminate;
      destruct (genres s1), (genres s2); try discriminate;
      destruct (moods s1), (moods s2); try discriminate; reflexivity.
Qed.

(** Two songs without genre tags. *)
Lemma enhanced_omits_factor_absent_on_both_witness :
  present Genre untagged = false /\
  calculateEnhancedSimilarity untagged untagged =
  composite (contributions_without Genre untagged untagged).
Proof.
  split; [reflexivity|].
  apply (proj1 (enhanced_omits_factor_absent_on_both Genre untagged untagged no_overrides));
    reflexivity.
Defined.

(** ** C2: predicted features and their ranges *)

(** C2, as stated, fails on the correlation rung: in fallback mode, a
    song whose only feature is a tempo of 120 gets the energy
    [120 * 0.2 + 0.5 * 0.8 = 24.4], outside [0, 1]. *)
Lemma correlation_rung_out_of_range :
  predictedFeatures fallbackPredictor tempoOnly energy = Some 24.4 /\
  ~ in_range energy 24.4.
Proof.
  split.
  - unfold predictedFeatures, predictFeature, tempoOnly. cbn.
    unfold correlationRung, correlationSums, availableFeaturesOf. cbn.
    rewrite (Reqb_false 120 0) by lra. cbn.
    rewrite (Rabs_pos_eq 0.2) by lra.
    rewrite (Rgtb_true (0 + 0.2) 0) by lra.
    unfold defaultRung. cbn.
    rewrite Reqb_false by lra. rewrite Rmin_left by lra.
    unfold adjustPredictionByConfidence. cbn. f_equal. lra.
  - unfold in_range. simpl. lra.
Qed.

(** C2, amended: when the artist and year averages of the models lie in
    the range of their feature, and the estimate of the correlation rung,
    where it makes one, does too, [predictFeature] returns a value in the
    range of the feature; the default of every feature lies in its
    range, and the confidence blend keeps a value in range there. *)
Theorem predictFeature_in_range (p : Predictor) (f : Feature) (avail : FeatureObj) (song : Song) :
  models_in_range (artistModels p) ->
  models_in_range (yearModels p) ->
  (forall corr fc,
     correlations p = Some corr -> lookup_feature f corr = Some fc ->
     0 < snd (correlationSums fc avail) ->
     in_range f (fst (correlationSums fc avail) / snd (correlationSums fc avail))) ->
  in_range f (getDefaultFeatureValue f) /\
  (forall v c, in_range f v -> 0 <= c <= 1 ->
               in_range f (adjustPredictionByConfidence v c f)) /\
  in_range f (predictFeature p f avail song).
Proof.
  intros Ha Hy Hc.
  split; [apply default_in_range|].
  split; [intros v c; apply adjust_in_range|].
  set (good := fun st : Estimate =>
                 match fst st with
                 | Some v => in_range f v /\ 0 <= snd st <= 1
                 | None => True
                 end).
  assert (G1 : good (artistRung p f song (None, 0))).
  { destruct (artistRung_cases p f song (None, 0)) as [->|[t [o [v [Et [L [V ->]]]]]]].
    - exact I.
    - split; [eapply Ha; eauto | simpl; lra]. }
  assert (G2 : good (yearRung p f song (artistRung p f song (None, 0)))).
  { destruct (yearRung_cases p f song (artistRung p f song (None, 0)))
      as [->|[_ [t [k [o [v [Et [L [V ->]]]]]]]]].
    - exact G1.
    - split; [eapply Hy; eauto | simpl; lra]. }
  assert (G3 : good (correlationRung p f avail
                       (yearRung p f song (artistRung p f song (None, 0))))).
  { destruct (correlationRung_cases p f avail
                (yearRung p f song (artistRung p f song (None, 0))))
      as [->|[_ [corr [fc [Ec [L [Pos ->]]]]]]].
    - exact G2.
    - split; [eapply Hc; eauto|]. simpl.
      unfold Rmin. destruct (Rle_dec _ _); lra. }
  unfold predictFeature.
  set (st := correlationRung _ _ _ _) in *. unfold good in G3.
  unfold defaultRung. destruct (fst st) as [v|].
  - destruct (Reqb v 0).
    + rewrite adjust_default. apply default_in_range.
    + apply adjust_in_range; tauto.
  - rewrite adjust_default. apply default_in_range.
Qed.

(** Two predictions of the energy under a predictor whose artist and
    year models lie in range: for a song that has its danceability only
    the correlation rung estimates [0.6 * 0.3 / 0.3], blended to 0.53;
    for a song of the artist with a model the artist rung gives 0.9,
    blended to 0.82. *)
Lemma predictFeature_in_range_witness :
  models_in_range (artistModels rangedPredictor) /\
  models_in_range (yearModels rangedPredictor) /\
  correlationRung rangedPredictor energy (availableFeaturesOf danceOnly) (None, 0) =
    (Some (0.6 * 0.3 / 0.3), 0.3) /\
  predictFeature rangedPredictor energy (availableFeaturesOf danceOnly) danceOnly = 0.53 /\
  in_range energy
    (predictFeature rangedPredictor energy (availableFeaturesOf danceOnly) danceOnly) /\
  artistRung rangedPredictor energy trapSong (None, 0) = (Some 0.9, 0.8) /\
  predictFeature rangedPredictor energy (availableFeaturesOf trapSong) trapSong = 0.82 /\
  in_range energy
    (predictFeature rangedPredictor energy (availableFeaturesOf trapSong) trapSong).
Proof.
  assert (Ha : models_in_range (artistModels rangedPredictor)).
  { intros table k o f v E L V. injection E as <-. simpl in L.
    destruct (String.eqb k "Artist"); [|discriminate L]. injection L as <-.
    destruct f; simpl in V; try discriminate V. injection V as <-.
    unfold in_range. simpl. lra. }
  assert (Hy : models_in_range (yearModels rangedPredictor)).
  { intros table k o f v E L V. injection E as <-. simpl in L.
    destruct (String.eqb k "2010s"); [|discriminate L]. injection L as <-.
    destruct f; simpl in V; try discriminate V. injection V as <-.
    unfold in_range. simpl. lra. }
  assert (Sums : correlationSums [(danceability, 0.3); (valence, 0.4); (tempo, 0.2)]
                                 (availableFeaturesOf danceOnly) = (0.6 * 0.3, 0.3)).
  { unfold correlationSums, availableFeaturesOf, danceOnly. cbn.
    rewrite (Reqb_false 0.6 0) by lra. cbn.
    rewrite (Rabs_pos_eq 0.3) by lra. f_equal; lra. }
  assert (Rung : correlationRung rangedPredictor energy (availableFeaturesOf danceOnly) (None, 0) =
                 (Some (0.6 * 0.3 / 0.3), 0.3)).
  { unfold correlationRung. cbn [fst falsy rangedPredictor correlations fallbackCorrelations
                                 lookup_feature Feature_eqb].
    rewrite Sums. rewrite (Rgtb_true 0.3 0) by lra.
    rewrite Rmin_left by lra. reflexivity. }
  assert (V1 : predictFeature rangedPredictor energy (availableFeaturesOf danceOnly) danceOnly
               = 0.53).
  { unfold predictFeature.
    change (yearRung rangedPredictor energy danceOnly
              (artistRung rangedPredictor energy danceOnly (None, 0)))
      with ((None, 0) : Estimate).
    rewrite Rung. unfold defaultRung. cbn [fst snd].
    rewrite Reqb_false by lra. unfold adjustPredictionByConfidence. cbn. lra. }
  assert (A2 : artistRung rangedPredictor energy trapSong (None, 0) = (Some 0.9, 0.8))
    by reflexivity.
  assert (V2 : predictFeature rangedPredictor energy (availableFeaturesOf trapSong) trapSong
               = 0.82).
  { unfold predictFeature. rewrite A2.
    assert (Y : yearRung rangedPredictor energy trapSong (Some 0.9, 0.8) = (Some 0.9, 0.8)).
    { unfold yearRung. cbn [fst falsy]. rewrite (Reqb_false 0.9 0) by lra. reflexivity. }
    rewrite Y.
    assert (C : correlationRung rangedPredictor energy (availableFeaturesOf trapSong)
                  (Some 0.9, 0.8) = (Some 0.9, 0.8)).
    { unfold correlationRung. cbn [fst falsy]. rewrite (Reqb_false 0.9 0) by lra.
      reflexivity. }
    rewrite C. unfold defaultRung. cbn [fst snd]. rewrite (Reqb_false 0.9 0) by lra.
    unfold adjustPredictionByConfidence. cbn. lra. }
  split; [exact Ha|]. split; [exact Hy|]. split; [exact Rung|]. split; [exact V1|].
  split; [|split; [exact A2|split; [exact V2|]]].
  - apply (predictFeature_in_range rangedPredictor energy
             (availableFeaturesOf danceOnly) danceOnly Ha Hy).
    intros corr fc E L Pos. injection E as <-. injection L as <-.
    rewrite Sums. unfold in_range. simpl. lra.
  - apply (predictFeature_in_range rangedPredictor energy
             (availableFeaturesOf trapSong) trapSong Ha Hy).
    intros corr fc E L Pos. exfalso. injection E as <-. injection L as <-.
    cbn in Pos. lra.
Defined.

(** ** C3: the cold start *)

(** C3: for a user with no interaction and no rating,
    [getColdStartRecommendations] returns a list in popularity order
    (more plays first, then the higher average rating, then the higher
    popularity) whose every entry carries the one source ['cold-start'].
    With the database up the list holds [limit] songs of the table (all
    of them when they are fewer), and no song left out is ahead of a
    song returned. The only counted call it adds is the query of
    [getPopularSongs], so that neither [findSimilarItems] nor the
    content-based [getRecommendations] and its scoring runs; the
    predictor is left as it was. *)
Theorem cold_start_short_circuit (userId : string) (limit : nat) (w : World) :
  List.length (interactionsOf userId (database w)) = 0%nat ->
  List.length (ratingsOf userId (database w)) = 0%nat ->
  exists recs w',
    getColdStartRecommendations userId limit w = (Ok recs, w') /\
    Forall (fun r => rec_sources r = ["cold-start"]) recs /\
    Sorted popularity_order (map song recs) /\
    (up (database w) = true ->
     List.length recs = Nat.min limit (List.length (songTable (database w))) /\
     (exists rest,
        Permutation (map song recs ++ rest) (songTable (database w)) /\
        forall r s, In r (map song recs) -> In s rest -> popularity_order r s) /\
     map song recs = firstn limit (sort_by byPopularity (songTable (database w))) /\
     calls w' = calls w ++ [CallGetPopularSongs]) /\
    (forall c, In c (calls w') -> In c (calls w) \/ c = CallGetPopularSongs) /\
    predictor w' = predictor w.
Proof.
  intros Hi Hr.
  unfold getColdStartRecommendations, try_catch, bind.
  destruct (up (database w)) eqn:Up.
  - rewrite !query_up by exact Up. rewrite Hi, Hr. cbn [Nat.ltb Nat.leb orb].
    rewrite getPopularSongs_up by exact Up. unfold ret.
    eexists _, _; split; [reflexivity|].
    unfold popular. rewrite !map_map. cbn [song ContentBasedFiltering.rec_song].
    rewrite map_id. rewrite length_map.
    set (sorted := sort_by byPopularity (songTable (database w))).
    split; [|split; [|split; [|split]]].
    + apply Forall_forall. intros r Hin.
      apply in_map_iff in Hin as [x [<- _]]. reflexivity.
    + apply TopFacts.Sorted_weaken with (P := fun a b => byPopularity a b = true).
      * exact PopularityFacts.byPopularity_order.
      * apply firstn_Sorted, sort_by_Sorted, byPopularity_total.
    + intros _. split; [|split; [|split; reflexivity]].
      * rewrite length_firstn. unfold sorted.
        rewrite (Permutation_length (sort_by_Permutation byPopularity _)). reflexivity.
      * exists (skipn limit sorted). split.
        -- rewrite firstn_skipn. apply sort_by_Permutation.
        -- intros r s Ir Is. apply PopularityFacts.byPopularity_order.
           apply (PopularityFacts.top_by byPopularity limit (songTable (database w))
                    byPopularity_total PopularityFacts.byPopularity_trans r s Ir Is).
    + cbn [calls called] in *. intros c Hc. apply in_app_or in Hc as [Hc|[Hc|[]]]; auto.
    + reflexivity.
  - rewrite query_down by exact Up. unfold say, ret, bind.
    eexists _, _; split; [reflexivity|].
    repeat split; try constructor; try discriminate; auto.
Qed.

(** A new user and three songs: 5 plays; 50 plays rated 3; 50 plays
    rated 4. The two most played come first, the better rated of them
    ahead. *)
Lemma cold_start_short_circuit_witness :
  List.length (interactionsOf "u1" (database charts)) = 0%nat /\
  List.length (ratingsOf "u1" (database charts)) = 0%nat /\
  exists recs w',
    getColdStartRecommendations "u1" 2 charts = (Ok recs, w') /\
    map (fun r => id (song r)) recs = ["p3"; "p2"] /\
    Forall (fun r => rec_sources r = ["cold-start"]) recs /\
    Sorted popularity_order (map song recs) /\
    calls w' = [CallGetPopularSongs] /\
    predictor w' = predictor charts.
Proof.
  split; [reflexivity|]. split; [reflexivity|].
  destruct (cold_start_short_circuit "u1" 2 charts eq_refl eq_refl)
    as (recs & w' & E & F & S & U & _ & P).
  destruct (U eq_refl) as (_ & _ & L & C).
  exists recs, w'. split; [exact E|]. split; [|split; [exact F|split; [exact S|split]]].
  - rewrite <- (map_map song id), L.
    change (songTable (database charts))
      with [charted "p1" 5 4.5; charted "p2" 50 3; charted "p3" 50 4].
    unfold sort_by. cbn [fold_right insert_by].
    assert (B23 : byPopularity (charted "p2" 50 3) (charted "p3" 50 4) = false).
    { unfold byPopularity, desc_Z, desc_R. cbn [totalPlays avgRating charted].
      rewrite (Rgtb_false 3 4), (Reqb_false 3 4) by lra. reflexivity. }
    rewrite B23. cbn [insert_by].
    assert (B13 : byPopularity (charted "p1" 5 4.5) (charted "p3" 50 4) = false) by reflexivity.
    assert (B12 : byPopularity (charted "p1" 5 4.5) (charted "p2" 50 3) = false) by reflexivity.
    rewrite B13. cbn [insert_by]. rewrite B12. reflexivity.
  - exact C.
  - exact P.
Defined.

(** ** C4: the hybrid merge sums *)

(** C4: every entry of the list the hybrid merge returns carries, as its
    score, the sum over the four sources of the score the source gives
    the song times the weight of the source (the collaborative list
    holding a song at most once). A call of [getRecommendations] returns
    the merge of the lists its four strategies return ([findSimilarItems],
    the content-based [getRecommendations], [getEnhancedRecommendations]
    and [getPopularSongs] for a fifth of the limit), under the weights of
    the call, so that every entry it returns carries that sum. A song of
    content-based score 0.4 and collaborative score 0.6, both under
    weight 0.3, gets [0.30], more than either contribution alone. *)
Theorem hybrid_merge_sums :
  (forall cf cb ai pop cw cbw aw pw limit r,
     NoDup (map item_id cf) ->
     In r (finalRecommendations cf cb ai pop cw cbw aw pw limit) ->
     recommendationScore r =
       source_score item_id score (id (song r)) cf * cw +
       source_score content_id ContentBasedFiltering.rec_similarity (id (song r)) cb * cbw +
       source_score rec_id ai_similarity (id (song r)) ai * aw +
       source_score content_id ContentBasedFiltering.rec_similarity (id (song r)) pop * pw) /\
  (forall (userId : string) (options : Options) (w : World),
     let cw := or_default (collaborativeWeight options) 0.3 in
     let cbw := or_default (contentBasedWeight options) 0.3 in
     let aw := or_default (aiEnhancedWeight options) 0.3 in
     let pw := or_default (popularityWeight options) 0.1 in
     let n := or_default (limit options) 20%nat in
     exists cf w1 cb w2 ai w3 pop w4 recs w',
       findSimilarItems userId n
         (said (Log (generatingMessage userId))
               (called CallHybridGetRecommendations w)) = (Ok cf, w1) /\
       ContentBasedFiltering.getRecommendations userId n w1 = (Ok cb, w2) /\
       getEnhancedRecommendations userId n w2 = (Ok ai, w3) /\
       ContentBasedFiltering.getPopularSongs (fifth n) w3 = (Ok pop, w4) /\
       HybridRecommendationEngine.getRecommendations userId options w = (Ok recs, w') /\
       recs = finalRecommendations cf cb ai pop cw cbw aw pw n /\
       forall r, In r recs ->
         recommendationScore r =
           source_score item_id score (id (song r)) cf * cw +
           source_score content_id ContentBasedFiltering.rec_similarity (id (song r)) cb * cbw +
           source_score rec_id ai_similarity (id (song r)) ai * aw +
           source_score content_id ContentBasedFiltering.rec_similarity (id (song r)) pop * pw) /\
  (forall (s : Song) (b rs : string) (aw pw : R),
     let cf := [{| item_song := s; score := 0.6; basedOn := b |}] in
     let cb := [{| ContentBasedFiltering.rec_song := s;
                   ContentBasedFiltering.rec_similarity := 0.4;
                   ContentBasedFiltering.reason := rs |}] in
     map recommendationScore (finalRecommendations cf cb [] [] 0.3 0.3 aw pw 20) = [0.30] /\
     0.30 > 0.4 * 0.3 /\ 0.30 > 0.6 * 0.3).
Proof.
  split; [|split].
  - intros cf cb ai pop cw cbw aw pw limit r. apply final_score.
  - intros userId options w cw cbw aw pw n.
    destruct (getRecommendations_run userId options w)
      as [cf [w1 [cb [w2 [ai [w3 [pop [w4 [E1 [E2 [E3 [E4 E]]]]]]]]]]]].
    exists cf, w1, cb, w2, ai, w3, pop, w4. eexists _, _.
    split; [exact E1|]. split; [exact E2|]. split; [exact E3|]. split; [exact E4|].
    split; [exact E|]. split; [reflexivity|].
    intros r H. eapply final_score; [|exact H].
    eapply findSimilarItems_NoDup. exact E1.
  - intros s b rs aw pw cf cb. split; [|lra].
    unfold finalRecommendations, combine, cf, cb. cbn [fold_left].
    unfold set_entry, add_entry. cbn [upsert item_song id].
    cbn [ContentBasedFiltering.rec_song]. rewrite String.eqb_refl.
    cbn. f_equal. lra.
Qed.

(** The song of the example under the default weights; and a call on a
    fresh installation, where the content-based filter, the AI engine
    and the popular songs each return the one song of the table at 0.5,
    and the call returns it at [0.5 * 0.3 + 0.5 * 0.3 + 0.5 * 0.1]. *)
Lemma hybrid_merge_sums_witness :
  let cf := [{| item_song := untagged; score := 0.6; basedOn := "First" |}] in
  let cb := [{| ContentBasedFiltering.rec_song := untagged;
                ContentBasedFiltering.rec_similarity := 0.4;
                ContentBasedFiltering.reason := "Content-based match" |}] in
  let r := {| song := untagged; recommendationScore := 0.6 * 0.3 + 0.4 * 0.3;
              rank := Some 1%nat; rec_sources := ["collaborative"; "content-based"];
              rec_details := "First" |} in
  NoDup (map item_id cf) /\
  In r (finalRecommendations cf cb [] [] 0.3 0.3 0.3 0.1 20) /\
  recommendationScore r =
    source_score item_id score (id (song r)) cf * 0.3 +
    source_score content_id ContentBasedFiltering.rec_similarity (id (song r)) cb * 0.3 +
    source_score rec_id ai_similarity (id (song r)) [] * 0.3 +
    source_score content_id ContentBasedFiltering.rec_similarity (id (song r)) [] * 0.1 /\
  exists recs w',
    HybridRecommendationEngine.getRecommendations "u1" (justLimit 20) freshInstall =
      (Ok recs, w') /\
    map (fun r => (id (song r), rec_sources r)) recs =
      [("s3", ["content-based"; "ai-enhanced"; "popularity"])] /\
    map recommendationScore recs = [0.5 * 0.3 + 0.5 * 0.3 + 0.5 * 0.1].
Proof.
  intros cf cb r.
  assert (N : NoDup (map item_id cf)).
  { repeat constructor. simpl. tauto. }
  assert (H : In r (finalRecommendations cf cb [] [] 0.3 0.3 0.3 0.1 20)).
  { left. reflexivity. }
  split; [exact N|]. split; [exact H|].
  split; [exact (proj1 hybrid_merge_sums cf cb [] [] 0.3 0.3 0.3 0.1 20%nat r N H)|].
  eexists _, _. split; [cbn; reflexivity|].
  cbn. split; [reflexivity|]. f_equal; lra.
Defined.

(** ** C5: the weights are not validated *)

(** C5, as stated, fails: under the weights the recommendations route
    passes (0.4, 0.4, the default 0.3 and 0.2, which sum to 1.3) the call
    returns normally, after running all four strategies, with the song
    scored [0.5 * 0.4 + 0.5 * 0.3 + 0.5 * 0.2 = 0.45]. *)
Lemma route_weights_not_rejected :
  weightTotal routeOptions > 1 /\
  exists recs w',
    HybridRecommendationEngine.getRecommendations "u1" routeOptions freshInstall =
      (Ok recs, w') /\
    map (fun r => (id (song r), rec_sources r)) recs =
      [("s3", ["content-based"; "ai-enhanced"; "popularity"])] /\
    map recommendationScore recs = [0.45] /\
    calls w' = [CallHybridGetRecommendations; CallFindSimilarItems;
                CallContentGetRecommendations; CallGetPopularSongs;
                CallGetEnhancedRecommendations; CallGetPopularSongs].
Proof.
  split; [unfold weightTotal, routeOptions; simpl; lra|].
  eexists _, _. split; [cbn; reflexivity|].
  cbn. repeat split. f_equal. lra.
Qed.

(** C5, amended: [getRecommendations] validates nothing. Whatever the
    weights, it runs the four strategies in turn, merges their results
    under the weights as they were given (the defaults for those left
    out), and returns the list; it never throws. *)
Theorem hybrid_runs_under_any_weights (userId : string) (options : Options) (w : World) :
  let n := or_default (limit options) 20%nat in
  exists cf w1 cb w2 ai w3 pop w4,
    findSimilarItems userId n
      (said (Log (generatingMessage userId))
            (called CallHybridGetRecommendations w)) = (Ok cf, w1) /\
    ContentBasedFiltering.getRecommendations userId n w1 = (Ok cb, w2) /\
    getEnhancedRecommendations userId n w2 = (Ok ai, w3) /\
    ContentBasedFiltering.getPopularSongs (fifth n) w3 = (Ok pop, w4) /\
    HybridRecommendationEngine.getRecommendations userId options w =
      (Ok (finalRecommendations cf cb ai pop
             (or_default (collaborativeWeight options) 0.3)
             (or_default (contentBasedWeight options) 0.3)
             (or_default (aiEnhancedWeight options) 0.3)
             (or_default (popularityWeight options) 0.1) n),
       said (Log (generatedMessage
                    (List.length
                       (finalRecommendations cf cb ai pop
                          (or_default (collaborativeWeight options) 0.3)
                          (or_default (contentBasedWeight options) 0.3)
                          (or_default (aiEnhancedWeight options) 0.3)
                          (or_default (popularityWeight options) 0.1) n))))
            w4).
Proof. apply getRecommendations_run. Qed.

(** ** C6: removing data and the score *)

(** C6, as stated, fails for [calculateEnhancedSimilarity]: [trapSong]
    and [popSong] share no genre and score 1/2; with the genres of
    [trapSong] removed (the relation not loaded, or loaded empty) the
    pair scores 10/17. *)
Lemma removing_genres_raises_similarity :
  calculateEnhancedSimilarity trapSong popSong = Num (1 / 2) /\
  calculateEnhancedSimilarity (without Genre trapSong) popSong = Num (10 / 17) /\
  calculateEnhancedSimilarity (set_genres (Some []) trapSong) popSong = Num (10 / 17) /\
  ~ nle (calculateEnhancedSimilarity (without Genre trapSong) popSong)
        (calculateEnhancedSimilarity trapSong popSong).
Proof.
  split; [apply enhanced_trap_pop|]. split; [apply enhanced_stripped_pop|].
  split; [apply enhanced_untagged_pop|].
  rewrite enhanced_trap_pop, enhanced_stripped_pop. simpl. lra.
Qed.

(** C6, amended: [calculateAdvancedSimilarity], which divides by no
    weight sum, never scores a pair higher after the data of a factor
    (audio features, genres or moods) is removed from one of the two
    songs, the weights of the three factors being non-negative and the
    score with the fuller data being a number. *)
Theorem advanced_removal_monotone (f : Factor) (s1 s2 : Song) (w : WeightOverrides) (x : R) :
  0 <= w_audioFeatures (finalWeights w) ->
  0 <= w_genre (finalWeights w) ->
  0 <= w_mood (finalWeights w) ->
  calculateAdvancedSimilarity s1 s2 w = Num x ->
  nle (calculateAdvancedSimilarity (without f s1) s2 w) (Num x) /\
  nle (calculateAdvancedSimilarity s1 (without f s2) w) (Num x).
Proof.
  intros Wa Wg Wm E. unfold calculateAdvancedSimilarity in *.
  destruct (clamp01_is_Num _ _ E) as [t Et]. rewrite Et in E. rewrite <- E.
  set (fw := finalWeights w) in *. clearbody fw.
  assert (C : 0 <= match audioFeatures s1, audioFeatures s2 with
                   | Some a1, Some a2 =>
                     cosineSimilarity (normalizeFeatures a1) (normalizeFeatures a2)
                   | _, _ => 0
                   end).
  { destruct (audioFeatures s1), (audioFeatures s2); try lra.
    apply cosineSimilarity_nonneg; apply normalizeFeatures_nonneg. }
  unfold advancedTotal in Et |- *.
  assert (P : popularityScore (without f s1) s2 = popularityScore s1 s2 /\
              popularityScore s1 (without f s2) = popularityScore s1 s2).
  { destruct f; split; reflexivity. }
  destruct P as [P1 P2]. rewrite P1, P2.
  destruct f; simpl;
    destruct (audioFeatures s1) as [a1|], (audioFeatures s2) as [a2|];
    destruct (genres s1) as [g1|], (genres s2) as [g2|];
    try (destruct (overlapScore g1 g2) as [og|] eqn:Eg;
         [pose proof (Rmult_le_pos _ _ (overlapScore_nonneg _ _ _ Eg) Wg)|]);
    destruct (moods s1) as [m1|], (moods s2) as [m2|];
    try (destruct (overlapScore m1 m2) as [om|] eqn:Em;
         [pose proof (Rmult_le_pos _ _ (overlapScore_nonneg _ _ _ Em) Wm)|]);
    simpl in Et; try discriminate; injection Et as <-;
    pose proof (Rmult_le_pos _ _ C Wa);
    split; apply clamp01_mono; lra.
Qed.

(** Two songs of one mood: removing the moods of either takes 0.1 off
    their 0.2. *)
Lemma advanced_removal_monotone_witness :
  calculateAdvancedSimilarity moodyTrap moodyPop no_overrides = Num 0.2 /\
  nle (calculateAdvancedSimilarity (without Mood moodyTrap) moodyPop no_overrides) (Num 0.2) /\
  nle (calculateAdvancedSimilarity moodyTrap (without Mood moodyPop) no_overrides) (Num 0.2).
Proof.
  split; [apply advanced_moody|].
  apply (advanced_removal_monotone Mood moodyTrap moodyPop no_overrides 0.2).
  - simpl. lra.
  - simpl. lra.
  - simpl. lra.
  - apply advanced_moody.
Defined.

(** ** C7: too little training data *)

(** C7: when fewer than five feature-complete songs exist as a predictor
    is first initialized, [initialize] trains nothing: it loads the fixed
    genre, mood and correlation tables, leaves the artist and year models
    as they were, and writes the fallback lines to the console (the
    insufficient-data warning when the query answered, the error line
    when it threw), never the line that reports trained models. From
    then on, for every song without genre tags, the audio voter of the genre
    ensemble scores the four genres of the fixed table, each against
    its fixed vector, and keeps three; [predictGenres] is the vote over
    these and the metadata, artist and year voters. *)
Theorem initialize_fallback_mode (w : World) :
  initialized (predictor w) = false ->
  (List.length (filter featureComplete (songTable (database w))) < 5)%nat ->
  exists w',
    initialize w = (Ok tt, w') /\
    predictor w' = set_initialized (initializeFallbackModels (predictor w)) /\
    artistModels (predictor w') = artistModels (predictor w) /\
    yearModels (predictor w') = yearModels (predictor w) /\
    genreAverages (predictor w') = Some fallbackGenreAverages /\
    moodAverages (predictor w') = Some fallbackMoodAverages /\
    correlations (predictor w') = Some fallbackCorrelations /\
    console w' =
      console w ++
      [Log "🤖 Initializing AI prediction models...";
       (if up (database w)
        then Warn "⚠️ Insufficient training data for AI models, using fallback predictions"
        else Error "Error initializing AI models:");
       Log "🔄 Initializing fallback prediction models...";
       Log "✅ Fallback models initialized"] /\
    forall song w2,
      predictor w2 = predictor w' ->
      hasTags (genres song) = false ->
      let features := predictedFeatures (predictor w') song in
      let audioPredictions := predictFromAudioFeatures features fallbackGenreAverages in
      List.length audioPredictions = 3%nat /\
      (forall p, In p audioPredictions ->
         exists averages,
           In (name p, averages) fallbackGenreAverages /\
           In (name p) ["Trap"; "Hip-Hop"; "R&B"; "Pop"] /\
           confidence p = calculateFeatureSimilarity features averages) /\
      predictGenres song w2 =
      (Ok (map Named
             (topTwo
                (combineVotes
                   (map (fun p => {| label := Object p; vote_confidence := confidence p;
                                     method := "audio" |})
                        audioPredictions ++
                    votes_of (predictGenresFromMetadata song) 0.6 "metadata" ++
                    votes_of (predictGenresFromArtist (artist song)) 0.7 "artist" ++
                    votes_of (predictGenresFromYear (year song)) 0.5 "year")))),
       w2).
Proof.
  intros Hi Hn.
  assert (Hrows : (List.length (filter isTrainingRow (songTable (database w))) < 5)%nat).
  { eapply Nat.le_lt_trans; [|exact Hn].
    apply filter_length_le, isTrainingRow_featureComplete. }
  eexists. split; [apply initialize_few_rows; assumption|].
  cbn [predictor console].
  split; [reflexivity|]. split; [reflexivity|]. split; [reflexivity|].
  split; [reflexivity|]. split; [reflexivity|]. split; [reflexivity|].
  split; [unfold fallbackConsole; destruct (up (database w)); reflexivity|].
  intros song w2 Hp Hg.
  split; [|split].
  - unfold predictFromAudioFeatures, sort_desc.
    rewrite length_firstn.
    rewrite (Permutation_length (sort_by_Permutation _ _)), length_map. reflexivity.
  - intros p Hin. unfold predictFromAudioFeatures in Hin.
    apply firstn_subset in Hin. unfold sort_desc in Hin. apply sort_by_In in Hin.
    apply in_map_iff in Hin. destruct Hin as [[genre averages] [<- Hin]].
    exists averages. cbn [name confidence fst snd].
    split; [exact Hin|]. split; [|reflexivity].
    apply (in_map fst) in Hin. exact Hin.
  - rewrite predictGenres_initialized; [|rewrite Hp; reflexivity | exact Hg].
    rewrite Hp. reflexivity.
Qed.

(** A fresh installation: one song, without audio features. *)
Lemma initialize_fallback_mode_witness :
  initialized (predictor freshInstall) = false /\
  (List.length (filter featureComplete (songTable (database freshInstall))) < 5)%nat /\
  exists w',
    initialize freshInstall = (Ok tt, w') /\
    predictor w' = fallbackPredictor /\
    console w' =
      [Log "🤖 Initializing AI prediction models...";
       Warn "⚠️ Insufficient training data for AI models, using fallback predictions";
       Log "🔄 Initializing fallback prediction models...";
       Log "✅ Fallback models initialized"] /\
    List.length (predictFromAudioFeatures (predictedFeatures (predictor w') uziSong)
                                          fallbackGenreAverages) = 3%nat.
Proof.
  assert (Hi : initialized (predictor freshInstall) = false) by reflexivity.
  assert (Hn : (List.length (filter featureComplete (songTable (database freshInstall))) < 5)%nat)
    by (cbn; lia).
  split; [exact Hi|]. split; [exact Hn|].
  destruct (initialize_fallback_mode freshInstall Hi Hn)
    as (w' & E & P & _ & _ & _ & _ & _ & C & G).
  exists w'. split; [exact E|]. split; [exact P|]. split; [exact C|].
  exact (proj1 (G uziSong w' eq_refl eq_refl)).
Defined.

(** ** C8: symmetry *)

(** C8 does not hold of the code: the weighted composites depend on the
    order of their arguments for songs as the library loads them. The
    rows of [include: { genres: true, moods: true }] are rows of the
    join tables and have no [name], so the genre arrays of a track with
    two genre links and of a track with one read [[undefined, undefined]]
    and [[undefined]]: the overlap counts two common entries out of two
    one way and one out of two the other way.
    [calculateAdvancedSimilarity] gives 0.4 and 0.3,
    [calculateEnhancedSimilarity] 0.7 and 0.55. *)
Theorem composite_asymmetric_on_join_rows :
  overlapScore [Undefined; Undefined] [Undefined] = Num (2 / 2) /\
  overlapScore [Undefined] [Undefined; Undefined] = Num (1 / 2) /\
  calculateAdvancedSimilarity twoLinks oneLink no_overrides = Num 0.4 /\
  calculateAdvancedSimilarity oneLink twoLinks no_overrides = Num 0.3 /\
  calculateEnhancedSimilarity twoLinks oneLink = Num 0.7 /\
  calculateEnhancedSimilarity oneLink twoLinks = Num 0.55 /\
  calculateAdvancedSimilarity twoLinks oneLink no_overrides <>
    calculateAdvancedSimilarity oneLink twoLinks no_overrides /\
  calculateEnhancedSimilarity twoLinks oneLink <> calculateEnhancedSimilarity oneLink twoLinks.
Proof.
  assert (O1 : overlapScore [Undefined; Undefined] [Undefined] = Num (2 / 2))
    by (unfold overlapScore; cbn; reflexivity).
  assert (O2 : overlapScore [Undefined] [Undefined; Undefined] = Num (1 / 2))
    by (unfold overlapScore; cbn; reflexivity).
  assert (P : forall i t e speech links mlinks i' t' e' speech' links' mlinks',
             popularityScore (synced i t e speech links mlinks)
                             (synced i' t' e' speech' links' mlinks') = 1).
  { intros. unfold popularityScore, popularity_or_0, synced. cbn [popularity].
    rewrite Rminus_diag, Rabs_R0. lra. }
  assert (A1 : calculateAdvancedSimilarity twoLinks oneLink no_overrides = Num 0.4).
  { unfold calculateAdvancedSimilarity, advancedTotal, twoLinks, oneLink.
    rewrite P. cbn.
    match goal with
    | |- context [Rmax 0 (Rmin 1 ?e)] => replace e with 0.4 by lra
    end.
    rewrite (Rmin_right 1 0.4) by lra. rewrite (Rmax_right 0 0.4) by lra. reflexivity. }
  assert (A2 : calculateAdvancedSimilarity oneLink twoLinks no_overrides = Num 0.3).
  { unfold calculateAdvancedSimilarity, advancedTotal, twoLinks, oneLink.
    rewrite P. cbn.
    match goal with
    | |- context [Rmax 0 (Rmin 1 ?e)] => replace e with 0.3 by lra
    end.
    rewrite (Rmin_right 1 0.3) by lra. rewrite (Rmax_right 0 0.3) by lra. reflexivity. }
  assert (F : forall i t speech links mlinks,
             hasAudioFeatures (synced i t 0.7 speech links mlinks) = true).
  { intros i t speech links mlinks. unfold hasAudioFeatures, positive, synced. cbn.
    rewrite !Rgtb_true by lra. reflexivity. }
  assert (E1 : calculateEnhancedSimilarity twoLinks oneLink = Num 0.7).
  { unfold_enhanced. rewrite A1. unfold twoLinks, oneLink. rewrite !F, P. cbn.
    rewrite Rgtb_true by (unfold_weights; lra).
    clamp_to 0.7. reflexivity. }
  assert (E2 : calculateEnhancedSimilarity oneLink twoLinks = Num 0.55).
  { unfold_enhanced. rewrite A2. unfold twoLinks, oneLink. rewrite !F, P. cbn.
    rewrite Rgtb_true by (unfold_weights; lra).
    clamp_to 0.55. reflexivity. }
  split; [exact O1|]. split; [exact O2|]. split; [exact A1|]. split; [exact A2|].
  split; [exact E1|]. split; [exact E2|]. split.
  - rewrite A1, A2. intros C. injection C as C. lra.
  - rewrite E1, E2. intros C. injection C as C. lra.
Qed.

(** ** C9: the genre ensemble on an artist it knows *)

(** C9 does not hold of the code: on a fresh installation, which runs in
    fallback mode, the song "Myron" by "Lil Uzi Vert" (no genre tag, no
    year, no audio feature) is predicted ["[object Object]"; "trap"],
    which holds neither "Trap" nor "Hip-Hop". The audio voter files its
    three votes under the scored object instead of its name, so they add
    up under the one key "[object Object]"; the artist voter votes for
    "trap" in lower case. *)
Theorem uzi_song_prediction_misses_trap :
  hasTags (genres uziSong) = false /\
  str_includes (toLowerCase (artist uziSong)) "uzi" = true /\
  exists w',
    predictGenres uziSong freshInstall = (Ok (map Named ["[object Object]"; "trap"]), w') /\
    predictor w' = fallbackPredictor /\
    ~ In "Trap" ["[object Object]"; "trap"] /\
    ~ In "Hip-Hop" ["[object Object]"; "trap"].
Proof.
  split; [reflexivity|]. split; [reflexivity|].
  assert (I : initialize freshInstall =
              (Ok tt, {| database := database freshInstall;
                         predictor := fallbackPredictor;
                         console := fallbackConsole true [];
                         calls := [] |})).
  { apply (initialize_few_rows freshInstall); [reflexivity|].
    cbn. lia. }
  exists {| database := database freshInstall; predictor := fallbackPredictor;
            console := fallbackConsole true []; calls := [] |}.
  split; [|split; [reflexivity|split; simpl; intuition discriminate]].
  unfold predictGenres, bind at 1. rewrite I.
  change (genres uziSong) with (Some (@nil Name)). cbv iota.
  unfold bind at 1.
  rewrite predictGenres_helper by reflexivity.
  unfold bind, get_predictor, ret. cbn [predictor].
  unfold predictGenresFromFeatures. cbn [genreAverages fallbackPredictor set_initialized
                                         initializeFallbackModels].
  rewrite (genreEnsemble_ext _ _ defaultFeatures _ predictedFeatures_uziSong).
  f_equal. f_equal.
  unfold genreEnsemble, predictFromAudioFeatures, fallbackGenreAverages.
  cbn [map fst snd].
  rewrite !similarity_to_defaults by lra.
  replace (0.5 * 0.8 + 0.5 * 0.7 + 0.5 * 0.5 + 120 * 0.8 + 0.1 * 0.6) with 97.06 by lra.
  replace (0.8 * 0.8 + 0.7 * 0.7 + 0.5 * 0.5 + 0.8 * 0.8 + 0.6 * 0.6) with 2.38 by lra.
  replace (0.5 * 0.6 + 0.5 * 0.6 + 0.5 * 0.5 + 120 * 0.5 + 0.1 * 0.8) with 60.93 by lra.
  replace (0.6 * 0.6 + 0.6 * 0.6 + 0.5 * 0.5 + 0.5 * 0.5 + 0.8 * 0.8) with 1.86 by lra.
  replace (0.5 * 0.5 + 0.5 * 0.7 + 0.5 * 0.6 + 120 * 0.4 + 0.1 * 0.3) with 48.93 by lra.
  replace (0.5 * 0.5 + 0.7 * 0.7 + 0.6 * 0.6 + 0.4 * 0.4 + 0.3 * 0.3) with 1.35 by lra.
  replace (0.5 * 0.7 + 0.5 * 0.8 + 0.5 * 0.7 + 120 * 0.6 + 0.1 * 0.2) with 73.12 by lra.
  replace (0.7 * 0.7 + 0.8 * 0.8 + 0.7 * 0.7 + 0.6 * 0.6 + 0.2 * 0.2) with 2.02 by lra.
  assert (RP : toDefaults 48.93 1.35 < toDefaults 73.12 2.02)
    by (apply toDefaults_lt; lra).
  assert (HP : toDefaults 60.93 1.86 < toDefaults 73.12 2.02)
    by (apply toDefaults_lt; lra).
  assert (RH : toDefaults 48.93 1.35 < toDefaults 60.93 1.86)
    by (apply toDefaults_lt; lra).
  assert (PT : toDefaults 73.12 2.02 < toDefaults 97.06 2.38)
    by (apply toDefaults_lt; lra).
  assert (T5 : 0.5 <= toDefaults 97.06 2.38) by (apply toDefaults_ge; lra).
  assert (P2 : 0.2 <= toDefaults 73.12 2.02) by (apply toDefaults_ge; lra).
  assert (H0 : 0 <= toDefaults 60.93 1.86) by (apply toDefaults_ge; lra).
  set (cT := toDefaults 97.06 2.38) in *. set (cH := toDefaults 60.93 1.86) in *.
  set (cR := toDefaults 48.93 1.35) in *. set (cP := toDefaults 73.12 2.02) in *.
  clearbody cT cH cR cP.
  unfold sort_desc, sort_by. cbn [fold_right insert_by confidence].
  rewrite (Rgeb_false cR cP) by lra. cbn [insert_by confidence].
  rewrite (Rgeb_false cH cP) by lra. rewrite (Rgeb_true cH cR) by lra.
  cbn [insert_by confidence].
  rewrite (Rgeb_true cT cP) by lra.
  cbn [firstn map app votes_of confidence].
  change (predictGenresFromMetadata uziSong) with ["Trap"; "Hip-Hop"].
  change (predictGenresFromArtist (artist uziSong)) with ["trap"].
  change (predictGenresFromYear (year uziSong)) with (@nil string).
  unfold combineVotes, topTwo, votes_of, sort_desc, sort_by. cbn -[Rgeb].
  repeat (decide_Rgeb; cbn -[Rgeb]).
  reflexivity.
Qed.

(** ** C10: a prediction of zero is no prediction *)

(** C10: in [predictFeature], once the prediction is exactly 0 after the
    artist rung, after the year rung or after the correlation rung, it is
    given up: the result is the one the ladder gives without its artist
    models, without its artist and year models, and the default of the
    feature, in turn. *)
Theorem zero_prediction_falls_through
  (p : Predictor) (f : Feature) (avail : FeatureObj) (song : Song) :
  let st1 := artistRung p f song (None, 0) in
  let st2 := yearRung p f song st1 in
  let st3 := correlationRung p f avail st2 in
  (forall c, st1 = (Some 0, c) ->
     predictFeature p f avail song = predictFeature (drop_artists p) f avail song) /\
  (forall c, st2 = (Some 0, c) ->
     predictFeature p f avail song =
     predictFeature (drop_years (drop_artists p)) f avail song) /\
  (forall c, st3 = (Some 0, c) ->
     predictFeature p f avail song = getDefaultFeatureValue f).
Proof.
  intros st1 st2 st3.
  assert (A0 : forall c, alike (Some 0, c) (None, 0)).
  { intros c. right. split; [apply falsy_zero | reflexivity]. }
  repeat split; intros c E.
  - unfold predictFeature. fold st1.
    replace (artistRung (drop_artists p) f song (None, 0)) with ((None, 0) : Estimate)
      by reflexivity.
    rewrite (defaultRung_alike f _
               (correlationRung (drop_artists p) f avail
                  (yearRung (drop_artists p) f song (None, 0)))); [reflexivity|].
    change (correlationRung (drop_artists p)) with (correlationRung p).
    change (yearRung (drop_artists p)) with (yearRung p).
    apply correlationRung_alike, yearRung_alike. rewrite E. apply A0.
  - unfold predictFeature. fold st1. fold st2.
    rewrite (defaultRung_alike f _
               (correlationRung (drop_years (drop_artists p)) f avail (None, 0)));
      [reflexivity|].
    change (correlationRung (drop_years (drop_artists p))) with (correlationRung p).
    apply correlationRung_alike. rewrite E. apply A0.
  - unfold predictFeature. fold st1. fold st2. fold st3. rewrite E.
    rewrite defaultRung_falsy by apply falsy_zero. apply adjust_default.
Qed.

(** An artist whose songs average the key to 0. *)
Lemma zero_prediction_falls_through_witness :
  artistRung zeroKeyPredictor key untagged (None, 0) = (Some 0, 0.8) /\
  predictFeature zeroKeyPredictor key (availableFeaturesOf untagged) untagged =
  predictFeature (drop_artists zeroKeyPredictor) key (availableFeaturesOf untagged) untagged.
Proof.
  split; [reflexivity|].
  apply (proj1 (zero_prediction_falls_through zeroKeyPredictor key
                  (availableFeaturesOf untagged) untagged) 0.8).
  reflexivity.
Defined.

End Claims.

(** * Further properties of the code *)

Module VectorFacts.
Import AudioAnalysis AudioVectors.

Lemma fold_sum_shift {A} (g : A -> R) (l : list A) (a : R) :
  fold_left (fun acc x => acc + g x) l a = a + fold_left (fun acc x => acc + g x) l 0.
Proof.
  revert a. induction l as [|x l IH]; intros a; simpl; [lra|].
  rewrite (IH (a + g x)), (IH (0 + g x)). lra.
Qed.

Lemma fold_sum_nonneg {A} (g : A -> R) (l : list A) :
  (forall x, 0 <= g x) -> 0 <= fold_left (fun acc x => acc + g x) l 0.
Proof.
  intros H. induction l as [|x l IH]; simpl; [lra|].
  rewrite fold_sum_shift. specialize (H x). lra.
Qed.

Lemma fold_sum_nonneg_on {A} (g : A -> R) (l : list A) :
  (forall x, In x l -> 0 <= g x) -> 0 <= fold_left (fun acc x => acc + g x) l 0.
Proof.
  induction l as [|x l IH]; simpl; intros H; [lra|].
  rewrite fold_sum_shift. pose proof (H x (or_introl eq_refl)).
  specialize (IH (fun y Hy => H y (or_intror Hy))). lra.
Qed.

End VectorFacts.

Module VectorFacts2.
Import AudioAnalysis AudioVectors VectorFacts.

Lemma fold_sum_all_zero {A} (g : A -> R) (l : list A) :
  (forall x, In x l -> g x = 0) -> fold_left (fun acc x => acc + g x) l 0 = 0.
Proof.
  induction l as [|y l IH]; simpl; intros H; [reflexivity|].
  rewrite fold_sum_shift, IH by auto. rewrite (H y) by auto. lra.
Qed.

Lemma In_all_features (k : Feature) : In k all_features.
Proof. destruct k; simpl; tauto. Qed.

Lemma common_keys_In (f1 f2 : FeatureObj) (k : Feature) :
  In k (filter (fun key => is_number (f1 key) && is_number (f2 key)) (object_keys f1)) <->
  exists v1 v2, f1 k = Some v1 /\ f2 k = Some v2.
Proof.
  unfold object_keys. rewrite !filter_In. split.
  - intros [[_ H1] H]. destruct (f1 k) as [v1|], (f2 k) as [v2|]; try discriminate.
    exists v1, v2. split; reflexivity.
  - intros (v1 & v2 & E1 & E2). rewrite E1, E2.
    split; [split; [apply In_all_features | reflexivity] | reflexivity].
Qed.

(** X1: [cosineSimilarity] is 0 when no key holds a number in both
    objects, and when one of the two objects holds 0 under every key
    that holds a number in both; on objects whose numbers are not
    negative it is never negative. *)
Theorem cosineSimilarity_sign (f1 f2 : FeatureObj) :
  ((forall k, f1 k = None \/ f2 k = None) -> cosineSimilarity f1 f2 = 0) /\
  ((forall k v1 v2, f1 k = Some v1 -> f2 k = Some v2 -> v1 = 0) ->
   cosineSimilarity f1 f2 = 0) /\
  ((forall k v1 v2, f1 k = Some v1 -> f2 k = Some v2 -> v2 = 0) ->
   cosineSimilarity f1 f2 = 0) /\
  (nonneg_obj f1 -> nonneg_obj f2 -> 0 <= cosineSimilarity f1 f2).
Proof.
  assert (Zero : forall (g : Feature -> R) (keys : list Feature),
             (forall k, In k keys -> g k = 0) ->
             fold_left (fun acc key => acc + g key * g key) keys 0 = 0).
  { intros g keys H.
    apply (fold_sum_all_zero (fun key => g key * g key)).
    intros k I. rewrite (H k I). ring. }
  split; [|split; [|split]].
  - intros H. unfold cosineSimilarity.
    destruct (filter _ (object_keys f1)) as [|k0 ks] eqn:EK; [reflexivity|].
    assert (I : In k0 (k0 :: ks)) by (left; reflexivity).
    rewrite <- EK in I. apply common_keys_In in I. destruct I as (v1 & v2 & E1 & E2).
    destruct (H k0); congruence.
  - intros H. unfold cosineSimilarity.
    destruct (filter _ (object_keys f1)) as [|k0 ks] eqn:EK; [reflexivity|].
    rewrite (Reqb_true _ 0); [reflexivity|].
    apply Zero. intros k I. rewrite <- EK in I. apply common_keys_In in I.
    destruct I as (v1 & v2 & E1 & E2). unfold num_at. rewrite E1. apply (H k v1 v2 E1 E2).
  - intros H. unfold cosineSimilarity.
    destruct (filter _ (object_keys f1)) as [|k0 ks] eqn:EK; [reflexivity|].
    rewrite (Reqb_true (fold_left (fun acc key => acc + num_at f2 key * num_at f2 key) _ 0) 0);
      [rewrite orb_true_r; reflexivity|].
    apply Zero. intros k I. rewrite <- EK in I. apply common_keys_In in I.
    destruct I as (v1 & v2 & E1 & E2). unfold num_at. rewrite E2. apply (H k v1 v2 E1 E2).
  - apply CompositeFacts.cosineSimilarity_nonneg.
Qed.

End VectorFacts2.

Module VectorFacts3.
Import AudioAnalysis AudioVectors SimilarSongs VectorFacts VectorFacts2.

Lemma ranges_ordered (k : Feature) : fst (ranges k) < snd (ranges k).
Proof. destruct k; simpl; lra. Qed.

Lemma clamp_unit (x : R) : 0 <= Rmax 0 (Rmin 1 x) <= 1.
Proof. unfold Rmax, Rmin. repeat destruct (Rle_dec _ _); lra. Qed.

Lemma clamp_unit_id (x : R) : 0 <= x <= 1 -> Rmax 0 (Rmin 1 x) = x.
Proof. intros H. unfold Rmax, Rmin. repeat destruct (Rle_dec _ _); lra. Qed.

Lemma clamp_unit_mono (x y : R) : x <= y -> Rmax 0 (Rmin 1 x) <= Rmax 0 (Rmin 1 y).
Proof. intros H. unfold Rmax, Rmin. repeat destruct (Rle_dec _ _); lra. Qed.

(** X2: [normalizeFeatures] keeps the keys of the object, puts every number
    within [0, 1], maps a value within the range of its feature to its
    position in the range, and keeps the order of two values of a feature. *)
Theorem normalizeFeatures_unit (o : FeatureObj) (k : Feature) :
  (normalizeFeatures o k = None <-> o k = None) /\
  (forall v, normalizeFeatures o k = Some v -> 0 <= v <= 1) /\
  (forall v, o k = Some v -> fst (ranges k) <= v <= snd (ranges k) ->
     normalizeFeatures o k =
     Some ((v - fst (ranges k)) / (snd (ranges k) - fst (ranges k)))) /\
  (forall o' v v' n n', o k = Some v -> o' k = Some v' -> v <= v' ->
     normalizeFeatures o k = Some n -> normalizeFeatures o' k = Some n' -> n <= n').
Proof.
  pose proof (ranges_ordered k) as R.
  unfold normalizeFeatures. destruct (ranges k) as [mn mx] eqn:ER. simpl in R |- *.
  split; [split | split; [|split]].
  - destruct (o k); [discriminate | reflexivity].
  - intros E. rewrite E. reflexivity.
  - destruct (o k); [|discriminate]. intros v E. injection E as <-. apply clamp_unit.
  - intros v E [L U]. rewrite E. f_equal. apply clamp_unit_id. split.
    + apply Rle_mult_inv_pos; lra.
    + apply Rmult_le_reg_r with (mx - mn); [lra|].
      unfold Rdiv. rewrite Rmult_assoc, Rinv_l by lra. lra.
  - intros o' v v' n n' E E' L. rewrite E, E'.
    intros H H'. injection H as <-. injection H' as <-.
    apply clamp_unit_mono. apply Rmult_le_compat_r; [|lra].
    apply Rlt_le, Rinv_0_lt_compat. lra.
Qed.

(** X3: [euclideanDistance] is [Infinity] exactly when no key holds a number
    in both objects, and otherwise a number that is not negative; it is
    0 when the objects share such a key and agree on every one of
    them. *)
Theorem euclideanDistance_cases (f1 f2 : FeatureObj) :
  (euclideanDistance f1 f2 = Infinity <-> forall k, f1 k = None \/ f2 k = None) /\
  (forall d, euclideanDistance f1 f2 = Finite d -> 0 <= d) /\
  ((exists k, f1 k <> None /\ f2 k <> None) ->
   (forall k v1 v2, f1 k = Some v1 -> f2 k = Some v2 -> v1 = v2) ->
   euclideanDistance f1 f2 = Finite 0).
Proof.
  split; [|split].
  - unfold euclideanDistance.
    destruct (filter _ (object_keys f1)) as [|k0 ks] eqn:EK.
    + split; [|reflexivity]. intros _ k.
      destruct (f1 k) as [v1|] eqn:E1; [|auto]. destruct (f2 k) as [v2|] eqn:E2; [|auto].
      assert (I : In k []) by (rewrite <- EK; apply common_keys_In; eauto).
      destruct I.
    + split; [discriminate|]. intros H.
      assert (I : In k0 (k0 :: ks)) by (left; reflexivity).
      rewrite <- EK in I. apply common_keys_In in I. destruct I as (v1 & v2 & E1 & E2).
      destruct (H k0); congruence.
  - unfold euclideanDistance. destruct (filter _ (object_keys f1)); [discriminate|].
    intros d E. injection E as <-. apply sqrt_pos.
  - unfold euclideanDistance.
    destruct (filter _ (object_keys f1)) as [|k0 ks] eqn:EK.
    + intros (k & N1 & N2) _.
      destruct (f1 k) as [v1|] eqn:E1; [|congruence].
      destruct (f2 k) as [v2|] eqn:E2; [|congruence].
      assert (I : In k []) by (rewrite <- EK; apply common_keys_In; eauto).
      destruct I.
    + set (keys := k0 :: ks) in *.
      set (g := fun key => (num_at f1 key - num_at f2 key) * (num_at f1 key - num_at f2 key)).
      change (fold_left _ keys 0) with (fold_left (fun acc key => acc + g key) keys 0).
      intros _ H. f_equal.
      assert (ET : fold_left (fun acc key => acc + g key) keys 0 = 0).
      { apply fold_sum_all_zero. intros k I. rewrite <- EK in I.
        apply common_keys_In in I. destruct I as (v1 & v2 & E1 & E2).
        unfold g, num_at. rewrite E1, E2, (H k v1 v2 E1 E2). ring. }
      rewrite ET. apply sqrt_0.
Qed.

End VectorFacts3.

Module SimilarSongsFacts.
Import AudioAnalysis AudioVectors SimilarSongs VectorFacts VectorFacts2 VectorFacts3 TopFacts.

Lemma similarities_In (targetFeatures : FeatureObj) (targetSong : Song) (allSongs : list Song)
  (r : Similar) :
  In r (flat_map
          (fun song =>
             if String.eqb (id song) (id targetSong) then []
             else
               match audioFeatures song with
               | None => []
               | Some audio =>
                 [{| similar_song := song;
                     similarity := cosineSimilarity targetFeatures (normalizeFeatures audio) |}]
               end)
          allSongs) ->
  In (similar_song r) allSongs /\ id (similar_song r) <> id targetSong /\
  exists audio, audioFeatures (similar_song r) = Some audio /\
                similarity r = cosineSimilarity targetFeatures (normalizeFeatures audio).
Proof.
  rewrite in_flat_map. intros (song & Hs & H).
  destruct (String.eqb (id song) (id targetSong)) eqn:E; [destruct H|].
  destruct (audioFeatures song) as [audio|] eqn:EA; [|destruct H].
  destruct H as [<-|[]]. simpl. apply String.eqb_neq in E. eauto.
Qed.

Lemma similarities_length (targetFeatures : FeatureObj) (targetSong : Song) (allSongs : list Song) :
  List.length
    (flat_map
       (fun song =>
          if String.eqb (id song) (id targetSong) then []
          else
            match audioFeatures song with
            | None => []
            | Some audio =>
              [{| similar_song := song;
                  similarity := cosineSimilarity targetFeatures (normalizeFeatures audio) |}]
            end)
       allSongs) =
  List.length (filter (comparable targetSong) allSongs).
Proof.
  induction allSongs as [|song l IH]; simpl; [reflexivity|].
  rewrite length_app, IH. unfold comparable at 2.
  destruct (String.eqb (id song) (id targetSong)); simpl; [reflexivity|].
  destruct (audioFeatures song); reflexivity.
Qed.

Lemma similarities_complete (targetAudio : FeatureObj) (targetSong song : Song)
  (audio : FeatureObj) (allSongs : list Song) :
  In song allSongs -> comparable targetSong song = true -> audioFeatures song = Some audio ->
  In (compared targetAudio song audio)
     (flat_map
        (fun song =>
           if String.eqb (id song) (id targetSong) then []
           else
             match audioFeatures song with
             | None => []
             | Some audio =>
               [{| similar_song := song;
                   similarity := cosineSimilarity (normalizeFeatures targetAudio)
                                                  (normalizeFeatures audio) |}]
             end)
        allSongs).
Proof.
  intros I C E. apply in_flat_map. exists song. split; [exact I|].
  unfold comparable in C. apply andb_true_iff in C as [C _].
  apply negb_true_iff in C. rewrite C, E. left. reflexivity.
Qed.

Lemma findSimilarSongs_entries (targetSong : Song) (allSongs : list Song) (limit : nat)
  (r : Similar) :
  In r (findSimilarSongs targetSong allSongs limit) ->
  In (similar_song r) allSongs /\ id (similar_song r) <> id targetSong /\
  audioFeatures (similar_song r) <> None /\ 0 <= similarity r.
Proof.
  unfold findSimilarSongs. destruct (audioFeatures targetSong) as [targetAudio|]; [|intros []].
  intros Hr. apply firstn_subset in Hr. unfold sort_desc in Hr.
  apply MergeFacts.sort_by_In in Hr.
  apply similarities_In in Hr. destruct Hr as (Hin & Hid & audio & EA & ES).
  repeat split; try assumption; try congruence.
  rewrite ES. apply CompositeFacts.cosineSimilarity_nonneg;
    apply CompositeFacts.normalizeFeatures_nonneg.
Qed.

(** X4: [findSimilarSongs] answers with nothing for a target without audio
    features; otherwise with the [limit] best of the other songs that
    have audio features (all of them when they are fewer): never the
    target, no similarity negative, highest first, and no song left out
    is more similar than a song returned. *)
Theorem findSimilarSongs_sound (targetSong : Song) (allSongs : list Song) (limit : nat) :
  let found := findSimilarSongs targetSong allSongs limit in
  (audioFeatures targetSong = None -> found = []) /\
  (audioFeatures targetSong <> None ->
   List.length found =
   Nat.min limit (List.length (filter (comparable targetSong) allSongs))) /\
  Sorted (fun a b => similarity b <= similarity a) found /\
  Forall (fun r => In (similar_song r) allSongs /\
                   id (similar_song r) <> id targetSong /\
                   audioFeatures (similar_song r) <> None /\
                   0 <= similarity r) found /\
  (forall targetAudio song audio r,
     audioFeatures targetSong = Some targetAudio ->
     In song allSongs -> comparable targetSong song = true ->
     audioFeatures song = Some audio ->
     ~ In (compared targetAudio song audio) found ->
     In r found ->
     similarity (compared targetAudio song audio) <= similarity r).
Proof.
  cbv zeta. unfold findSimilarSongs.
  destruct (audioFeatures targetSong) as [targetAudio|] eqn:ET.
  - set (sims := flat_map _ allSongs).
    destruct (top_desc similarity limit sims) as (S & L & I & Best).
    split; [discriminate|]. split; [|split; [|split]].
    + intros _. rewrite L. unfold sims. rewrite similarities_length. reflexivity.
    + exact S.
    + apply Forall_forall. intros r Hr.
      destruct (findSimilarSongs_entries targetSong allSongs limit r) as (H1 & H2 & H3 & H4).
      { unfold findSimilarSongs. rewrite ET. exact Hr. }
      auto.
    + intros targetAudio' song audio r E Hin C EA Out Hr. injection E as <-.
      apply Best; [|exact Out | exact Hr].
      apply similarities_complete; assumption.
  - split; [reflexivity|]. split; [congruence|]. split; [constructor|].
    split; [constructor|]. intros; discriminate.
Qed.

End SimilarSongsFacts.

Module SignatureFacts.
Import AudioAnalysis AudioVectors VectorFacts3.

Lemma numbers_normalizeSlots (o : SlotObj) (k : Feature) :
  numbers (normalizeSlots o) k = normalizeFeatures (numbers o) k.
Proof.
  unfold numbers, normalizeSlots, normalizeFeatures.
  destruct (o k); try reflexivity. destruct (ranges k). reflexivity.
Qed.

Lemma unit_above (v t : R) : 0 <= t < 1 -> (t < Rmax 0 (Rmin 1 v) <-> t < v).
Proof. intros H. unfold Rmax, Rmin. repeat destruct (Rle_dec _ _); lra. Qed.

Lemma unit_below (v t : R) : 0 < t <= 1 -> (Rmax 0 (Rmin 1 v) < t <-> v < t).
Proof. intros H. unfold Rmax, Rmin. repeat destruct (Rle_dec _ _); lra. Qed.

(** A feature of range [0, 1] is dominant when its number exceeds 0.7. *)
Lemma dominant_iff (a : SlotObj) (f : Feature) :
  ranges f = (0, 1) ->
  (slot_gtb (normalizeSlots a f) 0.7 = true <-> exists v, a f = Number v /\ 0.7 < v).
Proof.
  intros ER. unfold normalizeSlots. destruct (a f) as [| |v] eqn:E; simpl.
  - split; [discriminate | intros (v & C & _); discriminate].
  - rewrite Rgtb_false by lra. split; [discriminate | intros (v & C & _); discriminate].
  - rewrite ER. simpl. rewrite Rgtb_spec.
    replace ((v - 0) / (1 - 0)) with v by field. rewrite unit_above by lra.
    split; [eauto|]. intros (v' & C & H). congruence.
Qed.

Lemma tempo_position (t : R) : (t - 50) / (200 - 50) = (t - 50) / 150.
Proof. f_equal. lra. Qed.

Lemma fast_iff (a : SlotObj) :
  slot_gtb (normalizeSlots a tempo) 0.8 = true <-> exists t, a tempo = Number t /\ 170 < t.
Proof.
  unfold normalizeSlots. destruct (a tempo) as [| |t] eqn:E; simpl.
  - split; [discriminate | intros (v & C & _); discriminate].
  - rewrite Rgtb_false by lra. split; [discriminate | intros (v & C & _); discriminate].
  - rewrite Rgtb_spec, unit_above by lra. rewrite tempo_position.
    split.
    + intros H. exists t. split; [reflexivity | lra].
    + intros (t' & C & H). injection C as <-. lra.
Qed.

Lemma slow_iff (a : SlotObj) :
  slot_ltb (normalizeSlots a tempo) 0.3 = true <->
  a tempo = Null \/ exists t, a tempo = Number t /\ t < 95.
Proof.
  unfold normalizeSlots. destruct (a tempo) as [| |t] eqn:E; simpl.
  - split; [discriminate | intros [C|(v & C & _)]; discriminate].
  - unfold Rltb. rewrite Rgtb_true by lra. split; auto.
  - unfold Rltb. rewrite Rgtb_spec, unit_below by lra. rewrite tempo_position.
    split.
    + intros H. right. exists t. split; [reflexivity | lra].
    + intros [C|(t' & C & H)]; [discriminate|]. injection C as <-. lra.
Qed.

(** X5: [generateAudioSignature] answers [null] without features; with
    features its [primary] and [secondary] stay empty, a feature among
    energy, danceability, valence, acousticness and speechiness gives its
    characteristic exactly when its number exceeds 0.7, and the
    signature carries one tempo class: fast above 170 BPM, slow below 95
    BPM or for a [null] tempo, medium otherwise (a missing tempo
    included). *)
Theorem generateAudioSignature_labels (a : SlotObj) :
  generateAudioSignature None = None /\
  exists sig,
    generateAudioSignature (Some a) = Some sig /\
    primary sig = [] /\ secondary sig = [] /\
    NoDup (characteristics sig) /\
    (forall f l, In (f, l) dominantLabels ->
       (In l (characteristics sig) <-> exists v, a f = Number v /\ 0.7 < v)) /\
    (In "fast-tempo" (characteristics sig) <-> exists t, a tempo = Number t /\ 170 < t) /\
    (In "slow-tempo" (characteristics sig) <->
       a tempo = Null \/ exists t, a tempo = Number t /\ t < 95) /\
    (In "medium-tempo" (characteristics sig) <->
       a tempo = Absent \/ exists t, a tempo = Number t /\ 95 <= t <= 170).
Proof.
  split; [reflexivity|]. eexists. split; [reflexivity|]. simpl.
  pose proof (dominant_iff a energy eq_refl) as H1.
  pose proof (dominant_iff a danceability eq_refl) as H2.
  pose proof (dominant_iff a valence eq_refl) as H3.
  pose proof (dominant_iff a acousticness eq_refl) as H4.
  pose proof (dominant_iff a speechiness eq_refl) as H5.
  pose proof (fast_iff a) as HF. pose proof (slow_iff a) as HS.
  assert (HM : slot_gtb (normalizeSlots a tempo) 0.8 = false /\
               slot_ltb (normalizeSlots a tempo) 0.3 = false <->
               a tempo = Absent \/ exists t, a tempo = Number t /\ 95 <= t <= 170).
  { destruct (slot_gtb (normalizeSlots a tempo) 0.8) eqn:EF;
      destruct (slot_ltb (normalizeSlots a tempo) 0.3) eqn:ES.
    - split; [intros [C _]; discriminate|].
      destruct HF as [HF _]. destruct (HF eq_refl) as (t & E & Ht).
      intros [C|(t' & C & Ht')]; [congruence|]. rewrite E in C. injection C as <-. lra.
    - split; [intros [C _]; discriminate|].
      destruct HF as [HF _]. destruct (HF eq_refl) as (t & E & Ht).
      intros [C|(t' & C & Ht')]; [congruence|]. rewrite E in C. injection C as <-. lra.
    - split; [intros [_ C]; discriminate|].
      destruct HS as [HS _]. destruct (HS eq_refl) as [E|(t & E & Ht)];
        intros [C|(t' & C & Ht')]; try congruence.
      rewrite E in C. injection C as <-. lra.
    - split; [|auto]. intros _.
      destruct (a tempo) as [| |t] eqn:E; [auto | |].
      + assert (C : false = true) by (apply HS; auto). discriminate C.
      + right. exists t. split; [reflexivity|].
        destruct (Rlt_le_dec 170 t) as [G|G].
        { assert (C : false = true) by (apply HF; eauto). discriminate C. }
        destruct (Rlt_le_dec t 95) as [L|L].
        { assert (C : false = true) by (apply HS; eauto). discriminate C. }
        lra. }
  rewrite <- HF, <- HS, <- HM.
  assert (HL : forall f l, In (f, l) dominantLabels ->
                 ((exists v, a f = Number v /\ 0.7 < v) <->
                  slot_gtb (normalizeSlots a f) 0.7 = true) /\
                 In l ["high-energy"; "danceable"; "positive"; "acoustic"; "vocal-heavy"]).
  { intros f l H. simpl in H.
    repeat (destruct H as [H|H]; [injection H as <- <-; split; [symmetry; assumption | simpl; tauto]|]).
    destruct H. }
  assert (NE : slot_gtb (normalizeSlots a tempo) 0.8 = true ->
               slot_ltb (normalizeSlots a tempo) 0.3 = false).
  { destruct (normalizeSlots a tempo) as [| |t]; simpl; try discriminate.
    - rewrite Rgtb_false by lra. discriminate.
    - rewrite Rgtb_spec. intros G. unfold Rltb. apply Rgtb_false. lra. }
  clear H1 H2 H3 H4 H5 HF HS HM.
  destruct (slot_gtb (normalizeSlots a energy) 0.7) eqn:B1;
  destruct (slot_gtb (normalizeSlots a danceability) 0.7) eqn:B2;
  destruct (slot_gtb (normalizeSlots a valence) 0.7) eqn:B3;
  destruct (slot_gtb (normalizeSlots a acousticness) 0.7) eqn:B4;
  destruct (slot_gtb (normalizeSlots a speechiness) 0.7) eqn:B5;
  destruct (slot_gtb (normalizeSlots a tempo) 0.8) eqn:BF;
  destruct (slot_ltb (normalizeSlots a tempo) 0.3) eqn:BS;
  try discriminate (NE eq_refl);
  (split; [reflexivity|]); (split; [reflexivity|]);
  (split; [simpl; repeat (constructor; [simpl; intuition discriminate|]); constructor|]);
  (split;
   [intros f l H; destruct (HL f l H) as [-> HI]; simpl in H;
    repeat (destruct H as [H|H]; [injection H as <- <-; rewrite ?B1, ?B2, ?B3, ?B4, ?B5;
                                  simpl; intuition discriminate|]);
    destruct H
   | simpl; intuition discriminate]).
Qed.

End SignatureFacts.

Module GenreProbabilityFacts.
Import AudioAnalysis AudioVectors VectorFacts VectorFacts2 VectorFacts3.

(** A vector that is 0 on every key it shares with another is at
    similarity 0 to it. *)
Lemma cosine_zero (f g : FeatureObj) :
  (forall k v w, f k = Some v -> g k = Some w -> v = 0) -> cosineSimilarity f g = 0.
Proof.
  intros H. unfold cosineSimilarity.
  destruct (filter _ (object_keys f)) as [|k0 ks] eqn:EK; [reflexivity|].
  rewrite (Reqb_true _ 0); [reflexivity|].
  apply (fold_sum_all_zero (fun key => num_at f key * num_at f key)).
  intros k I. rewrite <- EK in I. apply common_keys_In in I.
  destruct I as (v & w & Ef & Eg). unfold num_at. rewrite Ef, (H k v w Ef Eg). ring.
Qed.

Lemma genreModels_positive : Forall (fun e => positive_obj (snd e)) genreModels.
Proof.
  unfold genreModels. repeat constructor; intros k v; destruct k; simpl;
    intros E; try discriminate; injection E as <-; lra.
Qed.

Lemma genreModels_keys (e : string * FeatureObj) (k : Feature) :
  In e genreModels ->
  (snd e k <> None <-> In k [energy; danceability; valence; tempo; speechiness]).
Proof.
  unfold genreModels. simpl.
  intros [<-|[<-|[<-|[<-|[]]]]]; destruct k; simpl; split; intros H;
    try congruence; try tauto; try discriminate;
    repeat (destruct H as [H|H]; [discriminate|]); try destruct H.
Qed.

(** Dividing shares that are not negative by their total. *)
Lemma shares_normalised (ps : list (string * R)) :
  Forall (fun entry => 0 <= snd entry) ps ->
  let shares :=
    if Rgtb (total_of ps) 0
    then map (fun entry => (fst entry, snd entry / total_of ps)) ps
    else ps in
  map fst shares = map fst ps /\
  Forall (fun entry => 0 <= snd entry <= 1) shares /\
  (Forall (fun entry => snd entry = 0) ps ->
   Forall (fun entry => snd entry = 0) shares).
Proof.
  intros NN. cbv zeta. rewrite Forall_forall in NN.
  assert (T0 : 0 <= total_of ps) by (apply fold_sum_nonneg_on; intros; apply NN; assumption).
  assert (LE : forall e, In e ps -> snd e <= total_of ps).
  { unfold total_of. clear T0. induction ps as [|p ps IH]; simpl; [tauto|].
    rewrite fold_sum_shift. intros e [<-|I].
    - pose proof (fold_sum_nonneg_on (fun e : string * R => snd e) ps
                    (fun x Hx => NN x (or_intror Hx))). lra.
    - pose proof (NN p (or_introl eq_refl)).
      specialize (IH (fun x Hx => NN x (or_intror Hx)) e I). lra. }
  destruct (Rgtb (total_of ps) 0) eqn:ET.
  - apply Rgtb_spec in ET.
    split; [rewrite map_map; reflexivity|]. split.
    + apply Forall_forall. intros e I. apply in_map_iff in I.
      destruct I as (p & <- & Ip). cbn [snd].
      pose proof (NN p Ip). pose proof (LE p Ip). split.
      * apply Rle_mult_inv_pos; lra.
      * apply Rmult_le_reg_r with (total_of ps); [lra|].
        unfold Rdiv. rewrite Rmult_assoc, Rinv_l by lra. lra.
    + intros F. exfalso. rewrite Forall_forall in F.
      assert (total_of ps = 0) by (apply fold_sum_all_zero; exact F). lra.
  - split; [reflexivity|]. split; [|tauto].
    apply Forall_forall. intros p Ip. pose proof (NN p Ip). pose proof (LE p Ip).
    assert (Z : total_of ps = 0).
    { unfold Rgtb in ET. destruct (Rlt_dec 0 (total_of ps)); [discriminate | lra]. }
    lra.
Qed.

Lemma fst_inj {A} (l : list (string * A)) (e m : string * A) :
  NoDup (map fst l) -> In e l -> In m l -> fst e = fst m -> e = m.
Proof.
  induction l as [|x l IH]; simpl; intros N Ie Im E; [destruct Ie|].
  inversion N as [|? ? Hx N']; subst.
  destruct Ie as [<-|Ie], Im as [<-|Im]; [reflexivity | | |apply IH; assumption].
  - exfalso. apply Hx. rewrite E. apply in_map. exact Im.
  - exfalso. apply Hx. rewrite <- E. apply in_map. exact Ie.
Qed.

Lemma genreModels_names : NoDup (map fst genreModels).
Proof.
  simpl. repeat (constructor; [simpl; intuition discriminate|]). constructor.
Qed.

(** X6: [calculateGenreProbabilities] gives each of Trap, Hip-Hop, R&B and
    Pop a share within [0, 1]; the shares are all 0 when none of energy,
    danceability, valence, tempo and speechiness holds a number above
    the minimum of its range; and a genre whose model is at least as
    similar to the features as the model of another has a share at
    least as large. *)
Theorem calculateGenreProbabilities_shares (audioFeatures : FeatureObj) :
  let probabilities := calculateGenreProbabilities audioFeatures in
  let normalized := normalizeFeatures audioFeatures in
  map fst probabilities = ["Trap"; "Hip-Hop"; "R&B"; "Pop"] /\
  Forall (fun entry => 0 <= snd entry <= 1) probabilities /\
  ((forall k v, In k [energy; danceability; valence; tempo; speechiness] ->
                audioFeatures k = Some v -> v <= fst (ranges k)) ->
   Forall (fun entry => snd entry = 0) probabilities) /\
  (forall model1 model2 share1 share2,
     In model1 genreModels -> In model2 genreModels ->
     In (fst model1, share1) probabilities -> In (fst model2, share2) probabilities ->
     cosineSimilarity normalized (snd model1) <= cosineSimilarity normalized (snd model2) ->
     share1 <= share2).
Proof.
  cbv zeta. unfold calculateGenreProbabilities.
  set (normalized := normalizeFeatures audioFeatures).
  assert (NN : nonneg_obj normalized) by apply CompositeFacts.normalizeFeatures_nonneg.
  set (Q := forall k v, In k [energy; danceability; valence; tempo; speechiness] ->
                        audioFeatures k = Some v -> v <= fst (ranges k)).
  assert (Z : forall e, In e genreModels ->
                Q -> Rmax 0 (cosineSimilarity normalized (snd e)) = 0).
  { intros e I HQ.
    assert (PE : positive_obj (snd e)).
    { pose proof genreModels_positive as F. rewrite Forall_forall in F. apply F, I. }
    assert (C0 : 0 <= cosineSimilarity normalized (snd e)).
    { apply CompositeFacts.cosineSimilarity_nonneg; [exact NN|].
      intros k v E. apply Rlt_le, (PE k v E). }
    rewrite Rmax_right by exact C0. apply cosine_zero.
    intros k v w E Ew.
    assert (Ik : In k [energy; danceability; valence; tempo; speechiness]).
    { apply (genreModels_keys e k I). congruence. }
    unfold normalized, normalizeFeatures in E.
    destruct (audioFeatures k) as [x|] eqn:Ex; [|discriminate].
    specialize (HQ k x Ik Ex).
    pose proof (ranges_ordered k) as RO. destruct (ranges k) as [mn mx]. simpl in *.
    injection E as <-.
    assert ((x - mn) / (mx - mn) <= 0).
    { unfold Rdiv. rewrite <- (Rmult_0_l (/ (mx - mn))).
      apply Rmult_le_compat_r; [apply Rlt_le, Rinv_0_lt_compat|]; lra. }
    unfold Rmax, Rmin. repeat destruct (Rle_dec _ _); lra. }
  clearbody Q.
  set (ps := map (fun entry : string * FeatureObj =>
                    (fst entry, Rmax 0 (cosineSimilarity normalized (snd entry)))) genreModels).
  assert (NNps : Forall (fun entry : string * R => 0 <= snd entry) ps).
  { apply Forall_forall. intros p I. apply in_map_iff in I. destruct I as (e & <- & _).
    apply Rmax_l. }
  destruct (shares_normalised ps NNps) as (K & U & A).
  split; [rewrite K; unfold ps; rewrite map_map; reflexivity|].
  split; [exact U|]. split.
  - intros HQ. apply A. unfold ps. rewrite Forall_map. cbn [snd].
    apply Forall_forall. intros e I. apply (Z e I HQ).
  - intros model1 model2 share1 share2 I1 I2 H1 H2 Le.
    assert (Pick : forall model share (h : R -> R),
               In model genreModels ->
               In (fst model, share)
                  (map (fun entry : string * R => (fst entry, h (snd entry))) ps) ->
               share = h (Rmax 0 (cosineSimilarity normalized (snd model)))).
    { intros model share h I H. unfold ps in H. rewrite map_map in H. cbn [fst snd] in H.
      apply in_map_iff in H. destruct H as (e & E & Ie). injection E as En Es.
      rewrite (fst_inj genreModels e model genreModels_names Ie I En) in Es.
      symmetry. exact Es. }
    assert (Mono : Rmax 0 (cosineSimilarity normalized (snd model1)) <=
                   Rmax 0 (cosineSimilarity normalized (snd model2))).
    { unfold Rmax. repeat destruct (Rle_dec _ _); lra. }
    destruct (Rgtb (total_of ps) 0) eqn:ET.
    + apply Rgtb_spec in ET.
      rewrite (Pick model1 share1 (fun x => x / total_of ps) I1 H1).
      rewrite (Pick model2 share2 (fun x => x / total_of ps) I2 H2).
      apply Rmult_le_compat_r; [apply Rlt_le, Rinv_0_lt_compat; exact ET | exact Mono].
    + rewrite <- (map_id ps) in H1, H2.
      assert (E : map (fun x : string * R => x) ps =
                  map (fun entry : string * R => (fst entry, (fun v : R => v) (snd entry))) ps).
      { apply map_ext. intros [n v]. reflexivity. }
      rewrite E in H1, H2.
      rewrite (Pick model1 share1 (fun v => v) I1 H1).
      rewrite (Pick model2 share2 (fun v => v) I2 H2).
      exact Mono.
Qed.

End GenreProbabilityFacts.

Module ClusteringFacts.
Import AudioAnalysis AudioVectors.

Lemma push_at_length {A} (i : nat) (x : A) (clusters : list (list A)) :
  List.length (push_at i x clusters) = List.length clusters.
Proof.
  revert i. induction clusters as [|c rest IH]; intros [|i]; simpl; try reflexivity.
  rewrite IH. reflexivity.
Qed.

Lemma push_at_Permutation {A} (i : nat) (x : A) (clusters : list (list A)) :
  (i < List.length clusters)%nat ->
  Permutation (List.concat (push_at i x clusters)) (List.concat clusters ++ [x]).
Proof.
  revert i. induction clusters as [|c rest IH]; intros [|i] L; simpl in *; try lia.
  - rewrite <- !app_assoc. apply Permutation_app_head, Permutation_app_comm.
  - rewrite <- app_assoc. apply Permutation_app_head, IH. lia.
Qed.

Lemma closestCluster_lt (k : nat) (centroids : list FeatureObj) (features : FeatureObj) :
  (0 < k)%nat -> (closestCluster k centroids features < k)%nat.
Proof.
  intros K. unfold closestCluster.
  assert (G : forall (l : list nat) (best : Distance * nat),
             (snd best < k)%nat -> (forall j, In j l -> (j < k)%nat) ->
             (snd (fold_left
                     (fun best j =>
                        let distance :=
                          euclideanDistance features (nth j centroids empty_features) in
                        if dist_ltb distance (fst best) then (distance, j) else best)
                     l best) < k)%nat).
  { induction l as [|j l IH]; intros best B H; simpl; [exact B|].
    apply IH; [|intros; apply H; right; assumption].
    destruct (dist_ltb _ _); [simpl; apply H; left; reflexivity | exact B]. }
  apply G; [exact K|]. intros j I. apply in_seq in I. lia.
Qed.

Lemma assign_partition (k : nat) (items : list Item) (centroids : list FeatureObj) :
  (0 < k)%nat ->
  List.length (assign k items centroids) = k /\
  Permutation (List.concat (assign k items centroids)) items.
Proof.
  intros K. unfold assign.
  assert (G : forall (l : list Item) (clusters : list (list Item)),
             List.length clusters = k ->
             List.length
               (fold_left
                  (fun clusters item =>
                     push_at (closestCluster k centroids (snd item)) item clusters)
                  l clusters) = k /\
             Permutation
               (List.concat
                  (fold_left
                     (fun clusters item =>
                        push_at (closestCluster k centroids (snd item)) item clusters)
                     l clusters))
               (List.concat clusters ++ l)).
  { induction l as [|item l IH]; intros clusters L; simpl.
    - rewrite app_nil_r. auto.
    - destruct (IH (push_at (closestCluster k centroids (snd item)) item clusters)) as [L' P].
      { rewrite push_at_length. exact L. }
      split; [exact L'|]. rewrite P.
      rewrite push_at_Permutation by (rewrite L; apply closestCluster_lt; exact K).
      rewrite <- app_assoc. reflexivity. }
  destruct (G items (repeat [] k)) as [L P]; [apply repeat_length|].
  split; [exact L|]. rewrite P.
  replace (List.concat (repeat [] k)) with (@nil Item); [reflexivity|].
  clear. induction k; simpl; auto.
Qed.

Lemma iterate_assigns (remaining k : nat) (items : list Item)
  (centroids : list FeatureObj) (clusters : list (list Item)) :
  (0 < remaining)%nat ->
  exists centroids', snd (iterate remaining k items centroids clusters) =
                     assign k items centroids'.
Proof.
  revert centroids clusters. induction remaining as [|n IH]; intros centroids clusters R; [lia|].
  simpl. destruct (converged k centroids _).
  - exists centroids. reflexivity.
  - destruct n as [|n].
    + exists centroids. reflexivity.
    + apply IH. lia.
Qed.

Lemma describe_spec (centroids : list FeatureObj) (clusters : list (list Item)) :
  map cluster_id (describe centroids clusters) = seq 0 (List.length clusters) /\
  map cluster_songs (describe centroids clusters) = map (map fst) clusters /\
  Forall (fun c => size c = List.length (cluster_songs c)) (describe centroids clusters).
Proof.
  unfold describe.
  set (entry := fun e : nat * list Item =>
                  {| cluster_id := fst e; centroid := nth (fst e) centroids empty_features;
                     cluster_songs := map fst (snd e); size := List.length (snd e) |}).
  assert (G : forall (l : list (list Item)) (start : nat),
             map cluster_id (map entry (combine (seq start (List.length l)) l)) =
             seq start (List.length l) /\
             map cluster_songs (map entry (combine (seq start (List.length l)) l)) =
             map (map fst) l).
  { induction l as [|c l IH]; intros start; simpl; [auto|].
    destruct (IH (S start)) as [E1 E2]. rewrite E1, E2. auto. }
  destruct (G clusters 0%nat) as [E1 E2].
  split; [exact E1|]. split; [exact E2|].
  apply Forall_forall. intros c I. apply in_map_iff in I. destruct I as (e & <- & _).
  unfold entry. cbn [size cluster_songs]. rewrite length_map. reflexivity.
Qed.

Lemma combine_map_fst {A B} (f : A -> B) (l : list A) : map fst (combine l (map f l)) = l.
Proof. induction l as [|x l IH]; simpl; [|rewrite IH]; reflexivity. Qed.

(** X7: [kMeansClustering] answers with no cluster when there is no song,
    when [k] is 0 and when no iteration is allowed; otherwise with [k]
    clusters numbered from 0, each of the size of its list of songs, and
    every song in exactly one of them -- whatever the random choice of
    the first centroids. *)
Theorem kMeansClustering_partition
  (randomIndex : nat -> nat) (songs : list Song) (k maxIterations : nat) :
  let clusters := kMeansClustering randomIndex songs k maxIterations in
  (songs = [] \/ k = 0%nat \/ maxIterations = 0%nat -> clusters = []) /\
  (songs <> [] -> k <> 0%nat -> maxIterations <> 0%nat ->
   map cluster_id clusters = seq 0 k /\
   Forall (fun c => size c = List.length (cluster_songs c)) clusters /\
   Permutation (List.concat (map cluster_songs clusters)) songs).
Proof.
  cbv zeta. unfold kMeansClustering. split.
  - intros [-> | [-> | ->]]; [reflexivity | rewrite orb_true_r; reflexivity |].
    destruct (_ || _); reflexivity.
  - intros S K M.
    destruct songs as [|s0 songs']; [congruence|]. set (songs := s0 :: songs') in *.
    destruct k as [|k']; [congruence|]. set (k := Datatypes.S k') in *.
    change ((List.length songs =? 0)%nat || (k =? 0)%nat) with false. cbv iota.
    set (items := combine songs (map clusterFeatures songs)).
    set (centroids := map _ (seq 0 k)).
    destruct (iterate_assigns maxIterations k items centroids []) as [c' E]; [lia|].
    destruct (iterate maxIterations k items centroids []) as [final clusters].
    simpl in E. subst clusters.
    destruct (assign_partition k items c') as [L P]; [unfold k; lia|].
    destruct (describe_spec final (assign k items c')) as (D1 & D2 & D3).
    split; [rewrite D1, L; reflexivity|]. split; [exact D3|].
    rewrite D2, <- concat_map.
    rewrite P. unfold items. rewrite combine_map_fst. reflexivity.
Qed.

End ClusteringFacts.

Module ItemFacts.
Import AudioAnalysis AudioVectors SimilarSongs CollaborativeFiltering TopFacts SimilarSongsFacts.
Import EngineFacts MergeFacts.

Lemma findSimilarItems_down (userId : string) (limit : nat) (w : World) :
  up (database w) = false ->
  findSimilarItems userId limit w =
  (Ok [], said (Error "Error finding similar items:") (called CallFindSimilarItems w)).
Proof.
  intros D. unfold findSimilarItems, bind at 1, count_call.
  unfold try_catch, bind at 1, query. cbn [database]. rewrite D. reflexivity.
Qed.

Lemma findSimilarItems_up (userId : string) (limit : nat) (w : World) :
  up (database w) = true ->
  findSimilarItems userId limit w =
  match userSongsOf userId (database w) with
  | [] => (Ok [], called CallFindSimilarItems w)
  | userSongs =>
    (Ok (firstn limit
           (sort_desc score (map snd (itemScores userSongs (songTable (database w)))))),
     called CallFindSimilarSongs (called CallFindSimilarItems w))
  end.
Proof.
  intros U. unfold findSimilarItems, bind at 1, count_call.
  unfold try_catch, bind at 1, query. cbn [database]. rewrite U.
  destruct (userSongsOf userId (database w)) as [|us uss]; [reflexivity|].
  unfold bind, query, count_call, ret. cbn [database]. rewrite U. reflexivity.
Qed.

(** What every entry of the item scores is: a song of the table that the
    user has not, put there on behalf of a song of the user, at a score
    that is the weight of a song of the user times a similarity
    [findSimilarSongs] gives for it, not negative when no weight is. *)
Lemma itemScores_entries (userSongs : list UserSong) (allSongs : list Song)
  (k : string) (e : ItemRec) :
  In (k, e) (itemScores userSongs allSongs) ->
  In (item_song e) allSongs /\
  (forall us, In us userSongs -> id (us_song us) <> id (item_song e)) /\
  (exists us, In us userSongs /\ basedOn e = title (us_song us)) /\
  ((forall us, In us userSongs -> 0 <= getUserSongWeight us) -> 0 <= score e) /\
  (exists us sim,
     In us userSongs /\ In sim (findSimilarSongs (us_song us) allSongs 10) /\
     score e = similarity sim * getUserSongWeight us).
Proof.
  unfold itemScores.
  set (P := fun e : ItemRec =>
              In (item_song e) allSongs /\
              (forall us, In us userSongs -> id (us_song us) <> id (item_song e)) /\
              (exists us, In us userSongs /\ basedOn e = title (us_song us)) /\
              ((forall us, In us userSongs -> 0 <= getUserSongWeight us) -> 0 <= score e) /\
              (exists us sim,
                 In us userSongs /\ In sim (findSimilarSongs (us_song us) allSongs 10) /\
                 score e = similarity sim * getUserSongWeight us)).
  assert (G : forall (l : list UserSong) c,
            (forall us, In us l -> In us userSongs) ->
            (forall k e, In (k, e) c -> P e) ->
            forall k e,
            In (k, e)
              (fold_left
                 (fun recommendations userSong =>
                    fold_left
                      (fun recommendations similarSong =>
                         if existsb (fun us => String.eqb (id (us_song us))
                                                          (id (similar_song similarSong)))
                                    userSongs
                         then recommendations
                         else
                           let newScore := similarity similarSong * getUserSongWeight userSong in
                           upsert (id (similar_song similarSong))
                                  (fun existingScore =>
                                     {| item_song := similar_song similarSong;
                                        score :=
                                          match existingScore with
                                          | Some e => Rmax (score e) newScore
                                          | None => newScore
                                          end;
                                        basedOn := title (us_song userSong) |})
                                  recommendations)
                      (findSimilarSongs (us_song userSong) allSongs 10)
                      recommendations)
                 l c) -> P e).
  { induction l as [|us l IH]; intros c Sub Inv; simpl; [exact Inv|].
    apply IH; [intros; apply Sub; right; assumption|]. clear IH.
    assert (Hus : In us userSongs) by (apply Sub; left; reflexivity).
    assert (Found : forall r, In r (findSimilarSongs (us_song us) allSongs 10) ->
                              In r (findSimilarSongs (us_song us) allSongs 10)) by auto.
    revert Found.
    generalize (findSimilarSongs (us_song us) allSongs 10) at 1 3. intros sims Found.
    assert (FE : forall r, In r sims ->
                   In (similar_song r) allSongs /\ id (similar_song r) <> id (us_song us) /\
                   audioFeatures (similar_song r) <> None /\ 0 <= similarity r).
    { intros r Hr. apply (findSimilarSongs_entries (us_song us) allSongs 10), Found, Hr. }
    revert c Inv. induction sims as [|sm sims IHs]; intros c Inv; simpl; [exact Inv|].
    apply IHs; [intros r Hr; apply Found; right; exact Hr
               |intros r Hr; apply FE; right; exact Hr|].
    destruct (existsb _ userSongs) eqn:EX; [exact Inv|].
    destruct (FE sm (or_introl eq_refl)) as (Hin & _ & _ & S0).
    intros k' e' H. apply upsert_In in H.
    destruct H as [H | [-> ->]]; [eapply Inv; exact H|].
    unfold P. cbn [item_song basedOn score].
    split; [|split; [|split; [|split]]].
    - exact Hin.
    - intros us' Hus' E.
      assert (existsb (fun us0 => String.eqb (id (us_song us0)) (id (similar_song sm)))
                      userSongs = true).
      { apply existsb_exists. exists us'. split; [exact Hus'|]. apply String.eqb_eq. exact E. }
      congruence.
    - exists us. auto.
    - intros W.
      assert (NS : 0 <= similarity sm * getUserSongWeight us)
        by (apply Rmult_le_pos; [exact S0 | apply W, Hus]).
      destruct (lookup (id (similar_song sm)) c) as [o|] eqn:L; [|exact NS].
      apply lookup_In in L. destruct (Inv _ _ L) as (_ & _ & _ & O & _).
      specialize (O W). unfold Rmax. destruct (Rle_dec _ _); lra.
    - assert (New : exists us0 sim,
                 In us0 userSongs /\ In sim (findSimilarSongs (us_song us0) allSongs 10) /\
                 similarity sm * getUserSongWeight us = similarity sim * getUserSongWeight us0).
      { exists us, sm. split; [exact Hus|]. split; [|reflexivity].
        apply Found. left. reflexivity. }
      destruct (lookup (id (similar_song sm)) c) as [o|] eqn:L; [|exact New].
      apply lookup_In in L. destruct (Inv _ _ L) as (_ & _ & _ & _ & Old).
      unfold Rmax. destruct (Rle_dec _ _); [exact New | exact Old]. }
  apply G; [auto | intros ? ? []].
Qed.

(** X8: [findSimilarItems] never throws and changes neither the database nor
    the models; it answers with at most [limit] entries, highest score
    first, no song twice; every entry is a song of the table that is
    none of the user's own songs, based on one of them; with the
    database down the answer is empty and the error is logged. *)
Theorem findSimilarItems_sound (userId : string) (limit : nat) (w : World) :
  exists recs w',
    findSimilarItems userId limit w = (Ok recs, w') /\
    database w' = database w /\ predictor w' = predictor w /\
    (List.length recs <= limit)%nat /\
    Sorted (fun a b => score b <= score a) recs /\
    NoDup (map HybridRecommendationEngine.item_id recs) /\
    Forall (fun r =>
              In (item_song r) (songTable (database w)) /\
              (forall us, In us (userSongsOf userId (database w)) ->
                          id (us_song us) <> HybridRecommendationEngine.item_id r) /\
              exists us, In us (userSongsOf userId (database w)) /\
                         basedOn r = title (us_song us)) recs /\
    (up (database w) = false ->
     recs = [] /\ console w' = console w ++ [Error "Error finding similar items:"]).
Proof.
  destruct (up (database w)) eqn:U.
  - rewrite (findSimilarItems_up userId limit w U).
    destruct (userSongsOf userId (database w)) as [|us uss] eqn:EU.
    + exists [], (called CallFindSimilarItems w). simpl.
      repeat split; try constructor; try discriminate. lia.
    + set (userSongs := us :: uss) in *.
      set (scores := itemScores userSongs (songTable (database w))).
      destruct (top_desc score limit (map snd scores)) as (S & L & I & _).
      eexists. eexists. split; [reflexivity|].
      split; [reflexivity|]. split; [reflexivity|].
      split; [rewrite L; apply Nat.le_min_l|]. split; [exact S|].
      split.
      { eapply findSimilarItems_NoDup. rewrite (findSimilarItems_up userId limit w U), EU.
        reflexivity. }
      split; [|discriminate].
      apply Forall_forall. intros r Hr. apply I in Hr.
      apply in_map_iff in Hr. destruct Hr as ([k e] & <- & He). cbn [snd].
      destruct (itemScores_entries userSongs (songTable (database w)) k e He)
        as (H1 & H2 & H3 & _).
      auto.
  - rewrite (findSimilarItems_down userId limit w U).
    eexists. eexists. split; [reflexivity|]. simpl.
    repeat split; try constructor. lia.
Qed.

(** Every song of such a user weighs between 1 and 4. *)
Lemma getUserSongWeight_bounds (userId : string) (db : Database) (us : UserSong) :
  plain_history userId db -> In us (userSongsOf userId db) ->
  1 <= getUserSongWeight us <= 4.
Proof.
  intros (HI & HR) H. unfold userSongsOf in H.
  rewrite Forall_forall in HI, HR.
  apply in_app_or in H. destruct H as [H|H]; [|apply in_app_or in H; destruct H as [H|H]].
  - apply in_map_iff in H. destruct H as (i & <- & Hi).
    destruct (HI i Hi) as [P T]. unfold getUserSongWeight. simpl.
    assert (0 <= Rmin (playCount i / 5) 2 <= 2).
    { unfold Rmin. destruct (Rle_dec _ _); lra. }
    assert (0 <= Rmin (totalTime i / 180) 1 <= 1).
    { unfold Rmin. destruct (Rle_dec _ _); lra. }
    lra.
  - apply in_map_iff in H. destruct H as (l & <- & _).
    unfold getUserSongWeight. simpl. lra.
  - apply in_map_iff in H. destruct H as (r & <- & Hr).
    unfold highRatingsOf in Hr. apply filter_In in Hr. destruct Hr as [Hr G].
    apply Rgeb_spec in G. specialize (HR r Hr).
    unfold getUserSongWeight. simpl.
    rewrite Reqb_false by lra. lra.
Qed.

(** X9: for a user whose play counts and listening times are not negative
    and whose ratings go up to 5, each of the user's songs weighs between
    1 and 4, and every score [findSimilarItems] gives is not negative
    and is the product of the weight of one of the user's songs and a
    similarity that [findSimilarSongs] gives for this song. *)
Theorem findSimilarItems_scores (userId : string) (limit : nat) (w w' : World)
  (recs : list ItemRec) :
  plain_history userId (database w) ->
  findSimilarItems userId limit w = (Ok recs, w') ->
  (forall us, In us (userSongsOf userId (database w)) -> 1 <= getUserSongWeight us <= 4) /\
  Forall (fun r =>
            0 <= score r /\
            exists us sim,
              In us (userSongsOf userId (database w)) /\
              In sim (findSimilarSongs (us_song us) (songTable (database w)) 10) /\
              score r = similarity sim * getUserSongWeight us) recs.
Proof.
  intros PH E. split; [intros us; apply getUserSongWeight_bounds; exact PH|].
  revert E. destruct (up (database w)) eqn:U.
  - rewrite (findSimilarItems_up userId limit w U).
    destruct (userSongsOf userId (database w)) as [|us uss] eqn:EU.
    + intros E. injection E as <- _. constructor.
    + intros E. injection E as <- _.
      apply Forall_forall. intros r Hr. apply firstn_subset in Hr.
      unfold sort_desc in Hr. apply sort_by_In in Hr.
      apply in_map_iff in Hr. destruct Hr as ([k e] & <- & He). cbn [snd].
      destruct (itemScores_entries _ _ k e He) as (_ & _ & _ & B & Product).
      split; [|exact Product].
      apply B. intros us' Hus'. rewrite <- EU in Hus'.
      pose proof (getUserSongWeight_bounds userId (database w) us' PH Hus'). lra.
  - rewrite (findSimilarItems_down userId limit w U).
    intros E. injection E as <- _. constructor.
Qed.

End ItemFacts.

Module ProfileFacts.
Import AudioAnalysis UserProfiles TopFacts VectorFacts2 EngineFacts.





Lemma userMatches_In (userProfile : Profile) (users : list string) (db : Database)
  (m : SimilarUser) :
  In m (userMatches userProfile users db) ->
  In (su_user m) users /\ 0.1 < su_similarity m /\
  su_profile m = createUserProfile (ratingsOf (su_user m) db) (interactionsOf (su_user m) db) /\
  su_similarity m = calculateUserSimilarity userProfile (su_profile m).
Proof.
  unfold userMatches. rewrite in_flat_map. intros (u & Hu & H).
  destruct (Rgtb _ 0.1) eqn:E; [|destruct H]. destruct H as [<-|[]]. simpl.
  apply Rgtb_spec in E. repeat split; assumption.
Qed.

Lemma findSimilarUsers_down (userTable : list string) (userId : string) (limit : nat)
  (w : World) :
  up (database w) = false ->
  findSimilarUsers userTable userId limit w =
  (Ok [], said (Error "Error finding similar users:") w).
Proof.
  intros D. unfold findSimilarUsers, try_catch, bind at 1, query. rewrite D. reflexivity.
Qed.

Lemma findSimilarUsers_up (userTable : list string) (userId : string) (limit : nat)
  (w : World) :
  up (database w) = true ->
  findSimilarUsers userTable userId limit w =
  (Ok (if (List.length (ratingsOf userId (database w)) =? 0)%nat &&
          (List.length (interactionsOf userId (database w)) =? 0)%nat
       then []
       else firstn limit
              (sort_desc su_similarity
                 (userMatches
                    (createUserProfile (ratingsOf userId (database w))
                                       (interactionsOf userId (database w)))
                    (otherRaters userTable userId (database w)) (database w)))),
   w).
Proof.
  intros U. unfold findSimilarUsers, try_catch, bind, query, ret.
  rewrite U. cbv iota beta. rewrite U. cbv iota beta.
  destruct (_ && _); [reflexivity|]. rewrite U. reflexivity.
Qed.

(** X11: [findSimilarUsers] never throws and leaves database and models as
    they are; it answers with at most [limit] users, most similar first:
    never the user, only users of the table who have rated something,
    each at a similarity above 0.1; with neither rating nor interaction
    of the user, and with the database down, the answer is empty. *)
Theorem findSimilarUsers_sound (userTable : list string) (userId : string) (limit : nat)
  (w : World) :
  exists users w',
    findSimilarUsers userTable userId limit w = (Ok users, w') /\
    database w' = database w /\ predictor w' = predictor w /\ calls w' = calls w /\
    (List.length users <= limit)%nat /\
    Sorted (fun a b => su_similarity b <= su_similarity a) users /\
    Forall (fun m => su_user m <> userId /\ In (su_user m) userTable /\
                     ratingsOf (su_user m) (database w) <> [] /\
                     0.1 < su_similarity m) users /\
    (ratingsOf userId (database w) = [] -> interactionsOf userId (database w) = [] ->
     users = []) /\
    (up (database w) = false ->
     users = [] /\ console w' = console w ++ [Error "Error finding similar users:"]).
Proof.
  destruct (up (database w)) eqn:U.
  - rewrite (findSimilarUsers_up userTable userId limit w U).
    eexists. eexists. split; [reflexivity|].
    split; [reflexivity|]. split; [reflexivity|]. split; [reflexivity|].
    destruct (_ && _) eqn:E.
    + simpl. repeat split; try constructor; try discriminate. lia.
    + set (matches := userMatches _ _ _).
      destruct (top_desc su_similarity limit matches) as (S & L & I & _).
      split; [rewrite L; apply Nat.le_min_l|]. split; [exact S|]. split; [|split].
      * apply Forall_forall. intros m Hm. apply I in Hm.
        apply userMatches_In in Hm. destruct Hm as (Hu & B & _).
        unfold otherRaters in Hu. apply filter_In in Hu. destruct Hu as [Hu F].
        apply andb_true_iff in F as [F1 F2].
        apply negb_true_iff in F1, F2. apply String.eqb_neq in F1.
        apply Nat.eqb_neq in F2.
        repeat split; try assumption; try lra.
        intros C. rewrite C in F2. apply F2. reflexivity.
      * intros R0 I0. rewrite R0, I0 in E. discriminate.
      * discriminate.
  - rewrite (findSimilarUsers_down userTable userId limit w U).
    eexists. eexists. split; [reflexivity|]. simpl.
    repeat split; try constructor. lia.
Qed.

End ProfileFacts.

Module FactorFacts.
Import Factors.

Lemma at_index_cons (x : num) (row : list num) (i : nat) :
  at_index (x :: row) (S i) = at_index row i.
Proof. reflexivity. Qed.

Lemma fold_rows_shift (x y : num) (u v : list num) (n s : nat) (acc : num) :
  fold_left
    (fun prediction i => nadd prediction (nmul (at_index (x :: u) i) (at_index (y :: v) i)))
    (seq (S s) n) acc =
  fold_left
    (fun prediction i => nadd prediction (nmul (at_index u i) (at_index v i)))
    (seq s n) acc.
Proof.
  revert s acc. induction n as [|n IH]; intros s acc; simpl; [reflexivity|].
  rewrite IH. reflexivity.
Qed.

Lemma fold_rows_NaN (u v : list num) (l : list nat) :
  fold_left
    (fun prediction i => nadd prediction (nmul (at_index u i) (at_index v i))) l NaN = NaN.
Proof. induction l as [|i l IH]; simpl; [reflexivity | exact IH]. Qed.

(** The sum of the loop over two rows of numbers, the second at least as
    long as the first. *)
Lemma fold_rows_Num (u v : list R) (acc : R) :
  (List.length u <= List.length v)%nat ->
  fold_left
    (fun prediction i =>
       nadd prediction (nmul (at_index (map Num u) i) (at_index (map Num v) i)))
    (seq 0 (List.length u)) (Num acc) =
  Num (fold_left (fun sum p => sum + fst p * snd p) (combine u v) acc).
Proof.
  revert v acc. induction u as [|x u IH]; intros v acc L; simpl; [reflexivity|].
  destruct v as [|y v]; simpl in L; [lia|].
  cbn [map]. rewrite fold_rows_shift. cbn [at_index nth nmul nadd nlift2 combine fold_left fst snd].
  apply IH. lia.
Qed.

Lemma fold_rows_short (u v : list R) (acc : num) :
  (List.length v < List.length u)%nat ->
  fold_left
    (fun prediction i =>
       nadd prediction (nmul (at_index (map Num u) i) (at_index (map Num v) i)))
    (seq 0 (List.length u)) acc = NaN.
Proof.
  revert v acc. induction u as [|x u IH]; intros v acc L; [simpl in L; lia|].
  cbn [Datatypes.length seq fold_left].
  destruct v as [|y v].
  - assert (E : nadd acc (nmul (at_index (map Num (x :: u)) 0) (at_index (map Num []) 0)) = NaN)
      by (destruct acc; reflexivity).
    rewrite E. apply fold_rows_NaN.
  - cbn [map]. rewrite fold_rows_shift. apply IH. simpl in L. lia.
Qed.

Lemma products_sym (u v : list R) (acc : R) :
  fold_left (fun sum p => sum + fst p * snd p) (combine u v) acc =
  fold_left (fun sum p => sum + fst p * snd p) (combine v u) acc.
Proof.
  revert v acc. induction u as [|x u IH]; intros [|y v] acc; simpl; try reflexivity.
  rewrite IH. f_equal. ring.
Qed.

(** X12: on rows of numbers, [predictRating] is a number within [0, 1] when
    the item row is at least as long as the user row, and [NaN] when it
    is shorter; on rows of the same length the order of the two rows does
    not matter. *)
Theorem predictRating_range (userFactors itemFactors : list R) :
  ((List.length userFactors <= List.length itemFactors)%nat ->
   exists r, predictRating (map Num userFactors) (map Num itemFactors) = Num r /\
             0 <= r <= 1) /\
  ((List.length itemFactors < List.length userFactors)%nat ->
   predictRating (map Num userFactors) (map Num itemFactors) = NaN) /\
  (List.length userFactors = List.length itemFactors ->
   predictRating (map Num userFactors) (map Num itemFactors) =
   predictRating (map Num itemFactors) (map Num userFactors)).
Proof.
  unfold predictRating. rewrite !length_map. split; [|split].
  - intros L. rewrite fold_rows_Num by exact L. rewrite clamp01_Num.
    eexists. split; [reflexivity|].
    unfold Rmax, Rmin. repeat destruct (Rle_dec _ _); lra.
  - intros L. rewrite fold_rows_short by exact L. reflexivity.
  - intros E. rewrite !fold_rows_Num by lia. rewrite products_sym. reflexivity.
Qed.

End FactorFacts.

Module RangeFacts.
Import AudioAnalysis ContentBasedFiltering VectorFacts2 VectorFacts3.

Lemma overlapScore_NaN (l1 l2 : list Name) :
  overlapScore l1 l2 = NaN <-> l1 = [] /\ l2 = [].
Proof.
  unfold overlapScore. destruct l1 as [|a l1], l2 as [|b l2]; simpl;
    split; try discriminate; try tauto; intros [? ?]; discriminate.
Qed.

Lemma overlapScore_cases (l1 l2 : list Name) :
  (l1 = [] /\ l2 = [] /\ overlapScore l1 l2 = NaN) \/
  (exists r, overlapScore l1 l2 = Num r /\ (l1 <> [] \/ l2 <> [])).
Proof.
  unfold overlapScore. destruct l1 as [|a l1], l2 as [|b l2]; simpl;
    try (left; auto; fail); right; eexists; (split; [reflexivity|]);
    [right | left | left]; discriminate.
Qed.

Lemma clamp01_range (t : num) (x : R) : clamp01 t = Num x -> 0 <= x <= 1.
Proof.
  destruct t as [r|]; [|discriminate]. rewrite clamp01_Num.
  intros E. injection E as <-. apply clamp_unit.
Qed.

Lemma clamp01_NaN (t : num) : clamp01 t = NaN <-> t = NaN.
Proof. destruct t; simpl; split; (discriminate || reflexivity). Qed.

Lemma nadd_NaN (a b : num) : nadd a b = NaN <-> a = NaN \/ b = NaN.
Proof. destruct a, b; simpl; split; try discriminate; try tauto; intros [?|?]; discriminate. Qed.

Lemma nmul_Num_NaN (a : num) (r : R) : nmul a (Num r) = NaN <-> a = NaN.
Proof. destruct a; simpl; split; (discriminate || reflexivity). Qed.

Lemma overlap_term_NaN (tags1 tags2 : option (list Name)) (t : num) (wt : R) :
  match tags1, tags2 with
  | Some names1, Some names2 => nadd t (nmul (overlapScore names1 names2) (Num wt))
  | _, _ => t
  end = NaN <-> t = NaN \/ both_empty tags1 tags2.
Proof.
  unfold both_empty.
  destruct tags1 as [l1|], tags2 as [l2|];
    try (split; [auto | intros [?|[? ?]]; [assumption | discriminate]]).
  rewrite nadd_NaN, nmul_Num_NaN, overlapScore_NaN. split.
  - intros [?|[-> ->]]; auto.
  - intros [?|[E1 E2]]; [auto|]. injection E1 as ->. injection E2 as ->. auto.
Qed.

Lemma calculateAdvancedSimilarity_NaN (song1 song2 : Song) (weights : WeightOverrides) :
  calculateAdvancedSimilarity song1 song2 weights = NaN <->
  both_empty (genres song1) (genres song2) \/ both_empty (moods song1) (moods song2).
Proof.
  unfold calculateAdvancedSimilarity. rewrite clamp01_NaN. unfold advancedTotal.
  rewrite nadd_NaN.
  rewrite (overlap_term_NaN (moods song1) (moods song2)).
  rewrite (overlap_term_NaN (genres song1) (genres song2)).
  split.
  - intros [[[H|H]|H]|H]; auto; [|discriminate].
    destruct (audioFeatures song1), (audioFeatures song2); discriminate.
  - intros [H|H]; auto.
Qed.

(** X13: [calculateAdvancedSimilarity] is [NaN] exactly when both songs carry
    an empty genre array or both carry an empty mood array (the overlap
    is then 0 / 0); in every other case it is a number within [0, 1]. *)
Theorem calculateAdvancedSimilarity_range (song1 song2 : Song) (weights : WeightOverrides) :
  (calculateAdvancedSimilarity song1 song2 weights = NaN <->
   both_empty (genres song1) (genres song2) \/ both_empty (moods song1) (moods song2)) /\
  (forall x, calculateAdvancedSimilarity song1 song2 weights = Num x -> 0 <= x <= 1).
Proof.
  split; [apply calculateAdvancedSimilarity_NaN | intros x; apply clamp01_range].
Qed.

Lemma accumulate_Num (t w : R) (c : Contribution) (x : R) :
  fst c = Num x -> accumulate (Num t, w) c = (Num (t + x), w + snd c).
Proof. intros E. unfold accumulate. simpl. rewrite E. reflexivity. Qed.

Lemma tail_contributions (s1 s2 : Song) :
  exists g m, fst (genreContribution s1 s2) = Num g /\ 0 <= snd (genreContribution s1 s2) /\
              fst (moodContribution s1 s2) = Num m /\ 0 <= snd (moodContribution s1 s2).
Proof.
  unfold genreContribution, moodContribution, skipped, wGenre, wMood.
  destruct (hasGenres s1 && hasGenres s2), (hasGenres s1 || hasGenres s2),
           (hasMoods s1 && hasMoods s2), (hasMoods s1 || hasMoods s2);
    simpl; do 2 eexists; repeat split; lra.
Qed.

Lemma audio_contribution_cases (s1 s2 : Song) :
  0 <= snd (audioContribution s1 s2) /\
  ((exists a, fst (audioContribution s1 s2) = Num a) \/
   (fst (audioContribution s1 s2) = NaN /\
    hasAudioFeatures s1 = true /\ hasAudioFeatures s2 = true /\
    calculateAdvancedSimilarity s1 s2 no_overrides = NaN)) /\
  (hasAudioFeatures s1 = true -> hasAudioFeatures s2 = true ->
   calculateAdvancedSimilarity s1 s2 no_overrides = NaN ->
   fst (audioContribution s1 s2) = NaN).
Proof.
  unfold audioContribution, skipped, wAudio.
  destruct (hasAudioFeatures s1), (hasAudioFeatures s2); simpl;
    try (split; [lra|]; split; [left; eexists; reflexivity | intros; discriminate]).
  split; [lra|].
  destruct (calculateAdvancedSimilarity s1 s2 no_overrides) as [r|] eqn:E; simpl.
  - split; [left; eexists; reflexivity | intros; discriminate].
  - split; [right; auto | auto].
Qed.

Lemma enhanced_cases (song1 song2 : Song) :
  (calculateEnhancedSimilarity song1 song2 = NaN <->
   hasAudioFeatures song1 = true /\ hasAudioFeatures song2 = true /\
   (both_empty (genres song1) (genres song2) \/ both_empty (moods song1) (moods song2))) /\
  (forall x, calculateEnhancedSimilarity song1 song2 = Num x -> 0 <= x <= 1).
Proof.
  rewrite <- (calculateAdvancedSimilarity_NaN song1 song2 no_overrides).
  unfold calculateEnhancedSimilarity.
  destruct (tail_contributions song1 song2) as (g & m & Eg & Wg & Em & Wm).
  destruct (audio_contribution_cases song1 song2) as (Wa & Ca & Na).
  unfold artistContribution, popularityContribution, wArtist, wPopularity.
  destruct (audioContribution song1 song2) as [at_ wa].
  destruct (genreContribution song1 song2) as [gt wg].
  destruct (moodContribution song1 song2) as [mt wm].
  cbn [fst snd] in *. subst gt mt.
  unfold accumulate. cbn [fst snd].
  assert (P : Rgtb (0 + wa + wg + wm + 0.1 + 0.1) 0 = true) by (apply Rgtb_true; lra).
  destruct Ca as [[a ->] | (-> & H1 & H2 & HN)].
  - cbn [nadd nlift2]. rewrite P. cbn [ndiv_pos]. split.
    + split; [rewrite clamp01_Num; discriminate|].
      intros (H1 & H2 & HN). specialize (Na H1 H2 HN). discriminate.
    + intros x. apply clamp01_range.
  - cbn [nadd nlift2]. rewrite P. cbn [ndiv_pos clamp01 math_max math_min nlift2]. split.
    + split; auto.
    + intros x C. discriminate.
Qed.

(** X14: [calculateEnhancedSimilarity] of the content-based filter is [NaN]
    exactly when both songs have audio features and both carry an empty
    genre array or both an empty mood array; in every other case it is
    a number within [0, 1]. *)
Theorem calculateEnhancedSimilarity_range (song1 song2 : Song) :
  (calculateEnhancedSimilarity song1 song2 = NaN <->
   hasAudioFeatures song1 = true /\ hasAudioFeatures song2 = true /\
   (both_empty (genres song1) (genres song2) \/ both_empty (moods song1) (moods song2))) /\
  (forall x, calculateEnhancedSimilarity song1 song2 = Num x -> 0 <= x <= 1).
Proof. apply enhanced_cases. Qed.

End RangeFacts.

Module ContentFacts.
Import AudioAnalysis ContentBasedFiltering TopFacts RangeFacts EngineFacts MergeFacts.

(** The weighted mean of [calculateContentSimilarity] under weights that
    are not negative. *)
Lemma calculateContentSimilarity_unit (userPreferences : list Preference) (song : Song) (x : R) :
  Forall (fun p => 0 <= getPreferenceWeight p) userPreferences ->
  calculateContentSimilarity userPreferences song = Num x -> 0 <= x <= 1.
Proof.
  intros W. unfold calculateContentSimilarity.
  assert (G : forall (l : list Preference) (acc : num * R),
             Forall (fun p => 0 <= getPreferenceWeight p) l ->
             (fst acc = NaN \/ exists t, fst acc = Num t /\ 0 <= t <= snd acc) ->
             let res :=
               fold_left
                 (fun acc preference =>
                    let similarity := calculateEnhancedSimilarity (pref_song preference) song in
                    let weight := getPreferenceWeight preference in
                    (nadd (fst acc) (nmul similarity (Num weight)), snd acc + weight))
                 l acc in
             fst res = NaN \/ exists t, fst res = Num t /\ 0 <= t <= snd res).
  { induction l as [|p l IH]; intros acc F Inv; simpl; [exact Inv|].
    inversion F as [|? ? Wp F']; subst. apply IH; [exact F'|]. cbn [fst snd].
    destruct Inv as [->|(t & -> & T0 & T1)]; [left; reflexivity|].
    destruct (calculateEnhancedSimilarity (pref_song p) song) as [s|] eqn:ES;
      [|left; reflexivity].
    destruct (enhanced_cases (pref_song p) song) as [_ B]. specialize (B s ES).
    right. eexists. split; [reflexivity|]. nra. }
  specialize (G userPreferences (Num 0, 0) W). cbv zeta in G.
  destruct (fold_left _ userPreferences (Num 0, 0)) as [total weightSum].
  cbn [fst snd] in G.
  destruct (Rgtb weightSum 0) eqn:P.
  - apply Rgtb_spec in P.
    destruct G as [->|(t & -> & T0 & T1)]; [right; eexists; split; [reflexivity|]; lra | discriminate |].
    cbn [ndiv_pos]. intros E. injection E as <-. split.
    + apply Rle_mult_inv_pos; lra.
    + apply Rmult_le_reg_r with weightSum; [lra|].
      unfold Rdiv. rewrite Rmult_assoc, Rinv_l by lra. lra.
  - intros E. injection E as <-. lra.
Qed.

Lemma contentMatches_In (userPreferences : list Preference) (allSongs : list Song)
  (r : ContentRec) :
  In r (contentMatches userPreferences allSongs) ->
  In (rec_song r) allSongs /\
  (forall pref, In pref userPreferences -> id (pref_song pref) <> id (rec_song r)) /\
  calculateContentSimilarity userPreferences (rec_song r) = Num (rec_similarity r) /\
  0.3 < rec_similarity r /\ reason r = "Content-based match".
Proof.
  unfold contentMatches. rewrite in_flat_map. intros (song & Hs & H).
  destruct (existsb _ userPreferences) eqn:EX; [destruct H|].
  destruct (calculateContentSimilarity userPreferences song) as [similarity|] eqn:ES;
    [|destruct H].
  destruct (Rgtb similarity 0.3) eqn:G; [|destruct H].
  destruct H as [<-|[]]. cbn [rec_song rec_similarity reason].
  apply Rgtb_spec in G. repeat split; try assumption.
  intros pref Hp E.
  assert (existsb (fun pref0 => String.eqb (id (pref_song pref0)) (id song)) userPreferences = true).
  { apply existsb_exists. exists pref. split; [exact Hp | apply String.eqb_eq; exact E]. }
  congruence.
Qed.

Lemma content_getRecommendations_down (userId : string) (limit : nat) (w : World) :
  up (database w) = false ->
  ContentBasedFiltering.getRecommendations userId limit w =
  (Ok [], said (Error "Error getting content-based recommendations:")
               (called CallContentGetRecommendations w)).
Proof.
  intros D. unfold getRecommendations, bind at 1, count_call.
  unfold try_catch, bind at 1, getUserPreferences, query. cbn [database]. rewrite D.
  reflexivity.
Qed.

Lemma content_getRecommendations_up (userId : string) (limit : nat) (w : World) :
  up (database w) = true ->
  ContentBasedFiltering.getRecommendations userId limit w =
  match userPreferencesOf userId (database w) with
  | [] =>
    (Ok (HybridRecommendationEngine.popular limit (database w)),
     called CallGetPopularSongs (called CallContentGetRecommendations w))
  | userPreferences =>
    (Ok (firstn limit
           (sort_desc rec_similarity
              (contentMatches userPreferences (songTable (database w))))),
     called CallCalculateContentSimilarity (called CallContentGetRecommendations w))
  end.
Proof.
  intros U. unfold getRecommendations, bind at 1, count_call.
  fold (called CallContentGetRecommendations w).
  unfold try_catch, bind at 1, getUserPreferences.
  rewrite query_up by exact U. cbn [database called].
  destruct (userPreferencesOf userId (database w)) as [|p ps].
  - rewrite getPopularSongs_up by exact U. reflexivity.
  - unfold bind, count_call, ret. rewrite query_up by exact U. reflexivity.
Qed.

Lemma userPreferences_weights (userId : string) (db : Database) :
  plain_history userId db ->
  Forall (fun p => 0 <= getPreferenceWeight p) (userPreferencesOf userId db).
Proof.
  intros (HI & _). rewrite Forall_forall in HI.
  apply Forall_forall. intros p H. unfold userPreferencesOf in H.
  apply in_app_or in H. destruct H as [H|H]; [|apply in_app_or in H; destruct H as [H|H]].
  - apply in_map_iff in H. destruct H as (i & <- & Hi).
    destruct (HI i Hi) as [P _]. unfold getPreferenceWeight. simpl.
    unfold Rmin. destruct (Rle_dec _ _); lra.
  - apply in_map_iff in H. destruct H as (l & <- & _).
    unfold getPreferenceWeight. simpl. lra.
  - apply in_map_iff in H. destruct H as (r & <- & Hr).
    unfold highRatingsOf in Hr. apply filter_In in Hr. destruct Hr as [_ G].
    apply Rgeb_spec in G. unfold getPreferenceWeight. simpl. lra.
Qed.

(** X15: [getRecommendations] of the content-based filter never throws and
    changes neither the database nor the models. For a user with
    preferences it answers with at most [limit] songs of the table,
    highest similarity first, each above the floor of 0.3 and none of
    them a song the user has a preference on; for a user without any it
    answers with the popular songs; with the database down the answer is
    empty and the error is logged. *)
Theorem content_getRecommendations_sound (userId : string) (limit : nat) (w : World) :
  exists recs w',
    ContentBasedFiltering.getRecommendations userId limit w = (Ok recs, w') /\
    database w' = database w /\ predictor w' = predictor w /\
    (List.length recs <= limit)%nat /\
    (up (database w) = true -> userPreferencesOf userId (database w) <> [] ->
     Sorted (fun a b => rec_similarity b <= rec_similarity a) recs /\
     Forall (fun r =>
               In (rec_song r) (songTable (database w)) /\
               (forall pref, In pref (userPreferencesOf userId (database w)) ->
                             id (pref_song pref) <> id (rec_song r)) /\
               0.3 < rec_similarity r /\ reason r = "Content-based match") recs) /\
    (up (database w) = true -> userPreferencesOf userId (database w) = [] ->
     recs = HybridRecommendationEngine.popular limit (database w)) /\
    (up (database w) = false ->
     recs = [] /\
     console w' = console w ++ [Error "Error getting content-based recommendations:"]).
Proof.
  destruct (up (database w)) eqn:U.
  - rewrite (content_getRecommendations_up userId limit w U).
    destruct (userPreferencesOf userId (database w)) as [|p ps] eqn:EP.
    + eexists. eexists. split; [reflexivity|].
      split; [reflexivity|]. split; [reflexivity|]. split.
      { unfold HybridRecommendationEngine.popular. rewrite length_map, length_firstn.
        apply Nat.le_min_l. }
      split; [intros _ C; congruence|]. split; [reflexivity | discriminate].
    + set (prefs := p :: ps) in *.
      destruct (top_desc rec_similarity limit (contentMatches prefs (songTable (database w))))
        as (S & L & I & _).
      eexists. eexists. split; [reflexivity|].
      split; [reflexivity|]. split; [reflexivity|].
      split; [rewrite L; apply Nat.le_min_l|].
      split; [|split; [intros _ C; discriminate | discriminate]].
      intros _ _. split; [exact S|].
      apply Forall_forall. intros r Hr. apply I in Hr.
      apply contentMatches_In in Hr. destruct Hr as (H1 & H2 & _ & H3 & H4). auto.
  - rewrite (content_getRecommendations_down userId limit w U).
    eexists. eexists. split; [reflexivity|]. simpl.
    repeat split; try discriminate. lia.
Qed.

(** X16: for a user whose play counts are not negative, every similarity
    the content-based [getRecommendations] answers with is at most 1
    (and 0.5 for a popular song). *)
Theorem content_similarity_bounded (userId : string) (limit : nat) (w w' : World)
  (recs : list ContentRec) :
  plain_history userId (database w) ->
  ContentBasedFiltering.getRecommendations userId limit w = (Ok recs, w') ->
  Forall (fun r => 0 <= rec_similarity r <= 1) recs.
Proof.
  intros PH. destruct (up (database w)) eqn:U.
  - rewrite (content_getRecommendations_up userId limit w U).
    destruct (userPreferencesOf userId (database w)) as [|p ps] eqn:EP.
    + intros E. injection E as <- _. apply Forall_forall. intros r Hr.
      unfold HybridRecommendationEngine.popular in Hr.
      apply in_map_iff in Hr. destruct Hr as (s & <- & _). simpl. lra.
    + intros E. injection E as <- _. apply Forall_forall. intros r Hr.
      apply firstn_subset in Hr. unfold sort_desc in Hr. apply sort_by_In in Hr.
      apply contentMatches_In in Hr. destruct Hr as (_ & _ & ES & F & _).
      rewrite <- EP in ES.
      pose proof (calculateContentSimilarity_unit _ _ _
                    (userPreferences_weights userId (database w) PH) ES). lra.
  - rewrite (content_getRecommendations_down userId limit w U).
    intros E. injection E as <- _. constructor.
Qed.

End ContentFacts.

Module HybridFacts.
Import CollaborativeFiltering AIEnhancedRecommendationEngine HybridRecommendationEngine.
Import TopFacts EngineFacts MergeFacts.

Lemma ranked_spec (index : nat) (recs : list Combined) :
  map rank (ranked index recs) =
    map (fun i => Some (i + 1)%nat) (seq index (List.length recs)) /\
  map recommendationScore (ranked index recs) = map combined_score recs /\
  map (fun r => id (song r)) (ranked index recs) =
    map (fun e => id (combined_song e)) recs /\
  map rec_sources (ranked index recs) = map sources recs.
Proof.
  revert index. induction recs as [|r recs IH]; intros index; simpl; [auto|].
  destruct (IH (S index)) as (E1 & E2 & E3 & E4). rewrite E1, E2, E3, E4. auto.
Qed.

Lemma Sorted_map {A B} (f : A -> B) (P : B -> B -> Prop) (l : list A) :
  Sorted (fun a b => P (f a) (f b)) l -> Sorted P (map f l).
Proof.
  induction 1 as [|a l S IH Hd]; simpl; constructor; [exact IH|].
  destruct Hd; simpl; constructor. assumption.
Qed.

Lemma Sorted_of_map {A B} (f : A -> B) (P : B -> B -> Prop) (l : list A) :
  Sorted P (map f l) -> Sorted (fun a b => P (f a) (f b)) l.
Proof.
  induction l as [|a l IH]; simpl; intros S; [constructor|].
  inversion S as [|? ? S' Hd]; subst. constructor; [apply IH; exact S'|].
  destruct l; simpl in *; constructor. inversion Hd; subst. assumption.
Qed.

Lemma sourced_fold {A} (step : Combination -> A -> Combination) (l : list A) (c : Combination) :
  (forall c r, sourced c -> sourced (step c r)) -> sourced c -> sourced (fold_left step l c).
Proof.
  intros S. revert c. induction l as [|r l IH]; intros c K; simpl; auto.
Qed.

Lemma sourced_set_entry k s sc src d c :
  In src sourceNames -> sourced c -> sourced (set_entry k s sc src d c).
Proof.
  intros I K k' e H. apply upsert_In in H as [H|[-> ->]]; [eauto|].
  simpl. split; [discriminate|]. intros x [<-|[]]. exact I.
Qed.

Lemma sourced_add_entry k s sc src d c :
  In src sourceNames -> sourced c -> sourced (add_entry k s sc src d c).
Proof.
  intros I K k' e H. apply upsert_In in H as [H|[-> ->]]; [eauto|].
  destruct (lookup k c) as [e0|] eqn:L; simpl.
  - destruct (K _ _ (lookup_In _ _ _ L)) as [N Inc]. split.
    + destruct (sources e0); discriminate.
    + intros x Hx. apply in_app_or in Hx. destruct Hx as [Hx|[<-|[]]]; auto.
  - split; [discriminate|]. intros x [<-|[]]. exact I.
Qed.

Lemma combine_sourced cf cb ai pop cw cbw aw pw :
  sourced (combine cf cb ai pop cw cbw aw pw).
Proof.
  unfold combine.
  repeat (apply sourced_fold;
          [intros c r K;
           first [apply sourced_add_entry | apply sourced_set_entry];
           [unfold sourceNames; simpl; tauto | exact K]|]).
  intros k e [].
Qed.

Lemma keyed_ids (c : Combination) :
  keyed c -> map (fun e => id (combined_song e)) (map snd c) = map fst c.
Proof.
  intros [_ K]. induction c as [|[k e] c IH]; simpl; [reflexivity|].
  rewrite IH by (intros k' e' H; apply K; right; exact H).
  rewrite <- (K k e) by (left; reflexivity). reflexivity.
Qed.

(** The list the engine makes of four result lists. *)
Lemma finalRecommendations_ranking cf cb ai pop cw cbw aw pw limit :
  let recs := finalRecommendations cf cb ai pop cw cbw aw pw limit in
  (List.length recs <= limit)%nat /\
  map rank recs = map (fun i => Some (i + 1)%nat) (seq 0 (List.length recs)) /\
  Sorted (fun a b => recommendationScore b <= recommendationScore a) recs /\
  NoDup (map (fun r => id (song r)) recs) /\
  Forall (fun r => rec_sources r <> [] /\ incl (rec_sources r) sourceNames) recs.
Proof.
  cbv zeta. unfold finalRecommendations.
  set (c := combine cf cb ai pop cw cbw aw pw).
  set (top := firstn limit (sort_desc combined_score (map snd c))).
  destruct (top_desc combined_score limit (map snd c)) as (S & L & I & _). fold top in S, L, I.
  destruct (ranked_spec 0 top) as (E1 & E2 & E3 & E4).
  assert (Len : List.length (ranked 0 top) = List.length top).
  { rewrite <- (length_map recommendationScore), E2, length_map. reflexivity. }
  split; [rewrite Len, L; apply Nat.le_min_l|].
  split; [rewrite E1, Len; reflexivity|].
  split; [|split].
  - apply Sorted_of_map with (f := recommendationScore) (P := fun x y => y <= x).
    rewrite E2. apply Sorted_map. exact S.
  - rewrite E3. unfold top. rewrite <- firstn_map. apply firstn_NoDup.
    eapply Permutation_NoDup.
    { apply Permutation_map. symmetry. apply sort_by_Permutation. }
    rewrite keyed_ids by apply combine_keyed. apply combine_keyed.
  - apply Forall_forall. intros r Hr.
    assert (Hs : In (rec_sources r) (map sources top)).
    { rewrite <- E4. apply in_map. exact Hr. }
    apply in_map_iff in Hs. destruct Hs as (e & <- & He). apply I in He.
    apply in_map_iff in He. destruct He as ([k e'] & <- & Hin).
    apply (combine_sourced cf cb ai pop cw cbw aw pw k e' Hin).
Qed.

(** X17: the hybrid [getRecommendations] answers with at most [limit]
    recommendations (20 when the option is left out), ranked 1, 2, ...
    in the order of the list, highest combined score first, no song
    twice, each naming at least one of the four sources. *)
Theorem hybrid_ranking (userId : string) (options : Options) (w : World) :
  exists recs w',
    HybridRecommendationEngine.getRecommendations userId options w = (Ok recs, w') /\
    (List.length recs <= or_default (limit options) 20%nat)%nat /\
    map rank recs = map (fun i => Some (i + 1)%nat) (seq 0 (List.length recs)) /\
    Sorted (fun a b => recommendationScore b <= recommendationScore a) recs /\
    NoDup (map (fun r => id (song r)) recs) /\
    Forall (fun r => rec_sources r <> [] /\ incl (rec_sources r) sourceNames) recs.
Proof.
  destruct (getRecommendations_run userId options w)
    as (cf & w1 & cb & w2 & ai & w3 & pop & w4 & _ & _ & _ & _ & E).
  eexists. eexists. split; [exact E|].
  apply finalRecommendations_ranking.
Qed.

End HybridFacts.

Module GradientFacts.
Import Factors.

Lemma at_index_app (pre : list num) (x : num) (rest : list num) :
  at_index (pre ++ x :: rest) (List.length pre) = x.
Proof.
  unfold at_index. rewrite app_nth2 by lia. rewrite Nat.sub_diag. reflexivity.
Qed.

Lemma set_index_app (pre : list num) (x y : num) (rest : list num) :
  set_index (pre ++ x :: rest) (List.length pre) y = pre ++ y :: rest.
Proof.
  induction pre as [|p pre IH]; simpl; [reflexivity|]. rewrite IH. reflexivity.
Qed.

Lemma steps_from (step : list num * list num -> nat -> list num * list num)
      (change : R -> R -> R) (u v : list R) :
  (forall pu pv x y ru rv,
      List.length pu = List.length pv ->
      step (pu ++ Num x :: ru, pv ++ Num y :: rv) (List.length pu) =
      (pu ++ Num (change x y) :: ru, pv ++ Num (change y x) :: rv)) ->
  List.length u = List.length v ->
  forall (pu pv : list num),
    List.length pu = List.length pv ->
    fold_left step (seq (List.length pu) (List.length u)) (pu ++ map Num u, pv ++ map Num v) =
    (pu ++ map Num (map (fun p => change (fst p) (snd p)) (combine u v)),
     pv ++ map Num (map (fun p => change (fst p) (snd p)) (combine v u))).
Proof.
  intros Step. revert v. induction u as [|x u IH]; intros [|y v] L pu pv LP; try discriminate L.
  - reflexivity.
  - cbn [List.length seq fold_left map combine fst snd]. injection L as L.
    rewrite (Step pu pv x y _ _ LP).
    replace (pu ++ Num (change x y) :: map Num u)
      with ((pu ++ [Num (change x y)]) ++ map Num u)
      by (rewrite <- app_assoc; reflexivity).
    replace (pv ++ Num (change y x) :: map Num v)
      with ((pv ++ [Num (change y x)]) ++ map Num v)
      by (rewrite <- app_assoc; reflexivity).
    replace (S (List.length pu)) with (List.length (pu ++ [Num (change x y)]))
      by (rewrite length_app; simpl; lia).
    rewrite (IH v L) by (rewrite !length_app, LP; reflexivity).
    rewrite <- !app_assoc. reflexivity.
Qed.

(** X18: on two rows of numbers of the same length, [updateFactors]
    moves every entry by twice the learning rate times the error times
    the entry of the other row at the same place, the other row's entry
    being the one before the call; an error of 0 leaves both rows as
    they are. *)
Theorem updateFactors_step (userFactors itemFactors : list R) (error learningRate : R) :
  (List.length userFactors = List.length itemFactors ->
   updateFactors (map Num userFactors) (map Num itemFactors) (Num error) learningRate =
   (map Num (map (fun p => fst p + 2 * learningRate * error * snd p)
                 (combine userFactors itemFactors)),
    map Num (map (fun p => fst p + 2 * learningRate * error * snd p)
                 (combine itemFactors userFactors)))) /\
  (List.length userFactors = List.length itemFactors ->
   updateFactors (map Num userFactors) (map Num itemFactors) (Num 0) learningRate =
   (map Num userFactors, map Num itemFactors)).
Proof.
  assert (Closed : forall e,
             List.length userFactors = List.length itemFactors ->
             updateFactors (map Num userFactors) (map Num itemFactors) (Num e) learningRate =
             (map Num (map (fun p => fst p + 2 * learningRate * e * snd p)
                           (combine userFactors itemFactors)),
              map Num (map (fun p => fst p + 2 * learningRate * e * snd p)
                           (combine itemFactors userFactors)))).
  { intros e L. unfold updateFactors. rewrite length_map.
    apply (steps_from _ (fun x y => x + 2 * learningRate * e * y)
                      userFactors itemFactors) with (pu := []) (pv := []);
      [|exact L|reflexivity].
    intros pu pv x y ru rv LP. cbv zeta.
    rewrite at_index_app, set_index_app.
    rewrite LP. rewrite at_index_app, set_index_app.
    cbn [nmul nsub nlift2]. do 4 f_equal; ring. }
  split; [apply Closed|].
  intros L. rewrite (Closed 0 L).
  assert (Id : forall a b : list R,
             List.length a = List.length b ->
             map (fun p => fst p + 2 * learningRate * 0 * snd p) (combine a b) = a).
  { induction a as [|x a IH]; intros [|y b] E; try discriminate E; [reflexivity|].
    simpl. rewrite IH by (injection E as E; exact E). f_equal. ring. }
  rewrite (Id _ _ L), (Id _ _ (eq_sym L)). reflexivity.
Qed.

End GradientFacts.

Module CorrelationFacts.
Import AIFeaturePredictor VectorFacts VectorFacts2 TrainingFacts.

Lemma fold_sum_map {A} (g : A -> R) (l : list A) :
  fold_left (fun acc x => acc + g x) l 0 = sum (map g l).
Proof.
  induction l as [|x l IH]; simpl; [reflexivity|].
  rewrite fold_sum_shift, IH. unfold sum at 2. simpl. rewrite sum_from. ring.
Qed.

Lemma products_swap (x y : list R) :
  sum (map (fun p => fst p * snd p) (combine x y)) =
  sum (map (fun p => fst p * snd p) (combine y x)).
Proof.
  rewrite <- !fold_sum_map.
  generalize 0. revert y. induction x as [|a x IH]; intros [|b y] acc; simpl; try reflexivity.
  rewrite IH. f_equal. ring.
Qed.

(** X19: [calculateCorrelation] does not depend on the order of the two
    columns, and it is 0 for columns of different lengths and for empty
    columns. *)
Theorem calculateCorrelation_symmetric (x y : list R) :
  calculateCorrelation x y = calculateCorrelation y x /\
  (List.length x <> List.length y \/ x = [] -> calculateCorrelation x y = 0).
Proof.
  split.
  - unfold calculateCorrelation.
    rewrite (Nat.eqb_sym (List.length y)).
    destruct (List.length x =? List.length y)%nat eqn:EL; [|reflexivity].
    apply Nat.eqb_eq in EL. rewrite <- EL.
    destruct (List.length x =? 0)%nat; [reflexivity|]. simpl.
    rewrite (products_swap y x).
    rewrite (Rmult_comm (sum y) (sum x)).
    rewrite (Rmult_comm (INR (List.length x) * sum (map (fun yi => yi * yi) y) - sum y * sum y)).
    reflexivity.
  - intros [NE | ->]; unfold calculateCorrelation.
    + apply Nat.eqb_neq in NE. rewrite NE. reflexivity.
    + cbn [Datatypes.length]. rewrite (Nat.eqb_refl 0), orb_true_r. reflexivity.
Qed.

End CorrelationFacts.

Module InitializeFacts.
Import AIFeaturePredictor PredictorFacts EngineFacts.

(** The world after [initialize] on a predictor that is not initialized:
    trained on the feature-complete rows when they are five or more and
    the query answers, on the fixed tables otherwise. *)
Lemma initialize_trained (w : World) :
  initialized (predictor w) = false ->
  up (database w) = true ->
  (5 <= List.length (filter isTrainingRow (songTable (database w))))%nat ->
  initialize w =
  (Ok tt, {| database := database w;
             predictor := set_initialized
                            (train (filter isTrainingRow (songTable (database w))) (predictor w));
             console :=
               console w ++
               [Log "🤖 Initializing AI prediction models...";
                Log (trainedMessage
                       (List.length (filter isTrainingRow (songTable (database w)))))];
             calls := calls w |}).
Proof.
  intros Hi U Hn. unfold initialize, bind at 1, get_predictor. rewrite Hi.
  unfold try_catch, bind at 1, say at 1. unfold bind at 1, query. cbn [database].
  rewrite U. apply Nat.ltb_ge in Hn. rewrite Hn.
  unfold bind, say, set_predictor, get_predictor. cbn.
  rewrite <- !app_assoc. reflexivity.
Qed.

Lemma initialize_runs (w : World) :
  exists w',
    initialize w = (Ok tt, w') /\
    initialized (predictor w') = true /\
    database w' = database w /\ calls w' = calls w /\
    (initialized (predictor w) = true -> w' = w) /\
    (initialized (predictor w) = false ->
     correlations (predictor w') <> None /\
     genreAverages (predictor w') <> None /\
     moodAverages (predictor w') <> None).
Proof.
  destruct (initialized (predictor w)) eqn:Hi.
  - exists w. rewrite (initialize_done w Hi). repeat split; auto; discriminate.
  - destruct (up (database w)) eqn:U;
      [destruct (le_lt_dec 5 (List.length (filter isTrainingRow (songTable (database w)))))
         as [Hn|Hn]|].
    + rewrite (initialize_trained w Hi U Hn). eexists. split; [reflexivity|].
      cbn. repeat split; discriminate.
    + rewrite (initialize_few_rows w Hi Hn). eexists. split; [reflexivity|].
      cbn. repeat split; discriminate.
    + assert (E : initialize w =
                  (Ok tt, {| database := database w;
                             predictor := set_initialized (initializeFallbackModels (predictor w));
                             console := fallbackConsole false (console w);
                             calls := calls w |})).
      { unfold initialize, bind at 1, get_predictor. rewrite Hi.
        unfold try_catch, bind at 1, say at 1. unfold bind at 1, query. cbn [database].
        rewrite U. unfold fallbackConsole, bind, say, set_predictor, get_predictor. cbn.
        rewrite <- !app_assoc. reflexivity. }
      rewrite E. eexists. split; [reflexivity|]. cbn. repeat split; discriminate.
Qed.

(** X20: [initialize] never throws, whatever the state of the database, and
    always leaves the predictor initialized with its correlation, genre
    and mood tables set; it changes neither the database nor anything
    else once the predictor is initialized, so a second call does
    nothing; with five or more feature-complete rows and a database
    that answers, the models are the ones trained on those rows. *)
Theorem initialize_total (w : World) :
  exists w',
    initialize w = (Ok tt, w') /\
    initialized (predictor w') = true /\
    database w' = database w /\ calls w' = calls w /\
    initialize w' = (Ok tt, w') /\
    (initialized (predictor w) = true -> w' = w) /\
    (initialized (predictor w) = false ->
     correlations (predictor w') <> None /\
     genreAverages (predictor w') <> None /\
     moodAverages (predictor w') <> None) /\
    (initialized (predictor w) = false -> up (database w) = true ->
     (5 <= List.length (filter isTrainingRow (songTable (database w))))%nat ->
     predictor w' =
     set_initialized (train (filter isTrainingRow (songTable (database w))) (predictor w))).
Proof.
  destruct (initialize_runs w) as (w' & E & I & D & C & Same & Tables).
  exists w'. split; [exact E|]. split; [exact I|]. split; [exact D|]. split; [exact C|].
  split; [apply initialize_done; exact I|]. split; [exact Same|]. split; [exact Tables|].
  intros Hi U Hn. rewrite (initialize_trained w Hi U Hn) in E. injection E as <-. reflexivity.
Qed.

Lemma predictAudioFeatures_runs (song : Song) (w : World) :
  exists w',
    initialize w = (Ok tt, w') /\
    predictAudioFeatures song w = (Ok (predictedFeatures (predictor w') song), w').
Proof.
  destruct (initialize_runs w) as (w' & E & _).
  exists w'. split; [exact E|].
  unfold predictAudioFeatures, bind. rewrite E. reflexivity.
Qed.

Lemma missing_false (v : option R) :
  missing v = false <-> exists x, v = Some x /\ x <> 0.
Proof.
  unfold missing. destruct v as [x|].
  - split.
    + intros H. exists x. split; [reflexivity|]. intros C. rewrite Reqb_true in H by exact C.
      discriminate.
    + intros (x' & E & NZ). injection E as <-. apply Reqb_false. exact NZ.
  - split; [discriminate | intros (x & E & _); discriminate].
Qed.

(** X21: [predictAudioFeatures] never throws and leaves the database as it
    is; the object it answers with holds a number under each of the
    twelve features: the song's own number where the song has one that
    is not 0, and the prediction of the ladder everywhere else. *)
Theorem predictAudioFeatures_fills (song : Song) (w : World) :
  exists predictions w',
    predictAudioFeatures song w = (Ok predictions, w') /\
    database w' = database w /\ initialized (predictor w') = true /\
    (forall k, predictions k <> None) /\
    (forall k v, feature song k = Some v -> v <> 0 -> predictions k = Some v) /\
    (forall k, missing (feature song k) = true ->
       predictions k =
       Some (predictFeature (predictor w') k (availableFeaturesOf song) song)).
Proof.
  destruct (initialize_runs w) as (w' & E & I & D & _).
  exists (predictedFeatures (predictor w') song), w'.
  split; [unfold predictAudioFeatures, bind; rewrite E; reflexivity|].
  split; [exact D|]. split; [exact I|]. unfold predictedFeatures. split; [|split].
  - intros k. destruct (missing (feature song k)) eqn:M; [discriminate|].
    apply missing_false in M. destruct M as (x & -> & _). discriminate.
  - intros k v Ev NZ.
    assert (M : missing (feature song k) = false) by (apply missing_false; eauto).
    rewrite M. exact Ev.
  - intros k M. rewrite M. reflexivity.
Qed.

End InitializeFacts.

Module LabelFacts.
Import AIFeaturePredictor PredictorFacts EngineFacts MergeFacts InitializeFacts.

Lemma dedupe_In (x : string) (arr : list string) : In x (dedupe arr) -> In x arr.
Proof.
  induction arr as [|y arr IH]; simpl; [tauto|].
  intros [H|H]; [auto|]. apply filter_In in H. right. apply IH, H.
Qed.

Lemma dedupe_NoDup (arr : list string) : NoDup (dedupe arr).
Proof.
  induction arr as [|x arr IH]; simpl; constructor.
  - intros H. apply filter_In in H. destruct H as [_ H].
    rewrite String.eqb_refl in H. discriminate.
  - apply NoDup_filter. exact IH.
Qed.

Lemma firstn_two {A} (l : list A) : (List.length (firstn 2 l) <= 2)%nat.
Proof. rewrite length_firstn. apply Nat.le_min_l. Qed.

Lemma combineVotes_NoDup (predictions : list Vote) : NoDup (map fst (combineVotes predictions)).
Proof.
  unfold combineVotes.
  assert (G : forall (l : list Vote) (c : list (string * R)),
             NoDup (map fst c) ->
             NoDup (map fst
                      (fold_left
                         (fun combinedScores prediction =>
                            upsert (property_key (label prediction))
                                   (fun old =>
                                      match old with
                                      | Some s => s + vote_confidence prediction
                                      | None => 0 + vote_confidence prediction
                                      end)
                                   combinedScores)
                         l c))).
  { induction l as [|v l IH]; intros c N; simpl; [exact N|].
    apply IH, upsert_NoDup, N. }
  apply G. constructor.
Qed.

Lemma topTwo_labels (combinedScores : list (string * R)) :
  NoDup (map fst combinedScores) ->
  (List.length (topTwo combinedScores) <= 2)%nat /\ NoDup (topTwo combinedScores).
Proof.
  intros N. unfold topTwo. split.
  - rewrite length_map. apply firstn_two.
  - rewrite <- firstn_map. apply firstn_NoDup.
    eapply Permutation_NoDup; [|exact N].
    apply Permutation_map. symmetry. apply sort_by_Permutation.
Qed.

Lemma top_of_dedupe (arr : list string) :
  (List.length (firstn 2 (dedupe arr)) <= 2)%nat /\ NoDup (firstn 2 (dedupe arr)).
Proof. split; [apply firstn_two | apply firstn_NoDup, dedupe_NoDup]. Qed.

Lemma predictGenresFromFeatures_labels (p : Predictor) (a : FeatureObj) (song : Song) :
  (List.length (predictGenresFromFeatures p a song) <= 2)%nat /\
  NoDup (predictGenresFromFeatures p a song).
Proof.
  unfold predictGenresFromFeatures. destruct (genreAverages p) as [table|].
  - apply topTwo_labels, combineVotes_NoDup.
  - apply top_of_dedupe.
Qed.

Lemma predictMoodsFromFeatures_labels (p : Predictor) (a : FeatureObj) (song : Song)
  (names : list string) :
  predictMoodsFromFeatures p a song = Ok names ->
  (List.length names <= 2)%nat /\ NoDup names.
Proof.
  unfold predictMoodsFromFeatures, moodEnsemble. destruct (moodAverages p) as [table|].
  - destruct (predictMoodsFromGenres _); intros E; [|discriminate].
    injection E as <-. apply topTwo_labels, combineVotes_NoDup.
  - intros E. injection E as <-. apply top_of_dedupe.
Qed.

Lemma predictMoodsFromGenres_rows (genres : list Name) :
  predictMoodsFromGenres genres =
  match rowNames genres with
  | Some names => Ok (moodsOfGenres (map toLowerCase names))
  | None => Thrown notAFunction
  end.
Proof. destruct genres; reflexivity. Qed.

(** With named genre rows, or without a table of mood averages, the
    moods are predicted. *)
Lemma predictMoodsFromFeatures_named (p : Predictor) (a : FeatureObj) (song : Song) :
  namedGenres song = true \/ moodAverages p = None ->
  exists names, predictMoodsFromFeatures p a song = Ok names.
Proof.
  unfold predictMoodsFromFeatures, moodEnsemble, namedGenres.
  rewrite predictMoodsFromGenres_rows.
  destruct (moodAverages p) as [table|]; [|eexists; reflexivity].
  intros [H|H]; [|discriminate].
  destruct (rowNames (tag_names (genres song))); [eexists; reflexivity | discriminate].
Qed.

(** With a genre row that carries no name, the vote of the genres
    throws. *)
Lemma predictMoodsFromFeatures_throws (p : Predictor) (a : FeatureObj) (song : Song) :
  namedGenres song = false -> moodAverages p <> None ->
  predictMoodsFromFeatures p a song = Thrown notAFunction.
Proof.
  unfold predictMoodsFromFeatures, moodEnsemble, namedGenres.
  rewrite predictMoodsFromGenres_rows.
  destruct (moodAverages p) as [table|]; [|congruence].
  destruct (rowNames (tag_names (genres song))); [discriminate | reflexivity].
Qed.

Lemma predictGenres_runs (song : Song) (w : World) :
  exists w',
    initialize w = (Ok tt, w') /\
    predictGenres song w =
    (Ok (if hasTags (genres song) then tag_names (genres song)
         else map Named
                (predictGenresFromFeatures (predictor w')
                   (predictedFeatures (predictor w') song) song)),
     w').
Proof.
  destruct (initialize_runs w) as (w' & E & I & _).
  exists w'. split; [exact E|].
  unfold predictGenres, bind at 1. rewrite E.
  destruct (genres song) as [[|g gs]|]; cbn [hasTags tag_names]; try reflexivity;
    unfold bind; rewrite (predictGenres_helper song w' I); reflexivity.
Qed.

Lemma predictMoods_runs (song : Song) (w : World) :
  exists w',
    initialize w = (Ok tt, w') /\
    predictMoods song w =
    (if hasTags (moods song) then Ok (tag_names (moods song))
     else result_map (map Named)
            (predictMoodsFromFeatures (predictor w')
               (predictedFeatures (predictor w') song) song),
     w').
Proof.
  destruct (initialize_runs w) as (w' & E & I & _).
  exists w'. split; [exact E|].
  unfold predictMoods, bind at 1. rewrite E.
  destruct (moods song) as [[|m ms]|]; cbn [hasTags tag_names]; try reflexivity;
    unfold bind; rewrite (predictGenres_helper song w' I); reflexivity.
Qed.

(** What [predictMoods] answers for a song without moods. *)
Lemma predictMoods_outcome (song : Song) (w : World) :
  exists r w',
    initialize w = (Ok tt, w') /\
    predictMoods song w = (r, w') /\
    (hasTags (moods song) = true -> r = Ok (tag_names (moods song))) /\
    (hasTags (moods song) = false ->
     namedGenres song = true \/ moodAverages (predictor w') = None ->
     exists labels,
       r = Ok (map Named labels) /\ (List.length labels <= 2)%nat /\ NoDup labels) /\
    (hasTags (moods song) = false -> namedGenres song = false ->
     moodAverages (predictor w') <> None -> r = Thrown notAFunction).
Proof.
  destruct (predictMoods_runs song w) as (w' & E & Em).
  eexists. exists w'. split; [exact E|]. split; [exact Em|].
  destruct (hasTags (moods song)).
  - split; [reflexivity|]. split; discriminate.
  - split; [discriminate|]. split.
    + intros _ H.
      destruct (predictMoodsFromFeatures_named (predictor w')
                  (predictedFeatures (predictor w') song) song H) as (names & En).
      exists names. rewrite En. split; [reflexivity|].
      exact (predictMoodsFromFeatures_labels _ _ _ _ En).
    + intros _ N T. rewrite predictMoodsFromFeatures_throws by assumption. reflexivity.
Qed.

(** X22: [predictGenres] never throws: for a song that has genre rows it
    answers with what the rows hold under [name], and for a song that has
    none with at most two labels, no label twice.  [predictMoods] answers
    with what the mood rows hold under [name] for a song that has mood
    rows.  For a song without moods its answer is at most two labels, no
    label twice, when every genre row of the song carries a name that is
    not empty (or no table of mood averages is set); it throws a
    TypeError when some genre row carries no name, as the rows of the
    join table do, and the table is set, which it is after the first
    call.  A song with one link to a genre and no mood makes it throw on
    a fresh install. *)
Theorem predicted_labels (song : Song) (w : World) :
  exists genreNames wg moodNames wm,
    predictGenres song w = (Ok genreNames, wg) /\
    predictMoods song w = (moodNames, wm) /\
    (hasTags (genres song) = true -> genreNames = tag_names (genres song)) /\
    (hasTags (genres song) = false ->
     exists labels,
       genreNames = map Named labels /\ (List.length labels <= 2)%nat /\ NoDup labels) /\
    (hasTags (moods song) = true -> moodNames = Ok (tag_names (moods song))) /\
    (hasTags (moods song) = false ->
     namedGenres song = true \/ moodAverages (predictor wm) = None ->
     exists labels,
       moodNames = Ok (map Named labels) /\ (List.length labels <= 2)%nat /\ NoDup labels) /\
    (hasTags (moods song) = false -> namedGenres song = false ->
     moodAverages (predictor wm) <> None -> moodNames = Thrown notAFunction) /\
    (initialized (predictor w) = false -> moodAverages (predictor wm) <> None) /\
    (exists w', predictMoods Samples.linked Samples.freshInstall = (Thrown notAFunction, w')).
Proof.
  destruct (predictGenres_runs song w) as (wg & _ & Eg).
  destruct (predictMoods_outcome song w) as (r & wm & E & Em & Own & Named' & Throws).
  eexists. exists wg, r, wm. split; [exact Eg|]. split; [exact Em|].
  split; [intros ->; reflexivity|]. split.
  { intros H. rewrite H. eexists. split; [reflexivity|].
    apply predictGenresFromFeatures_labels. }
  split; [exact Own|]. split; [exact Named'|]. split; [exact Throws|]. split.
  - intros Hi. destruct (initialize_runs w) as (w1 & E1 & _ & _ & _ & _ & Tables).
    rewrite E in E1. injection E1 as <-. apply (Tables Hi).
  - destruct (predictMoods_outcome Samples.linked Samples.freshInstall)
      as (r' & w' & E' & Em' & _ & _ & T').
    exists w'. rewrite Em'. f_equal. apply T'; [reflexivity | reflexivity |].
    destruct (initialize_runs Samples.freshInstall) as (w1 & E1 & _ & _ & _ & _ & Tables).
    rewrite E' in E1. injection E1 as <-. apply Tables. reflexivity.
Qed.

End LabelFacts.

Module AiEngineFacts.
Import AIFeaturePredictor AIEnhancedRecommendationEngine.
Import TopFacts PredictorFacts EngineFacts MergeFacts InitializeFacts LabelFacts VectorFacts2.

(** What [enhanceSongWithPredictions] answers, in the world [initialize]
    leaves. *)
Lemma enhance_outcome (song : Song) (w : World) :
  exists r w',
    initialize w = (Ok tt, w') /\
    enhanceSongWithPredictions song w = (r, w') /\
    (forall e, r = Ok e ->
       id (enhanced_song e) = id song /\ title (enhanced_song e) = title song) /\
    (moodsPredictable song = true -> exists e, r = Ok e) /\
    (moodsPredictable song = false -> moodAverages (predictor w') <> None ->
     r = Thrown notAFunction).
Proof.
  destruct (initialize_runs w) as (w1 & E & I & _).
  assert (E1 : initialize w1 = (Ok tt, w1)) by (apply initialize_done; exact I).
  destruct (predictAudioFeatures_runs song w) as (wa & Ea & PA).
  rewrite E in Ea. injection Ea as <-.
  destruct (predictGenres_runs song w1) as (wg & Eg & PG).
  rewrite E1 in Eg. injection Eg as <-.
  destruct (predictMoods_outcome song w1) as (r & wm & Em & PM & Own & Nm & Th).
  rewrite E1 in Em. injection Em as <-.
  unfold enhanceSongWithPredictions, moodsPredictable.
  destruct r as [m|msg].
  - eexists. exists w1. split; [exact E|].
    split; [unfold bind; rewrite PA, PG, PM; reflexivity|].
    split; [intros e He; injection He as <-; split; reflexivity|].
    split; [intros _; eexists; reflexivity|].
    intros NP T. apply orb_false_iff in NP. destruct NP as [HM NG].
    specialize (Th HM NG T). discriminate.
  - exists (Thrown msg), w1. split; [exact E|].
    split; [unfold bind; rewrite PA, PG, PM; reflexivity|].
    split; [discriminate|]. split.
    + intros P. destruct (hasTags (moods song)) eqn:HM.
      * specialize (Own eq_refl). discriminate.
      * simpl in P. destruct (Nm eq_refl (or_introl P)) as (l & C & _). discriminate.
    + intros NP T. apply orb_false_iff in NP. destruct NP as [HM NG].
      specialize (Th HM NG T). injection Th as ->. reflexivity.
Qed.

(** Enhancing the songs of an array one after the other: the first song
    that cannot be enhanced ends the loop. *)
Lemma for_each_outcome {A} (g : A -> Song) (l : list A) (w w1 : World) :
  initialize w = (Ok tt, w1) ->
  exists r,
    for_each (fun x => enhanceSongWithPredictions (g x)) l w =
      (r, match l with [] => w | _ => w1 end) /\
    (forall es, r = Ok es ->
       map (fun e => id (enhanced_song e)) es = map (fun x => id (g x)) l) /\
    (forallb (fun x => moodsPredictable (g x)) l = true -> exists es, r = Ok es) /\
    (forallb (fun x => moodsPredictable (g x)) l = false ->
     moodAverages (predictor w1) <> None -> r = Thrown notAFunction).
Proof.
  revert w. induction l as [|x l IH]; intros w E.
  - exists (Ok []). split; [reflexivity|].
    split; [intros es H; injection H as <-; reflexivity|].
    split; [eexists; reflexivity | discriminate].
  - destruct (enhance_outcome (g x) w) as (r & w' & E' & Ee & Pid & Pok & Pth).
    rewrite E in E'. injection E' as <-.
    assert (I : initialized (predictor w1) = true).
    { destruct (initialize_runs w) as (w2 & E2 & I & _).
      rewrite E in E2. injection E2 as <-. exact I. }
    destruct (IH w1 (initialize_done w1 I)) as (rs & Es & Pids & Poks & Pths).
    assert (Es' : for_each (fun x => enhanceSongWithPredictions (g x)) l w1 = (rs, w1))
      by (rewrite Es; destruct l; reflexivity).
    cbn [for_each]. unfold bind at 1. rewrite Ee.
    destruct r as [e|msg].
    + unfold bind at 1. rewrite Es'. destruct rs as [es|msg].
      * exists (Ok (e :: es)). split; [reflexivity|]. split.
        { intros es' H. injection H as <-. simpl.
          destruct (Pid e eq_refl) as [-> _]. rewrite (Pids es eq_refl). reflexivity. }
        split; [eexists; reflexivity|].
        intros F T. simpl in F. apply andb_false_iff in F.
        destruct F as [F|F]; [specialize (Pth F T) | specialize (Pths F T)]; discriminate.
      * exists (Thrown msg). split; [reflexivity|]. split; [discriminate|]. split.
        { intros F. simpl in F. apply andb_true_iff in F. destruct F as [_ F].
          destruct (Poks F) as (es & C). discriminate. }
        intros F T. simpl in F. apply andb_false_iff in F. destruct F as [F|F].
        -- specialize (Pth F T). discriminate.
        -- exact (Pths F T).
    + exists (Thrown msg). split; [reflexivity|]. split; [discriminate|]. split.
      { intros F. simpl in F. apply andb_true_iff in F. destruct F as [F _].
        destruct (Pok F) as (e & C). discriminate. }
      intros _ T. destruct (moodsPredictable (g x)) eqn:P.
      * destruct (Pok eq_refl) as (e & C). discriminate.
      * specialize (Pth eq_refl T). injection Pth as ->. reflexivity.
Qed.

Lemma uniqueById_spec (recs : list AiRec) :
  NoDup (map rec_id (uniqueById recs)) /\
  (forall r, In r (uniqueById recs) -> In r recs).
Proof.
  unfold uniqueById.
  assert (G : forall (l acc : list AiRec),
             NoDup (map rec_id acc) ->
             let res :=
               fold_left
                 (fun acc r =>
                    if existsb (fun r' => String.eqb (rec_id r') (rec_id r)) acc then acc
                    else acc ++ [r])
                 l acc in
             NoDup (map rec_id res) /\ (forall r, In r res -> In r acc \/ In r l)).
  { induction l as [|r l IH]; intros acc N; simpl; [auto|].
    destruct (existsb _ acc) eqn:EX.
    - destruct (IH acc N) as [N' I']. split; [exact N'|].
      intros r' H. destruct (I' r' H); auto.
    - destruct (IH (acc ++ [r])) as [N' I'].
      { rewrite map_app. apply NoDup_app; [exact N | repeat constructor; simpl; tauto|].
        intros x Hx [<-|[]]. apply in_map_iff in Hx. destruct Hx as (r' & Er & Hr).
        assert (existsb (fun r'0 => String.eqb (rec_id r'0) (rec_id r)) acc = true).
        { apply existsb_exists. exists r'. split; [exact Hr | apply String.eqb_eq; exact Er]. }
        congruence. }
      split; [exact N'|]. intros r' H. destruct (I' r' H) as [H'|H']; [|auto].
      apply in_app_or in H'. destruct H' as [H'|[<-|[]]]; auto. }
  destruct (G recs [] (NoDup_nil _)) as [N I]. split; [exact N|].
  intros r H. destruct (I r H) as [[]|H']. exact H'.
Qed.

Lemma findSimilarSongsWithAI_In (targetSong : Enhanced) (allSongs : list Enhanced)
  (limit : nat) (r : AiRec) :
  In r (findSimilarSongsWithAI targetSong allSongs limit) ->
  In (ai_song r) allSongs /\ rec_id r <> id (enhanced_song targetSong) /\
  ai_similarity r = calculateEnhancedSimilarity targetSong (ai_song r) /\
  ai_basedOn r = title (enhanced_song targetSong).
Proof.
  unfold findSimilarSongsWithAI. intros H. apply firstn_subset in H.
  unfold sort_desc in H. apply sort_by_In in H. apply in_flat_map in H.
  destruct H as (song & Hs & H).
  destruct (String.eqb _ _) eqn:E; [destruct H|]. destruct H as [<-|[]].
  apply String.eqb_neq in E. simpl. auto.
Qed.

End AiEngineFacts.

Module AiRecommendationFacts.
Import AIFeaturePredictor AIEnhancedRecommendationEngine.
Import TopFacts PredictorFacts EngineFacts MergeFacts InitializeFacts LabelFacts AiEngineFacts.

Lemma getFallbackRecommendations_up (limit : nat) (w : World) :
  up (database w) = true ->
  getFallbackRecommendations limit w =
  (Ok (map (fun song =>
              {| ai_song := {| enhanced_song := song; predictedGenres := None;
                               predictedMoods := None |};
                 ai_similarity := 0.5;
                 ai_basedOn := "Popular songs" |})
           (firstn limit (sort_by byLikes (songTable (database w))))),
   w).
Proof.
  intros U. unfold getFallbackRecommendations, try_catch, bind.
  rewrite query_up by exact U. reflexivity.
Qed.

Lemma getFallbackRecommendations_down (limit : nat) (w : World) :
  up (database w) = false ->
  getFallbackRecommendations limit w =
  (Ok [], said (Error "Error getting fallback recommendations:") w).
Proof.
  intros D. unfold getFallbackRecommendations, try_catch, bind.
  rewrite query_down by exact D. reflexivity.
Qed.

Lemma initialize_after (w w1 : World) :
  initialize w = (Ok tt, w1) ->
  database w1 = database w /\ initialized (predictor w1) = true /\
  initialize w1 = (Ok tt, w1) /\
  (initialized (predictor w) = false -> moodAverages (predictor w1) <> None).
Proof.
  intros E. destruct (initialize_runs w) as (w2 & E2 & I & D & _ & _ & Tables).
  rewrite E in E2. injection E2 as <-.
  split; [exact D|]. split; [exact I|]. split; [apply initialize_done; exact I|].
  intros Hi. apply (Tables Hi).
Qed.

(** The recommendations for a user with likes, on a database that
    answers: computed from the enhanced songs when every liked song and
    every song of the table can be enhanced, and the fallback ones, with
    the error on the console, when one of them cannot. *)
Lemma getEnhancedRecommendations_liked (userId : string) (limit : nat) (w w1 : World) :
  up (database w) = true -> likesOf userId (database w) <> [] ->
  initialize (called CallGetEnhancedRecommendations w) = (Ok tt, w1) ->
  let enhance :=
    exists enhancedLikedSongs enhancedAllSongs,
      map (fun e => id (enhanced_song e)) enhancedLikedSongs =
        map (fun l => id (l_song l)) (likesOf userId (database w)) /\
      map (fun e => id (enhanced_song e)) enhancedAllSongs =
        map id (songTable (database w)) /\
      getEnhancedRecommendations userId limit w =
      (Ok (firstn limit
             (sort_desc ai_similarity
                (uniqueById
                   (filter
                      (fun r =>
                         negb (existsb (fun l => String.eqb (id (l_song l)) (rec_id r))
                                       (likesOf userId (database w))))
                      (flat_map
                         (fun likedSong => findSimilarSongsWithAI likedSong enhancedAllSongs 10)
                         enhancedLikedSongs))))),
       w1) in
  let fall :=
    getEnhancedRecommendations userId limit w =
    (Ok (map (fun song =>
                {| ai_song := {| enhanced_song := song; predictedGenres := None;
                                 predictedMoods := None |};
                   ai_similarity := 0.5;
                   ai_basedOn := "Popular songs" |})
             (firstn limit (sort_by byLikes (songTable (database w))))),
     said (Error "Error getting enhanced recommendations:") w1) in
  let all :=
    forallb (fun l => moodsPredictable (l_song l)) (likesOf userId (database w)) &&
    forallb moodsPredictable (songTable (database w)) in
  (enhance \/ fall) /\
  (all = true -> enhance) /\
  (all = false -> moodAverages (predictor w1) <> None -> fall).
Proof.
  intros U NE E. cbv zeta.
  destruct (initialize_after _ _ E) as (D1 & I1 & E1 & _).
  change (database (called CallGetEnhancedRecommendations w)) with (database w) in D1.
  destruct (likesOf userId (database w)) as [|l0 ls] eqn:EL; [congruence|].
  destruct (for_each_outcome l_song (l0 :: ls) _ w1 E) as (r1 & R1 & Pid1 & Pok1 & Pth1).
  cbv iota in R1.
  destruct (for_each_outcome (fun s : Song => s) (songTable (database w)) w1 w1 E1)
    as (r2 & R2 & Pid2 & Pok2 & Pth2).
  assert (R2' : for_each enhanceSongWithPredictions (songTable (database w)) w1 = (r2, w1)).
  { transitivity (r2, match songTable (database w) with [] => w1 | _ :: _ => w1 end);
      [exact R2 | destruct (songTable (database w)); reflexivity]. }
  assert (Fall : (say (Error "Error getting enhanced recommendations:") ;;;
                  getFallbackRecommendations limit) w1 =
                 (Ok (map (fun song =>
                             {| ai_song := {| enhanced_song := song; predictedGenres := None;
                                              predictedMoods := None |};
                                ai_similarity := 0.5;
                                ai_basedOn := "Popular songs" |})
                          (firstn limit (sort_by byLikes (songTable (database w))))),
                  said (Error "Error getting enhanced recommendations:") w1)).
  { unfold bind at 1, say.
    change {| database := database w1; predictor := predictor w1;
              console := console w1 ++ [Error "Error getting enhanced recommendations:"];
              calls := calls w1 |}
      with (said (Error "Error getting enhanced recommendations:") w1).
    rewrite (getFallbackRecommendations_up limit
               (said (Error "Error getting enhanced recommendations:") w1))
      by (cbn [said database]; rewrite D1; exact U).
    cbn [said database]. rewrite D1. reflexivity. }
  destruct (getEnhancedRecommendations userId limit w) as [res wf] eqn:EG.
  unfold getEnhancedRecommendations, bind at 1, count_call in EG.
  change {| database := database w; predictor := predictor w; console := console w;
            calls := calls w ++ [CallGetEnhancedRecommendations] |}
    with (called CallGetEnhancedRecommendations w) in EG.
  unfold try_catch, bind at 1 in EG.
  rewrite (query_up (likesOf userId) (called CallGetEnhancedRecommendations w)) in EG
    by exact U.
  change (database (called CallGetEnhancedRecommendations w)) with (database w) in EG.
  rewrite EL in EG. cbv iota in EG.
  unfold bind at 1 in EG. rewrite R1 in EG.
  destruct r1 as [el|msg1].
  - unfold bind at 1 in EG. rewrite (query_up songTable w1) in EG by (rewrite D1; exact U).
    rewrite D1 in EG. unfold bind at 1 in EG. rewrite R2' in EG.
    destruct r2 as [ea|msg2].
    + unfold ret in EG. injection EG as <- <-.
      assert (Good : exists enhancedLikedSongs enhancedAllSongs,
                map (fun e => id (enhanced_song e)) enhancedLikedSongs =
                  map (fun l => id (l_song l)) (l0 :: ls) /\
                map (fun e => id (enhanced_song e)) enhancedAllSongs =
                  map id (songTable (database w)) /\
                (Ok (firstn limit
                       (sort_desc ai_similarity
                          (uniqueById
                             (filter
                                (fun r =>
                                   negb (existsb (fun l => String.eqb (id (l_song l)) (rec_id r))
                                                 (l0 :: ls)))
                                (flat_map
                                   (fun likedSong => findSimilarSongsWithAI likedSong ea 10)
                                   el))))), w1) =
                (Ok (firstn limit
                       (sort_desc ai_similarity
                          (uniqueById
                             (filter
                                (fun r =>
                                   negb (existsb (fun l => String.eqb (id (l_song l)) (rec_id r))
                                                 (l0 :: ls)))
                                (flat_map
                                   (fun likedSong =>
                                      findSimilarSongsWithAI likedSong enhancedAllSongs 10)
                                   enhancedLikedSongs))))),
                 w1)).
      { exists el, ea. split; [exact (Pid1 el eq_refl)|].
        split; [exact (Pid2 ea eq_refl) | reflexivity]. }
      split; [left; exact Good|]. split; [intros _; exact Good|].
      intros F T. apply andb_false_iff in F.
      destruct F as [F|F]; [specialize (Pth1 F T) | specialize (Pth2 F T)]; discriminate.
    + rewrite Fall in EG. injection EG as <- <-.
      split; [right; reflexivity|]. split; [|intros _ _; reflexivity].
      intros F. apply andb_true_iff in F. destruct F as [_ F].
      destruct (Pok2 F) as (es & C). discriminate.
  - rewrite Fall in EG. injection EG as <- <-.
    split; [right; reflexivity|]. split; [|intros _ _; reflexivity].
    intros F. apply andb_true_iff in F. destruct F as [F _].
    destruct (Pok1 F) as (es & C). discriminate.
Qed.

(** X23: [getEnhancedRecommendations] never throws and leaves the database
    as it is; it answers with at most [limit] entries.  For a user with
    likes, when every liked song and every song of the table has moods
    or genre rows that all carry a name, the entries are songs of the
    table, none of them liked by the user, no song twice, highest
    similarity first.  When one of these songs has no mood and a genre
    row without a name, as the rows of the join table are, enhancing it
    throws: the error is logged and the answer is the songs most liked,
    at similarity 0.5, the user's own likes among them.  For a user
    without likes the answer is the songs most liked as well, and with
    the database down it is empty.  A user whose one like is a song with
    a genre link and no mood is answered with this very song. *)
Theorem getEnhancedRecommendations_sound (userId : string) (limit : nat) (w : World) :
  exists recs w1 w',
    initialize (called CallGetEnhancedRecommendations w) = (Ok tt, w1) /\
    getEnhancedRecommendations userId limit w = (Ok recs, w') /\
    database w' = database w /\
    (List.length recs <= limit)%nat /\
    (up (database w) = true -> likesOf userId (database w) <> [] ->
     forallb (fun l => moodsPredictable (l_song l)) (likesOf userId (database w)) &&
     forallb moodsPredictable (songTable (database w)) = true ->
     w' = w1 /\
     Sorted (fun a b => ai_similarity b <= ai_similarity a) recs /\
     NoDup (map rec_id recs) /\
     Forall (fun r =>
               In (rec_id r) (map id (songTable (database w))) /\
               (forall l, In l (likesOf userId (database w)) -> id (l_song l) <> rec_id r))
            recs) /\
    (up (database w) = true -> likesOf userId (database w) <> [] ->
     forallb (fun l => moodsPredictable (l_song l)) (likesOf userId (database w)) &&
     forallb moodsPredictable (songTable (database w)) = false ->
     moodAverages (predictor w1) <> None ->
     w' = said (Error "Error getting enhanced recommendations:") w1 /\
     map (fun r => enhanced_song (ai_song r)) recs =
       firstn limit (sort_by byLikes (songTable (database w))) /\
     Forall (fun r => ai_similarity r = 0.5) recs) /\
    (initialized (predictor w) = false -> moodAverages (predictor w1) <> None) /\
    (up (database w) = true -> likesOf userId (database w) = [] ->
     map (fun r => enhanced_song (ai_song r)) recs =
       firstn limit (sort_by byLikes (songTable (database w))) /\
     Forall (fun r => ai_similarity r = 0.5) recs) /\
    (up (database w) = false -> recs = []) /\
    (exists recs' w'',
       getEnhancedRecommendations "u1" 20 Samples.fan = (Ok recs', w'') /\
       map (fun r => enhanced_song (ai_song r)) recs' = [Samples.linked] /\
       In (Error "Error getting enhanced recommendations:") (console w'')).
Proof.
  assert (Fallback : forall l : list Song,
            let recs :=
              map (fun song =>
                     {| ai_song := {| enhanced_song := song; predictedGenres := None;
                                      predictedMoods := None |};
                        ai_similarity := 0.5;
                        ai_basedOn := "Popular songs" |}) l in
            map (fun r => enhanced_song (ai_song r)) recs = l /\
            Forall (fun r => ai_similarity r = 0.5) recs).
  { intros l. cbv zeta. split.
    - rewrite map_map. cbn [ai_song enhanced_song]. apply map_id.
    - apply Forall_forall. intros r Hr. apply in_map_iff in Hr.
      destruct Hr as (s & <- & _). reflexivity. }
  assert (Sample : exists recs' w'',
             getEnhancedRecommendations "u1" 20 Samples.fan = (Ok recs', w'') /\
             map (fun r => enhanced_song (ai_song r)) recs' = [Samples.linked] /\
             In (Error "Error getting enhanced recommendations:") (console w'')).
  { destruct (initialize_runs (called CallGetEnhancedRecommendations Samples.fan))
      as (w1 & E & _).
    destruct (initialize_after _ _ E) as (_ & _ & _ & T).
    destruct (getEnhancedRecommendations_liked "u1" 20 Samples.fan w1 eq_refl) as (_ & _ & F);
      [discriminate | exact E |].
    specialize (F eq_refl (T eq_refl)). cbv zeta in F.
    eexists. eexists. split; [exact F|]. split.
    - destruct (Fallback (firstn 20 (sort_by byLikes (songTable (database Samples.fan)))))
        as [-> _].
      reflexivity.
    - cbn [said console]. apply in_or_app. right. left. reflexivity. }
  destruct (initialize_runs (called CallGetEnhancedRecommendations w)) as (w1 & E & _).
  destruct (initialize_after _ _ E) as (D1 & _ & _ & T).
  change (database (called CallGetEnhancedRecommendations w)) with (database w) in D1.
  change (predictor (called CallGetEnhancedRecommendations w)) with (predictor w) in T.
  destruct (up (database w)) eqn:U.
  - destruct (likesOf userId (database w)) as [|l0 ls] eqn:EL.
    + unfold getEnhancedRecommendations, bind at 1, count_call.
      set (w0 := {| database := database w; predictor := predictor w; console := console w;
                    calls := calls w ++ [CallGetEnhancedRecommendations] |}).
      unfold try_catch, bind at 1. rewrite (query_up (likesOf userId) w0) by exact U.
      change (database w0) with (database w). rewrite EL.
      rewrite (getFallbackRecommendations_up limit w0) by exact U.
      change (database w0) with (database w).
      eexists. exists w1. eexists. split; [exact E|].
      split; [reflexivity|]. split; [reflexivity|].
      split; [rewrite length_map, length_firstn; apply Nat.le_min_l|].
      split; [intros _ C; congruence|]. split; [intros _ C; congruence|].
      split; [exact T|]. split; [intros _ _; apply Fallback|].
      split; [discriminate | exact Sample].
    + destruct (getEnhancedRecommendations_liked userId limit w w1 U) as (Cases & Good & Fall);
        [rewrite EL; discriminate | exact E |].
      cbv zeta in Cases, Good, Fall. rewrite EL in Cases, Good, Fall.
      set (likes := l0 :: ls) in *.
      assert (Enhanced :
                forall el ea recs,
                  map (fun e => id (enhanced_song e)) ea = map id (songTable (database w)) ->
                  recs =
                  firstn limit
                    (sort_desc ai_similarity
                       (uniqueById
                          (filter
                             (fun r =>
                                negb (existsb (fun l => String.eqb (id (l_song l)) (rec_id r))
                                              likes))
                             (flat_map (fun likedSong => findSimilarSongsWithAI likedSong ea 10)
                                       el)))) ->
                  (List.length recs <= limit)%nat /\
                  Sorted (fun a b => ai_similarity b <= ai_similarity a) recs /\
                  NoDup (map rec_id recs) /\
                  Forall (fun r =>
                            In (rec_id r) (map id (songTable (database w))) /\
                            (forall l, In l likes -> id (l_song l) <> rec_id r)) recs).
      { intros el ea recs P2 ->. set (unique := uniqueById _).
        destruct (top_desc ai_similarity limit unique) as (S & L & I & _).
        split; [rewrite L; apply Nat.le_min_l|]. split; [exact S|]. split.
        - rewrite <- firstn_map. apply firstn_NoDup.
          eapply Permutation_NoDup.
          { apply Permutation_map. symmetry. apply sort_by_Permutation. }
          apply uniqueById_spec.
        - apply Forall_forall. intros r Hr. apply I in Hr.
          apply uniqueById_spec in Hr. apply filter_In in Hr. destruct Hr as [Hr NL].
          apply in_flat_map in Hr. destruct Hr as (liked & _ & Hr).
          apply findSimilarSongsWithAI_In in Hr. destruct Hr as (Ha & _ & Es & _).
          split.
          + rewrite <- P2. unfold rec_id.
            apply (in_map (fun e => id (enhanced_song e))). exact Ha.
          + intros l Hl C. apply negb_true_iff in NL.
            assert (existsb (fun l1 => String.eqb (id (l_song l1)) (rec_id r)) likes = true).
            { apply existsb_exists. exists l. split; [exact Hl | apply String.eqb_eq; exact C]. }
            congruence. }
      destruct Cases as [(el & ea & P1 & P2 & Eq)|Eq].
      * destruct (Enhanced el ea _ P2 eq_refl) as (Len & Props).
        eexists. exists w1, w1. split; [exact E|]. split; [exact Eq|]. split; [exact D1|].
        split; [exact Len|].
        split; [intros _ _ _; split; [reflexivity | exact Props]|].
        split.
        { intros _ _ F Tm. specialize (Fall F Tm). rewrite Eq in Fall.
          injection Fall as Er Ew.
          exfalso. assert (C : console w1 = console (said (Error "Error getting enhanced recommendations:") w1))
            by (rewrite <- Ew; reflexivity).
          cbn [said console] in C.
          apply (f_equal (@List.length Console)) in C. rewrite length_app in C. simpl in C. lia. }
        split; [exact T|]. split; [intros _ C; discriminate|].
        split; [discriminate | exact Sample].
      * eexists. exists w1. eexists. split; [exact E|]. split; [exact Eq|].
        split; [cbn [said database]; exact D1|].
        split; [rewrite length_map, length_firstn; apply Nat.le_min_l|].
        split.
        { intros _ _ F. destruct (Good F) as (el & ea & P1 & P2 & Eq').
          rewrite Eq in Eq'. injection Eq' as Er Ew.
          exfalso. assert (C : console (said (Error "Error getting enhanced recommendations:") w1) = console w1)
            by (rewrite Ew; reflexivity).
          cbn [said console] in C.
          apply (f_equal (@List.length Console)) in C. rewrite length_app in C. simpl in C. lia. }
        split; [intros _ _ _ _; split; [reflexivity | apply Fallback]|].
        split; [exact T|]. split; [intros _ C; discriminate|].
        split; [discriminate | exact Sample].
  - unfold getEnhancedRecommendations, bind at 1, count_call.
    set (w0 := {| database := database w; predictor := predictor w; console := console w;
                  calls := calls w ++ [CallGetEnhancedRecommendations] |}).
    unfold try_catch, bind at 1. rewrite (query_down (likesOf userId) w0) by exact U.
    unfold bind, say. cbn [database].
    rewrite getFallbackRecommendations_down by exact U.
    eexists. exists w1. eexists. split; [exact E|].
    split; [reflexivity|]. split; [reflexivity|].
    split; [simpl; lia|].
    split; [discriminate|]. split; [discriminate|]. split; [exact T|].
    split; [discriminate|]. split; [reflexivity | exact Sample].
Qed.

End AiRecommendationFacts.

Module ModelFacts.
Import AIFeaturePredictor MergeFacts LadderFacts TrainingFacts.

Lemma filter_all {A} (l : list A) : filter (fun _ => true) l = l.
Proof. induction l as [|x l IH]; simpl; [|rewrite IH]; reflexivity. Qed.

Lemma tagAverages_in_range (tags : Song -> option (list Name)) (trainingData : list Song) :
  Forall song_in_range trainingData ->
  models_in_range (Some (tagAverages tags trainingData)).
Proof.
  intros H. unfold tagAverages.
  rewrite <- (filter_all (fold_left _ trainingData [])).
  apply averages_in_range.
  assert (G : forall groups, groups_in_range groups ->
            groups_in_range
              (fold_left
                 (fun groups song =>
                    fold_left
                      (fun groups tag =>
                         push_group (name_key tag) (extractAudioFeatures song) groups)
                      (tag_names (tags song)) groups)
                 trainingData groups)).
  { induction H as [|s l Hs _ IH]; intros groups Hg; simpl; [exact Hg|].
    apply IH. generalize (tag_names (tags s)). intros names. revert groups Hg.
    induction names as [|t names IHn]; intros groups Hg; simpl; [exact Hg|].
    apply IHn, push_group_in_range; [apply extractAudioFeatures_in_range, Hs | exact Hg]. }
  apply G. intros k l [].
Qed.

(** X24: trained on songs whose audio features lie in the ranges of their
    features, the artist models, the year models, the genre averages and
    the mood averages all lie in those ranges. *)
Theorem trained_models_in_range (trainingData : list Song) (p : Predictor) :
  Forall song_in_range trainingData ->
  models_in_range (artistModels (train trainingData p)) /\
  models_in_range (yearModels (train trainingData p)) /\
  models_in_range (genreAverages (train trainingData p)) /\
  models_in_range (moodAverages (train trainingData p)).
Proof.
  intros H. destruct (train_in_range trainingData p H) as [A Y].
  split; [exact A|]. split; [exact Y|].
  split; apply tagAverages_in_range; exact H.
Qed.

(** The groups the training loops build: under a key, the values of the
    rows that have this key, in their order. *)
Lemma grouped_lookup {A} (key : A -> option string) (val : A -> FeatureObj)
  (l : list A) (k : string) :
  let groups :=
    fold_left
      (fun groups x =>
         match key x with
         | Some kx => push_group kx (val x) groups
         | None => groups
         end)
      l [] in
  NoDup (map fst groups) /\
  lookup k groups =
  match filter (fun x => match key x with
                         | Some kx => String.eqb kx k
                         | None => false
                         end) l with
  | [] => None
  | rows => Some (map val rows)
  end.
Proof.
  cbv zeta.
  assert (G : forall (l : list A) (groups : list (string * list FeatureObj)),
             NoDup (map fst groups) ->
             let res :=
               fold_left
                 (fun groups x =>
                    match key x with
                    | Some kx => push_group kx (val x) groups
                    | None => groups
                    end)
                 l groups in
             NoDup (map fst res) /\
             lookup k res =
             match lookup k groups,
                   filter (fun x => match key x with
                                    | Some kx => String.eqb kx k
                                    | None => false
                                    end) l with
             | None, [] => None
             | None, rows => Some (map val rows)
             | Some g, rows => Some (g ++ map val rows)
             end).
  { clear l. induction l as [|x l IH]; intros groups N; simpl.
    - split; [exact N|]. destruct (lookup k groups); [rewrite app_nil_r|]; reflexivity.
    - destruct (key x) as [kx|] eqn:EK; [|apply IH; exact N].
      destruct (IH (push_group kx (val x) groups)) as [N' L'].
      { apply upsert_NoDup. exact N. }
      split; [exact N'|]. rewrite L'. unfold push_group.
      destruct (String.eqb kx k) eqn:E.
      + apply String.eqb_eq in E. subst kx. rewrite lookup_upsert_same.
        destruct (lookup k groups) as [g|]; simpl; [rewrite <- app_assoc|]; reflexivity.
      + rewrite lookup_upsert_other by (rewrite String.eqb_sym; exact E). reflexivity. }
  destruct (G l [] (NoDup_nil _)) as [N L]. split; [exact N|]. rewrite L. reflexivity.
Qed.

(** Averaging the groups that are large enough. *)
Lemma averaged_lookup (least : nat) (groups : list (string * list FeatureObj)) (k : string) :
  lookup k (map (fun g => (fst g, calculateAverageFeatures (snd g)))
                (filter (fun g => (least <=? List.length (snd g))%nat) groups)) =
  match lookup k (filter (fun g => (least <=? List.length (snd g))%nat) groups) with
  | Some rows => Some (calculateAverageFeatures rows)
  | None => None
  end.
Proof.
  induction (filter _ groups) as [|[k' g] l IH]; simpl; [reflexivity|].
  destruct (String.eqb k k'); [reflexivity | exact IH].
Qed.

Lemma filtered_lookup {V} (keep : string * V -> bool) (groups : list (string * V)) (k : string) :
  NoDup (map fst groups) ->
  lookup k (filter keep groups) =
  match lookup k groups with
  | Some v => if keep (k, v) then Some v else None
  | None => None
  end.
Proof.
  induction groups as [|[k' v] groups IH]; simpl; intros N; [reflexivity|].
  inversion N as [|? ? Hn N']; subst.
  destruct (String.eqb k k') eqn:E.
  - apply String.eqb_eq in E. subst k'.
    destruct (keep (k, v)) eqn:K; simpl; [rewrite String.eqb_refl; reflexivity|].
    rewrite IH by exact N'.
    destruct (lookup k groups) as [v'|] eqn:L; [|reflexivity].
    exfalso. apply Hn. apply lookup_In in L.
    change k with (fst (k, v')). apply in_map. exact L.
  - destruct (keep (k', v)); simpl; [rewrite E|]; apply IH; exact N'.
Qed.

Lemma year_groups_fold (trainingData : list Song) (groups : list (string * list FeatureObj)) :
  fold_left
    (fun groups song =>
       match truthy_year (year song) with
       | Some y => push_group (getYearRange y) (extractAudioFeatures song) groups
       | None => groups
       end) trainingData groups =
  fold_left
    (fun groups x =>
       match option_map getYearRange (truthy_year (year x)) with
       | Some kx => push_group kx (extractAudioFeatures x) groups
       | None => groups
       end) trainingData groups.
Proof.
  revert groups. induction trainingData as [|s l IH]; intros groups; simpl; [reflexivity|].
  rewrite IH. destruct (truthy_year (year s)); reflexivity.
Qed.

(** X25: the artist model of an artist is there exactly when three or more
    training songs are by this artist, and is then the average of the
    features of these songs; the year model of a decade is there exactly
    when five or more training songs with a year fall in it, and is the
    average of theirs. *)
Theorem trained_model_thresholds (trainingData : list Song) (who decade : string) :
  let songsBy := filter (fun s => String.eqb (artist s) who) trainingData in
  let songsOf :=
    filter (fun s => match truthy_year (year s) with
                     | Some y => String.eqb (getYearRange y) decade
                     | None => false
                     end) trainingData in
  lookup who (createArtistModels trainingData) =
    (if (3 <=? List.length songsBy)%nat
     then Some (calculateAverageFeatures (map extractAudioFeatures songsBy))
     else None) /\
  lookup decade (createYearModels trainingData) =
    (if (5 <=? List.length songsOf)%nat
     then Some (calculateAverageFeatures (map extractAudioFeatures songsOf))
     else None).
Proof.
  cbv zeta. split.
  - unfold createArtistModels. rewrite averaged_lookup.
    destruct (grouped_lookup (fun s => Some (artist s)) extractAudioFeatures trainingData who)
      as [N L]. cbv beta iota in N, L.
    rewrite (filtered_lookup _ _ who N), L.
    destruct (filter _ trainingData) as [|s0 rows]; [reflexivity|].
    cbn [snd]. rewrite length_map. destruct (_ <=? _)%nat; reflexivity.
  - unfold createYearModels. rewrite averaged_lookup.
    destruct (grouped_lookup (fun s => option_map getYearRange (truthy_year (year s)))
                             extractAudioFeatures trainingData decade) as [N L].
    pose proof (year_groups_fold trainingData) as EF.
    assert (EQ : filter (fun x => match option_map getYearRange (truthy_year (year x)) with
                                  | Some kx => String.eqb kx decade
                                  | None => false
                                  end) trainingData =
                 filter (fun s => match truthy_year (year s) with
                                  | Some y => String.eqb (getYearRange y) decade
                                  | None => false
                                  end) trainingData).
    { apply filter_ext. intros s. destruct (truthy_year (year s)); reflexivity. }
    rewrite EQ in L. clear EQ.
    rewrite EF, (filtered_lookup _ _ decade N), L.
    destruct (filter _ trainingData) as [|s0 rows]; [reflexivity|].
    cbn [snd]. rewrite length_map. destruct (_ <=? _)%nat; reflexivity.
Qed.

End ModelFacts.

Module CompletionFacts.
Import AIFeaturePredictor DataCompletionEngine.
Import PredictorFacts EngineFacts InitializeFacts LabelFacts VectorFacts2.

Lemma audioFeatureRanges_same (name : Feature) :
  audioFeatureRanges name = AudioAnalysis.ranges name.
Proof. destruct name; reflexivity. Qed.

(** X26: [cleanSongData] names exactly the columns that hold a number
    outside the range of their feature, each with the bound of the
    range it is nearest to; the song with these columns updated lies in
    range, and cleaning it again names no column. *)
Theorem cleanSongData_clamps (song : Song) :
  let data := cleanSongData song in
  (forall name, data name <> None <->
     exists old, feature song name = Some old /\ ~ in_range name old) /\
  (forall name old v, feature song name = Some old -> data name = Some v ->
     (old < fst (AudioAnalysis.ranges name) -> v = fst (AudioAnalysis.ranges name)) /\
     (snd (AudioAnalysis.ranges name) < old -> v = snd (AudioAnalysis.ranges name))) /\
  song_in_range (updated data song) /\
  (forall name, cleanSongData (updated data song) name = None) /\
  (song_in_range song <-> forall name, data name = None).
Proof.
  cbv zeta.
  assert (Cases : forall name,
             match feature song name with
             | Some old =>
               (in_range name old /\ cleanSongData song name = None) \/
               (old < fst (AudioAnalysis.ranges name) /\
                cleanSongData song name = Some (fst (AudioAnalysis.ranges name))) \/
               (snd (AudioAnalysis.ranges name) < old /\
                cleanSongData song name = Some (snd (AudioAnalysis.ranges name)))
             | None => cleanSongData song name = None
             end).
  { intros name. unfold cleanSongData, in_range.
    change (audioFeatureRanges name) with (AudioAnalysis.ranges name).
    pose proof (VectorFacts3.ranges_ordered name) as RO.
    destruct (AudioAnalysis.ranges name) as [mn mx]. simpl in *.
    destruct (feature song name) as [old|]; [|reflexivity].
    unfold Rltb. destruct (Rlt_le_dec old mn) as [L|L].
    - rewrite (Rgtb_true mn old) by exact L. simpl. right. left. split; [exact L|].
      f_equal. unfold Rmax, Rmin. repeat destruct (Rle_dec _ _); lra.
    - rewrite (Rgtb_false mn old) by exact L. simpl.
      destruct (Rlt_le_dec mx old) as [G|G].
      + rewrite Rgtb_true by exact G. right. right. split; [exact G|].
        f_equal. unfold Rmax, Rmin. repeat destruct (Rle_dec _ _); lra.
      + rewrite Rgtb_false by exact G. left. auto. }
  assert (InR : song_in_range (updated (cleanSongData song) song)).
  { intros name v. unfold updated. cbn [feature set_audio].
    specialize (Cases name). pose proof (VectorFacts3.ranges_ordered name) as RO.
    destruct (feature song name) as [old|] eqn:E.
    - destruct Cases as [[I ->]|[[L ->]|[G ->]]]; intros Ev; injection Ev as <-;
        unfold in_range in *; lra.
    - rewrite Cases. discriminate. }
  split; [|split; [|split; [exact InR|split]]].
  - intros name. specialize (Cases name). unfold in_range in *.
    destruct (feature song name) as [old|] eqn:E.
    + destruct Cases as [[I ->]|[[L ->]|[G ->]]]; split; try congruence.
      * intros (old' & E' & N). injection E' as <-. contradiction.
      * intros _. exists old. split; [reflexivity | lra].
      * intros _. exists old. split; [reflexivity | lra].
    + rewrite Cases. split; [congruence | intros (old & C & _); discriminate].
  - intros name old v E Ev. specialize (Cases name). rewrite E in Cases.
    pose proof (VectorFacts3.ranges_ordered name) as RO. unfold in_range in Cases.
    destruct Cases as [[I C]|[[L C]|[G C]]]; rewrite C in Ev; try discriminate;
      injection Ev as <-; split; intros; lra || reflexivity.
  - intros name.
    assert (C2 : forall v, feature (updated (cleanSongData song) song) name = Some v ->
                           in_range name v) by (intros v; apply InR).
    set (u := updated (cleanSongData song) song) in *.
    unfold cleanSongData.
    change (audioFeatureRanges name) with (AudioAnalysis.ranges name).
    unfold in_range in C2. destruct (AudioAnalysis.ranges name) as [mn mx].
    cbn [fst snd] in C2.
    destruct (feature u name) as [v|]; [|reflexivity].
    specialize (C2 v eq_refl). unfold Rltb.
    rewrite (Rgtb_false mn v), (Rgtb_false v mx) by lra. reflexivity.
  - split.
    + intros SR name. specialize (Cases name).
      destruct (feature song name) as [old|] eqn:E; [|exact Cases].
      pose proof (SR name old E) as I. unfold in_range in I.
      destruct Cases as [[_ C]|[[L _]|[G _]]]; [exact C | lra | lra].
    + intros H name old E. specialize (Cases name). rewrite E in Cases.
      destruct Cases as [[I _]|[[_ C]|[_ C]]]; [exact I | |]; rewrite H in C; discriminate.
Qed.

Lemma completed_keys (predicted : FeatureObj) (names : list Feature) (name : Feature) :
  (forall k, predicted k <> None) ->
  fold_left
    (fun completionData k =>
       match predicted k with
       | Some v => set_feature completionData k v
       | None => completionData
       end)
    names empty_features name =
  if existsb (Feature_eqb name) names then predicted name else None.
Proof.
  intros Full.
  assert (G : forall (l : list Feature) (acc : FeatureObj),
             fold_left
               (fun completionData k =>
                  match predicted k with
                  | Some v => set_feature completionData k v
                  | None => completionData
                  end)
               l acc name =
             if existsb (Feature_eqb name) l then predicted name else acc name).
  { induction l as [|k l IH]; intros acc; simpl; [reflexivity|].
    rewrite IH. destruct (existsb (Feature_eqb name) l); [rewrite orb_true_r; reflexivity | rewrite orb_false_r].
    destruct (predicted k) as [v|] eqn:E; [|destruct (Full k E)].
    unfold set_feature.
    destruct (Feature_eqb name k) eqn:EN.
    - assert (name = k) by (destruct name, k; (reflexivity || discriminate)). subst k.
      assert (Feature_eqb name name = true) as -> by (destruct name; reflexivity).
      symmetry. exact E.
    - assert (Feature_eqb k name = false) as -> by (destruct name, k; (reflexivity || discriminate)).
      reflexivity. }
  apply G.
Qed.

Lemma missing_listed (song : Song) (name : Feature) :
  existsb (Feature_eqb name) (getMissingAudioFeatures song) = missing (feature song name).
Proof.
  unfold getMissingAudioFeatures.
  destruct (missing (feature song name)) eqn:M.
  - apply existsb_exists. exists name. split.
    + apply filter_In. split; [apply In_all_features | exact M].
    + destruct name; reflexivity.
  - destruct (existsb _ _) eqn:EX; [|reflexivity].
    apply existsb_exists in EX. destruct EX as (k & Hk & E).
    assert (name = k) by (destruct name, k; (reflexivity || discriminate)). subst k.
    apply filter_In in Hk. destruct Hk as [_ Hk]. congruence.
Qed.


Lemma object_keys_In (o : FeatureObj) (name : Feature) :
  In name (object_keys o) <-> o name <> None.
Proof.
  unfold object_keys. rewrite filter_In. split.
  - intros [_ H] C. rewrite C in H. discriminate.
  - intros H. split; [apply In_all_features|]. destruct (o name); [reflexivity | congruence].
Qed.

Lemma object_keys_empty (o : FeatureObj) :
  (forall name, o name = None) -> object_keys o = [].
Proof.
  intros H. destruct (object_keys o) as [|k ks] eqn:E; [reflexivity|].
  assert (I : In k (object_keys o)) by (rewrite E; left; reflexivity).
  apply object_keys_In in I. destruct (I (H k)).
Qed.

(** The data [generateCompletionData] collects, given what
    [predictMoods] answers. *)
Lemma generateCompletionData_runs (song : Song) (w w1 : World) :
  initialize w = (Ok tt, w1) ->
  exists moodNames,
    predictMoods song w1 = (moodNames, w1) /\
    generateCompletionData song w =
    (match (if hasTags (moods song) then Ok None else result_map Some moodNames) with
     | Ok predictedMoods =>
       Ok {| completedFeatures :=
               fold_left
                 (fun completionData name =>
                    match predictedFeatures (predictor w1) song name with
                    | Some v => set_feature completionData name v
                    | None => completionData
                    end)
                 (getMissingAudioFeatures song) empty_features;
             predictedGenres :=
               if hasTags (genres song) then None
               else Some (map Named
                            (predictGenresFromFeatures (predictor w1)
                               (predictedFeatures (predictor w1) song) song));
             predictedMoods := predictedMoods |}
     | Thrown e => Thrown e
     end,
     w1).
Proof.
  intros E.
  assert (I : initialized (predictor w1) = true).
  { destruct (initialize_runs w) as (w2 & E2 & I & _).
    rewrite E in E2. injection E2 as <-. exact I. }
  assert (E1 : initialize w1 = (Ok tt, w1)) by (apply initialize_done; exact I).
  assert (PA : predictAudioFeatures song w = (Ok (predictedFeatures (predictor w1) song), w1))
    by (unfold predictAudioFeatures, bind; rewrite E; reflexivity).
  destruct (predictGenres_runs song w1) as (wg & Eg & PG).
  rewrite E1 in Eg. injection Eg as <-.
  destruct (predictMoods_outcome song w1) as (moodNames & wm & Em & PM & _).
  rewrite E1 in Em. injection Em as <-.
  exists moodNames. split; [exact PM|].
  unfold generateCompletionData, bind at 1. rewrite PA. cbv iota beta zeta.
  destruct (hasTags (genres song)) eqn:HG; destruct (hasTags (moods song)) eqn:HM;
    unfold bind, ret; rewrite ?PG, ?PM; cbv iota beta; rewrite ?PM;
    try reflexivity; destruct moodNames; reflexivity.
Qed.

(** X27: [generateCompletionData] leaves the database as it is.  For a
    song that has moods, or whose genre rows all carry a name, it
    answers with data that holds a number under exactly the features
    [getMissingAudioFeatures] lists (absent, null or 0 on the song),
    namely the prediction of the ladder; the data holds predicted genres
    exactly when the song has none, and predicted moods exactly when the
    song has none, each at most two labels with no label twice; for a
    song that misses nothing the data is empty and [shouldSkipCompletion]
    answers true.  For a song without moods that has a genre row without
    a name, as the rows of the join table are, it throws the TypeError of
    [predictMoods] once the mood averages are set, which they are after
    the first call: so it does for a song with one genre link and no
    mood on a fresh install. *)
Theorem generateCompletionData_fills (song : Song) (w : World) :
  exists r w',
    initialize w = (Ok tt, w') /\
    generateCompletionData song w = (r, w') /\
    database w' = database w /\
    (moodsPredictable song = true -> exists data, r = Ok data) /\
    (moodsPredictable song = false -> moodAverages (predictor w') <> None ->
     r = Thrown notAFunction) /\
    (initialized (predictor w) = false -> moodAverages (predictor w') <> None) /\
    (forall data, r = Ok data ->
       (forall name,
          completedFeatures data name =
          (if existsb (Feature_eqb name) (getMissingAudioFeatures song)
           then Some (predictFeature (predictor w') name (availableFeaturesOf song) song)
           else None)) /\
       (predictedGenres data = None <-> hasTags (genres song) = true) /\
       (predictedMoods data = None <-> hasTags (moods song) = true) /\
       (forall names, predictedGenres data = Some names \/ predictedMoods data = Some names ->
          exists labels,
            names = map Named labels /\ (List.length labels <= 2)%nat /\ NoDup labels) /\
       (getMissingAudioFeatures song = [] -> hasTags (genres song) = true ->
        hasTags (moods song) = true ->
        keyCount data = 0%nat /\ shouldSkipCompletion song data = true)) /\
    (forall name, In name (getMissingAudioFeatures song) <->
                  feature song name = None \/ feature song name = Some 0) /\
    (exists w'',
       generateCompletionData Samples.linked Samples.freshInstall =
       (Thrown notAFunction, w'')).
Proof.
  assert (Sample : exists w'',
             generateCompletionData Samples.linked Samples.freshInstall =
             (Thrown notAFunction, w'')).
  { destruct (initialize_runs Samples.freshInstall) as (w1 & E & I & _ & _ & _ & Tables).
    destruct (generateCompletionData_runs Samples.linked _ _ E) as (rm & PM & EG).
    destruct (predictMoods_outcome Samples.linked w1) as (rm' & wm & Em & PM' & _ & _ & Th).
    rewrite (initialize_done w1 I) in Em. injection Em as <-.
    rewrite PM in PM'. injection PM' as <-.
    rewrite (Th eq_refl eq_refl (proj2 (proj2 (Tables eq_refl)))) in EG.
    exists w1. exact EG. }
  destruct (initialize_runs w) as (w1 & E & I & D & _ & _ & Tables).
  destruct (generateCompletionData_runs song w w1 E) as (rm & PM & EG).
  destruct (predictMoods_outcome song w1) as (rm' & wm & Em & PM' & Own & Nm & Th).
  rewrite (initialize_done w1 I) in Em. injection Em as <-.
  rewrite PM in PM'. injection PM' as <-.
  assert (Full : forall k, predictedFeatures (predictor w1) song k <> None).
  { intros k. unfold predictedFeatures. destruct (missing (feature song k)) eqn:M; [discriminate|].
    apply missing_false in M. destruct M as (x & -> & _). discriminate. }
  assert (Listed : forall name, In name (getMissingAudioFeatures song) <->
                                feature song name = None \/ feature song name = Some 0).
  { intros name. unfold getMissingAudioFeatures. rewrite filter_In. unfold missing. split.
    - intros [_ M]. destruct (feature song name) as [x|]; [|left; reflexivity].
      right. f_equal. destruct (Req_dec x 0) as [Z|NZ]; [exact Z|].
      rewrite Reqb_false in M by exact NZ. discriminate.
    - intros [-> | ->]; (split; [apply In_all_features|]); [reflexivity|].
      apply Reqb_true. reflexivity. }
  eexists. exists w1. split; [exact E|]. split; [exact EG|]. split; [exact D|].
  unfold moodsPredictable.
  split; [|split; [|split; [intros Hi; apply (Tables Hi)|
                            split; [|split; [exact Listed | exact Sample]]]]].
  - intros P. destruct (hasTags (moods song)) eqn:HM; [eexists; reflexivity|].
    simpl in P. destruct (Nm eq_refl (or_introl P)) as (labels & -> & _).
    eexists. reflexivity.
  - intros P T. apply orb_false_iff in P. destruct P as [HM NG].
    rewrite HM, (Th HM NG T). reflexivity.
  - intros data Ed.
    assert (Moods : exists pm,
               (if hasTags (moods song) then Ok None else result_map Some rm) = Ok pm /\
               (pm = None <-> hasTags (moods song) = true) /\
               (forall names, pm = Some names ->
                  exists labels,
                    names = map Named labels /\ (List.length labels <= 2)%nat /\ NoDup labels)).
    { destruct (hasTags (moods song)) eqn:HM.
      - exists None. split; [reflexivity|]. split; [tauto | discriminate].
      - destruct rm as [names|msg]; [|discriminate Ed].
        exists (Some names). split; [reflexivity|].
        split; [split; discriminate|].
        intros names' En. injection En as <-.
        destruct (namedGenres song) eqn:NG.
        + destruct (Nm eq_refl (or_introl eq_refl)) as (labels & El & Props).
          injection El as ->. exists labels. split; [reflexivity | exact Props].
        + destruct (moodAverages (predictor w1)) as [table|] eqn:T.
          * assert (C : @Ok (list Name) names = Thrown notAFunction)
              by (apply Th; [reflexivity | reflexivity | discriminate]).
            discriminate.
          * destruct (Nm eq_refl (or_intror eq_refl)) as (labels & El & Props).
            injection El as ->. exists labels. split; [reflexivity | exact Props]. }
    destruct Moods as (pm & Epm & Mnone & Mlabels). rewrite Epm in Ed.
    injection Ed as <-. cbn [completedFeatures predictedGenres predictedMoods].
    split; [|split; [|split; [exact Mnone|split]]].
    + intros name. rewrite (completed_keys _ _ name Full).
      destruct (existsb (Feature_eqb name) (getMissingAudioFeatures song)) eqn:EX;
        [|reflexivity].
      rewrite missing_listed in EX. unfold predictedFeatures. rewrite EX. reflexivity.
    + destruct (hasTags (genres song)); split; intros; (reflexivity || discriminate).
    + intros names [G|G]; [|exact (Mlabels names G)].
      destruct (hasTags (genres song)); [discriminate|]. injection G as <-.
      eexists. split; [reflexivity|]. apply predictGenresFromFeatures_labels.
    + intros MS TG TM. rewrite TG.
      assert (pm = None) as -> by (apply Mnone; exact TM).
      assert (KE : object_keys
                     (fold_left
                        (fun completionData name =>
                           match predictedFeatures (predictor w1) song name with
                           | Some v => set_feature completionData name v
                           | None => completionData
                           end)
                        (getMissingAudioFeatures song) empty_features) = []).
      { rewrite MS. reflexivity. }
      unfold shouldSkipCompletion, keyCount.
      cbn [completedFeatures predictedGenres predictedMoods]. rewrite KE. split; reflexivity.
Qed.

(** X28: [shouldSkipCompletion] answers true exactly when the
    completion data holds no number above 0 and no label list with a
    label in it: the test for empty data is one case of this.  So data
    whose only numbers are 0 or below (a predicted loudness, say) is
    skipped although it is not empty. *)
Theorem shouldSkipCompletion_iff (song : Song) (data : CompletionData) :
  (shouldSkipCompletion song data = true <->
   (forall name v, completedFeatures data name = Some v -> v <= 0) /\
   (predictedGenres data = None \/ predictedGenres data = Some []) /\
   (predictedMoods data = None \/ predictedMoods data = Some [])) /\
  (forall v, v <= 0 ->
     shouldSkipCompletion song
       {| completedFeatures := set_feature empty_features loudness v;
          predictedGenres := None; predictedMoods := None |} = true).
Proof.
  assert (Main : shouldSkipCompletion song data = true <->
   (forall name v, completedFeatures data name = Some v -> v <= 0) /\
   (predictedGenres data = None \/ predictedGenres data = Some []) /\
   (predictedMoods data = None \/ predictedMoods data = Some [])).
  { assert (Valid : hasValidPredictions data = false <->
     (forall name v, completedFeatures data name = Some v -> v <= 0) /\
     (predictedGenres data = None \/ predictedGenres data = Some []) /\
     (predictedMoods data = None \/ predictedMoods data = Some [])).
    { unfold hasValidPredictions. rewrite !orb_false_iff. split.
      - intros [[N G] M]. split; [|split].
        + intros name v Ev.
          destruct (Rle_lt_dec v 0) as [L|L]; [exact L|].
          assert (C : existsb (fun k => Rgtb (num_at (completedFeatures data) k) 0)
                              (object_keys (completedFeatures data)) = true).
          { apply existsb_exists. exists name. split.
            - apply object_keys_In. congruence.
            - unfold num_at. rewrite Ev. apply Rgtb_true. exact L. }
          congruence.
        + destruct (predictedGenres data) as [[|]|]; auto; discriminate.
        + destruct (predictedMoods data) as [[|]|]; auto; discriminate.
      - intros (N & G & M). split; [split|].
        + destruct (existsb _ _) eqn:EX; [|reflexivity].
          apply existsb_exists in EX. destruct EX as (k & Hk & P).
          apply object_keys_In in Hk. unfold num_at in P.
          destruct (completedFeatures data k) as [v|] eqn:Ev; [|congruence].
          rewrite Rgtb_false in P by (apply (N k v Ev)). discriminate.
        + destruct G as [-> | ->]; reflexivity.
        + destruct M as [-> | ->]; reflexivity. }
    unfold shouldSkipCompletion. destruct (keyCount data =? 0)%nat eqn:K.
    - split; [intros _|reflexivity]. apply Nat.eqb_eq in K. unfold keyCount in K.
      assert (K1 : object_keys (completedFeatures data) = []).
      { destruct (object_keys (completedFeatures data)); [reflexivity|]. simpl in K. lia. }
      split; [|split].
      + intros name v Ev.
        assert (I : In name (object_keys (completedFeatures data)))
          by (apply object_keys_In; congruence).
        rewrite K1 in I. destruct I.
      + destruct (predictedGenres data); [|left; reflexivity]. lia.
      + destruct (predictedMoods data); [|left; reflexivity].
        destruct (predictedGenres data); lia.
    - rewrite negb_true_iff. exact Valid. }
  split; [exact Main|].
  intros v L. clear Main. unfold shouldSkipCompletion, keyCount, hasValidPredictions.
  cbn [completedFeatures predictedGenres predictedMoods].
  assert (KS : object_keys (set_feature empty_features loudness v) = [loudness])
    by reflexivity.
  rewrite KS. cbn [List.length Nat.add Nat.eqb existsb]. unfold num_at.
  cbn [set_feature Feature_eqb]. rewrite Rgtb_false by exact L. reflexivity.
Qed.

End CompletionFacts.

Module WitnessFacts.
Import Samples Listeners.
Import CollaborativeFiltering AIFeaturePredictor.

Lemma listener_history : plain_history "u1" (database listener).
Proof.
  unfold plain_history.
  change (interactionsOf "u1" (database listener)) with [played].
  change (ratingsOf "u1" (database listener)) with [rated].
  split; repeat constructor; unfold played, rated; cbn [playCount totalTime rating]; lra.
Qed.

Lemma findSimilarItems_runs (userId : string) (limit : nat) (w : World) :
  exists recs w', findSimilarItems userId limit w = (Ok recs, w').
Proof.
  destruct (up (database w)) eqn:U.
  - rewrite (ItemFacts.findSimilarItems_up userId limit w U).
    destruct (userSongsOf userId (database w)); eexists; eexists; reflexivity.
  - rewrite (ItemFacts.findSimilarItems_down userId limit w U). eexists; eexists; reflexivity.
Qed.

Lemma content_getRecommendations_runs (userId : string) (limit : nat) (w : World) :
  exists recs w', ContentBasedFiltering.getRecommendations userId limit w = (Ok recs, w').
Proof.
  destruct (up (database w)) eqn:U.
  - rewrite (ContentFacts.content_getRecommendations_up userId limit w U).
    destruct (ContentBasedFiltering.userPreferencesOf userId (database w)); eexists; eexists; reflexivity.
  - rewrite (ContentFacts.content_getRecommendations_down userId limit w U).
    eexists; eexists; reflexivity.
Qed.

Lemma audiophile_history : plain_history "u1" (database audiophile).
Proof. split; constructor. Qed.

(** A listener who likes one of two songs that have audio features: the
    other song is recommended, at its similarity times the weight 2 of a
    liked song. *)
Lemma findSimilarItems_scores_witness :
  plain_history "u1" (database audiophile) /\
  exists recs w',
    findSimilarItems "u1" 10 audiophile = (Ok recs, w') /\
    map (fun r => id (item_song r)) recs = ["s2"] /\
    map getUserSongWeight (userSongsOf "u1" (database audiophile)) = [1 + 1] /\
    (forall us, In us (userSongsOf "u1" (database audiophile)) ->
                1 <= getUserSongWeight us <= 4) /\
    Forall (fun r =>
              0 <= score r /\
              exists us sim,
                In us (userSongsOf "u1" (database audiophile)) /\
                In sim (SimilarSongs.findSimilarSongs (us_song us)
                          (songTable (database audiophile)) 10) /\
                score r = SimilarSongs.similarity sim * getUserSongWeight us) recs.
Proof.
  split; [exact audiophile_history|].
  eexists. eexists.
  split; [rewrite (ItemFacts.findSimilarItems_up "u1" 10 audiophile eq_refl); reflexivity|].
  split; [reflexivity|]. split; [reflexivity|].
  refine (ItemFacts.findSimilarItems_scores "u1" 10 audiophile _ _ audiophile_history _).
  rewrite (ItemFacts.findSimilarItems_up "u1" 10 audiophile eq_refl). reflexivity.
Defined.

(** The same listener, asking the content-based filter. *)
Lemma content_similarity_bounded_witness :
  plain_history "u1" (database listener) /\
  exists recs w',
    ContentBasedFiltering.getRecommendations "u1" 10 listener = (Ok recs, w') /\
    Forall (fun r => 0 <= ContentBasedFiltering.rec_similarity r <= 1) recs.
Proof.
  split; [exact listener_history|].
  destruct (content_getRecommendations_runs "u1" 10 listener) as (recs & w' & E).
  exists recs, w'. split; [exact E|].
  exact (ContentFacts.content_similarity_bounded "u1" 10 listener w' recs listener_history E).
Defined.



Lemma trainingRow_in_range (i : string) (e : R) :
  0 <= e <= 1 -> song_in_range (trainingRow i e).
Proof.
  intros He name v E. unfold trainingRow in E. cbn [feature] in E.
  unfold in_range.
  destruct name; cbn in E; try discriminate E; injection E as <-; cbn; lra.
Qed.

Lemma trainingRows_in_range : Forall song_in_range trainingRows.
Proof.
  unfold trainingRows. repeat (constructor; [apply trainingRow_in_range; lra|]). constructor.
Qed.

(** Training on five songs of one artist and one decade, each with a
    genre link and a mood link: the four tables hold a model each, the
    genre and mood tables under the key the missing names turn into. *)
Lemma trained_models_in_range_witness :
  Forall song_in_range trainingRows /\
  (exists model value,
     lookup "Artist" (createArtistModels trainingRows) = Some model /\
     model energy = Some value) /\
  (exists model value,
     lookup "2010s" (createYearModels trainingRows) = Some model /\
     model energy = Some value) /\
  (exists model value,
     lookup "undefined" (trainGenreModels trainingRows) = Some model /\
     model energy = Some value) /\
  (exists model value,
     lookup "undefined" (trainMoodModels trainingRows) = Some model /\
     model energy = Some value) /\
  models_in_range (artistModels (train trainingRows newPredictor)) /\
  models_in_range (yearModels (train trainingRows newPredictor)) /\
  models_in_range (genreAverages (train trainingRows newPredictor)) /\
  models_in_range (moodAverages (train trainingRows newPredictor)).
Proof.
  split; [exact trainingRows_in_range|].
  split; [eexists; eexists; split; reflexivity|].
  split; [eexists; eexists; split; reflexivity|].
  split; [eexists; eexists; split; reflexivity|].
  split; [eexists; eexists; split; reflexivity|].
  exact (ModelFacts.trained_models_in_range trainingRows newPredictor trainingRows_in_range).
Defined.

End WitnessFacts.
